(** * shade: camera, orbit controller and frame renderer

    A shallow embedding of [src/render/Camera.js], of the orbit controller
    ([OrbitControls], camera/OrbitControls.js) with its DOM listeners, of
    [Renderer.render], [Renderer.updateCameraUniforms] and
    [Renderer.dispose] ([src/render/Renderer.js]) and of the vector
    functions of [MathUtils], with the properties the specification states
    about them and further properties of the code.

    JavaScript numbers are IEEE 754 binary64 values: they are modelled by the
    kernel's primitive [float], whose operations are the binary64 ones
    (round to nearest, ties to even), so that [+], [-], [*], [/] and
    [Math.sqrt] below are the operations the program performs, including
    their results on zero, on the infinities and on NaN. *)

From Stdlib Require Import Bool List ZArith Lia String.
From Stdlib Require Import Floats.
Import ListNotations.

#[local] Set Warnings "-inexact-float,-abstract-large-number".
#[local] Open Scope float_scope.

(** ** JavaScript numbers *)

Module JS.

(** [Math.PI], the double nearest to pi. *)
Definition PI : float := 0x1.921fb54442d18p+1.

Definition Infinity : float := infinity.

Definition is_pzero (x : float) : bool := is_zero x && negb (get_sign x).
Definition is_nzero (x : float) : bool := is_zero x && get_sign x.

(** [Math.max(a, b)] (ECMAScript 21.3.2.24): NaN if either argument is
    NaN; [+0] is larger than [-0]. *)
Definition max (a b : float) : float :=
  if is_nan a || is_nan b then nan
  else if is_pzero b && is_nzero a then b
  else if a <? b then b else a.

(** [Math.min(a, b)] (ECMAScript 21.3.2.25). *)
Definition min (a b : float) : float :=
  if is_nan a || is_nan b then nan
  else if is_nzero b && is_pzero a then b
  else if b <? a then b else a.

(** ToBoolean on a number: [0], [-0] and NaN are falsy. *)
Definition truthy (x : float) : bool := negb (is_zero x || is_nan x).

(** [o.f || d] for an option [f] that is a number or absent
    ([undefined], modelled by [None]). *)
Definition or_num (o : option float) (d : float) : float :=
  match o with
  | Some x => if truthy x then x else d
  | None => d
  end.

(** [o.f || d] for an option that is an object (an array, always truthy)
    or absent. *)
Definition or_obj {A : Type} (o : option A) (d : A) : A :=
  match o with
  | Some x => x
  | None => d
  end.

(** [o.f || false] for a boolean option. *)
Definition or_false (o : option bool) : bool :=
  match o with
  | Some b => b
  | None => false
  end.

(** [o.f !== undefined ? o.f : d] *)
Definition defined_or {A : Type} (o : option A) (d : A) : A :=
  match o with
  | Some x => x
  | None => d
  end.

(** The functions of [Math] that ECMAScript leaves
    implementation-approximated: the program's behaviour is stated for
    every host implementation of them. *)
Record MathLib : Type := {
  sin : float -> float;
  cos : float -> float;
  tan : float -> float;
  acos : float -> float;
  atan2 : float -> float -> float;
  pow : float -> float -> float
}.

End JS.

(** A JavaScript array of three numbers ([position], [target], [up],
    [panOffset]). *)
Record Vec3 : Type := mkVec3 { v0 : float; v1 : float; v2 : float }.

(** A 4x4 matrix stored as sixteen numbers, column-major. *)
Definition Mat4 : Type := list float.

(** [new Float32Array(n)]: n zeros. *)
Definition Float32Array_new (n : nat) : list float := repeat 0 n.

(** The part of the canvas element the program reads. *)
Record Canvas : Type := {
  clientWidth : float;
  clientHeight : float;
  width : float;
  height : float
}.

(** ** Camera (src/render/Camera.js) *)

Module Camera.

Inductive AspectRatio : Type :=
| auto
| ratio (a : float).

Record Options : Type := {
  o_type : option string;
  o_position : option Vec3;
  o_target : option Vec3;
  o_up : option Vec3;
  o_fov : option float;
  o_aspectRatio : option float;
  o_nearPlane : option float;
  o_farPlane : option float;
  o_size : option float
}.

(** [{}] *)
Definition no_options : Options :=
  {| o_type := None; o_position := None; o_target := None; o_up := None;
     o_fov := None; o_aspectRatio := None; o_nearPlane := None;
     o_farPlane := None; o_size := None |}.

(** The camera object: [position], [target] and [up] are arrays of three
    numbers, taken by value (the three arrays are distinct objects).
    [viewUpdates] and [projectionUpdates] are not fields of the program:
    they count the calls of [updateViewMatrix] and [updateProjectionMatrix],
    the matrix builders.  The fields no method reads ([viewport],
    [frustumPlanes]) are left out, and [controls] is in [CameraRig]. *)
Record t : Type := mk {
  canvas : Canvas;                (* this.engine.canvas *)
  type : string;
  position : Vec3;
  target : Vec3;
  up : Vec3;
  fov : float;
  aspectRatio : AspectRatio;
  nearPlane : float;
  farPlane : float;
  size : float;
  viewMatrix : Mat4;
  projectionMatrix : Mat4;
  viewProjectionMatrix : Mat4;
  viewDirty : bool;
  projectionDirty : bool;
  viewUpdates : nat;
  projectionUpdates : nat
}.

Definition set_position (p : Vec3) (c : t) : t :=
  mk (canvas c) (type c) p (target c) (up c) (fov c) (aspectRatio c)
     (nearPlane c) (farPlane c) (size c) (viewMatrix c)
     (projectionMatrix c) (viewProjectionMatrix c) (viewDirty c)
     (projectionDirty c) (viewUpdates c) (projectionUpdates c).

Definition set_target (p : Vec3) (c : t) : t :=
  mk (canvas c) (type c) (position c) p (up c) (fov c) (aspectRatio c)
     (nearPlane c) (farPlane c) (size c) (viewMatrix c)
     (projectionMatrix c) (viewProjectionMatrix c) (viewDirty c)
     (projectionDirty c) (viewUpdates c) (projectionUpdates c).

Definition set_viewDirty (b : bool) (c : t) : t :=
  mk (canvas c) (type c) (position c) (target c) (up c) (fov c)
     (aspectRatio c) (nearPlane c) (farPlane c) (size c) (viewMatrix c)
     (projectionMatrix c) (viewProjectionMatrix c) b
     (projectionDirty c) (viewUpdates c) (projectionUpdates c).

Definition set_projectionDirty (b : bool) (c : t) : t :=
  mk (canvas c) (type c) (position c) (target c) (up c) (fov c)
     (aspectRatio c) (nearPlane c) (farPlane c) (size c) (viewMatrix c)
     (projectionMatrix c) (viewProjectionMatrix c) (viewDirty c)
     b (viewUpdates c) (projectionUpdates c).

Definition count_viewUpdate (c : t) : t :=
  mk (canvas c) (type c) (position c) (target c) (up c) (fov c)
     (aspectRatio c) (nearPlane c) (farPlane c) (size c) (viewMatrix c)
     (projectionMatrix c) (viewProjectionMatrix c) (viewDirty c)
     (projectionDirty c) (S (viewUpdates c)) (projectionUpdates c).

Definition count_projectionUpdate (c : t) : t :=
  mk (canvas c) (type c) (position c) (target c) (up c) (fov c)
     (aspectRatio c) (nearPlane c) (farPlane c) (size c) (viewMatrix c)
     (projectionMatrix c) (viewProjectionMatrix c) (viewDirty c)
     (projectionDirty c) (viewUpdates c) (S (projectionUpdates c)).

(** [options.aspectRatio || 'auto'] *)
Definition aspect_of (o : option float) : AspectRatio :=
  match o with
  | Some a => if JS.truthy a then ratio a else auto
  | None => auto
  end.

(** [options.type || 'perspective']: the empty string is falsy. *)
Definition type_of (o : option string) : string :=
  match o with
  | Some s => if String.eqb s EmptyString then "perspective"%string else s
  | None => "perspective"%string
  end.

(** [constructor(engine, options = {})], Camera.js:5-40. *)
Definition new (engine_canvas : Canvas) (options : Options) : t :=
  {| canvas := engine_canvas;
     type := type_of (o_type options);
     position := JS.or_obj (o_position options) (mkVec3 0 0 5);
     target := JS.or_obj (o_target options) (mkVec3 0 0 0);
     up := JS.or_obj (o_up options) (mkVec3 0 1 0);
     fov := JS.or_num (o_fov options) 60;
     aspectRatio := aspect_of (o_aspectRatio options);
     nearPlane := JS.or_num (o_nearPlane options) 0.1;
     farPlane := JS.or_num (o_farPlane options) 1000;
     size := JS.or_num (o_size options) 10;
     viewMatrix := Float32Array_new 16;
     projectionMatrix := Float32Array_new 16;
     viewProjectionMatrix := Float32Array_new 16;
     viewDirty := true;
     projectionDirty := true;
     viewUpdates := 0;
     projectionUpdates := 0 |}.

(** Camera.js:42-47 *)
Definition setPosition (x y z : float) (c : t) : t :=
  set_viewDirty true (set_position (mkVec3 x y z) c).

(** Camera.js:49-54 *)
Definition setTarget (x y z : float) (c : t) : t :=
  set_viewDirty true (set_target (mkVec3 x y z) c).

(** Camera.js:56-61 *)
Definition lookAt (x y z : float) (c : t) : t :=
  set_viewDirty true (set_target (mkVec3 x y z) c).

(** The methods of the class whose parameters are [(x, y, z)], by name:
    Camera.js declares these three and no other. *)
Definition method_xyz (name : string)
  : option (float -> float -> float -> t -> t) :=
  if String.eqb name "setPosition" then Some setPosition
  else if String.eqb name "setTarget" then Some setTarget
  else if String.eqb name "lookAt" then Some lookAt
  else None.

(** Camera.js:88-96.  The body only clears the flag: the computation of
    the matrix is a comment, so [viewMatrix] is left as it is. *)
Definition updateViewMatrix (c : t) : t :=
  set_viewDirty false (count_viewUpdate c).

(** Camera.js:98-129.  [aspect], [halfWidth] and [halfHeight] are computed
    and not used: the two matrix computations are comments. *)
Definition updateProjectionMatrix (c : t) : t :=
  let aspect :=
    match aspectRatio c with
    | auto => width (canvas c) / height (canvas c)
    | ratio a => a
    end in
  set_projectionDirty false (count_projectionUpdate c).

(** Camera.js:63-68: the returned matrix and the camera afterwards. *)
Definition getViewMatrix (c : t) : Mat4 * t :=
  let c := if viewDirty c then updateViewMatrix c else c in
  (viewMatrix c, c).

(** Camera.js:70-75 *)
Definition getProjectionMatrix (c : t) : Mat4 * t :=
  let c := if projectionDirty c then updateProjectionMatrix c else c in
  (projectionMatrix c, c).

(** Camera.js:77-86: [view] and [projection] are fetched and not used;
    the field [viewProjectionMatrix] is returned as it is. *)
Definition getViewProjectionMatrix (c : t) : Mat4 * t :=
  let '(view, c) := getViewMatrix c in
  let '(projection, c) := getProjectionMatrix c in
  (viewProjectionMatrix c, c).

(** Camera.js:136-140 *)
Definition resize (c : t) : t :=
  match aspectRatio c with
  | auto => set_projectionDirty true c
  | ratio _ => c
  end.

End Camera.

(** ** OrbitControls (camera/OrbitControls.js, src/unnamed/part_005:156-551) *)

Module OrbitControls.

Record Spherical : Type := mkSpherical {
  radius : float;
  phi : float;
  theta : float
}.

Record Options : Type := {
  o_target : option Vec3;
  o_minDistance : option float;
  o_maxDistance : option float;
  o_minPolarAngle : option float;
  o_maxPolarAngle : option float;
  o_minAzimuthAngle : option float;
  o_maxAzimuthAngle : option float;
  o_rotateSpeed : option float;
  o_zoomSpeed : option float;
  o_panSpeed : option float;
  o_enableDamping : option bool;
  o_dampingFactor : option float;
  o_enableZoom : option bool;
  o_enableRotate : option bool;
  o_enablePan : option bool;
  o_autoRotate : option bool;
  o_autoRotateSpeed : option float
}.

(** [{}] *)
Definition no_options : Options :=
  {| o_target := None; o_minDistance := None; o_maxDistance := None;
     o_minPolarAngle := None; o_maxPolarAngle := None;
     o_minAzimuthAngle := None; o_maxAzimuthAngle := None;
     o_rotateSpeed := None; o_zoomSpeed := None; o_panSpeed := None;
     o_enableDamping := None; o_dampingFactor := None;
     o_enableZoom := None; o_enableRotate := None; o_enablePan := None;
     o_autoRotate := None; o_autoRotateSpeed := None |}.

(** The controller object.  [camera] is the camera it was created for and
    writes to; its canvas ([this.canvas = camera.engine.canvas]) is the
    camera's.  [target] and [panOffset] are arrays of three numbers, taken
    by value: they are objects distinct from the camera's arrays.  The
    fields that only the DOM listeners use ([mouseButtons], [touches],
    [mouseState]) are left out. *)
Record t : Type := mk {
  camera : Camera.t;
  target : Vec3;
  minDistance : float;
  maxDistance : float;
  minPolarAngle : float;
  maxPolarAngle : float;
  minAzimuthAngle : float;
  maxAzimuthAngle : float;
  rotateSpeed : float;
  zoomSpeed : float;
  panSpeed : float;
  enableDamping : bool;
  dampingFactor : float;
  spherical : Spherical;
  sphericalDelta : Spherical;
  scale : float;
  panOffset : Vec3;
  zoomChanged : bool;
  enableZoom : bool;
  enableRotate : bool;
  enablePan : bool;
  autoRotate : bool;
  autoRotateSpeed : float
}.

Definition canvas (o : t) : Canvas := Camera.canvas (camera o).

Definition set_camera (c : Camera.t) (o : t) : t :=
  mk c (target o) (minDistance o) (maxDistance o) (minPolarAngle o)
     (maxPolarAngle o) (minAzimuthAngle o) (maxAzimuthAngle o)
     (rotateSpeed o) (zoomSpeed o) (panSpeed o) (enableDamping o)
     (dampingFactor o) (spherical o) (sphericalDelta o) (scale o)
     (panOffset o) (zoomChanged o) (enableZoom o) (enableRotate o)
     (enablePan o) (autoRotate o) (autoRotateSpeed o).

Definition set_target (v : Vec3) (o : t) : t :=
  mk (camera o) v (minDistance o) (maxDistance o) (minPolarAngle o)
     (maxPolarAngle o) (minAzimuthAngle o) (maxAzimuthAngle o)
     (rotateSpeed o) (zoomSpeed o) (panSpeed o) (enableDamping o)
     (dampingFactor o) (spherical o) (sphericalDelta o) (scale o)
     (panOffset o) (zoomChanged o) (enableZoom o) (enableRotate o)
     (enablePan o) (autoRotate o) (autoRotateSpeed o).

Definition set_spherical (s : Spherical) (o : t) : t :=
  mk (camera o) (target o) (minDistance o) (maxDistance o)
     (minPolarAngle o) (maxPolarAngle o) (minAzimuthAngle o)
     (maxAzimuthAngle o) (rotateSpeed o) (zoomSpeed o) (panSpeed o)
     (enableDamping o) (dampingFactor o) s (sphericalDelta o) (scale o)
     (panOffset o) (zoomChanged o) (enableZoom o) (enableRotate o)
     (enablePan o) (autoRotate o) (autoRotateSpeed o).

Definition set_sphericalDelta (s : Spherical) (o : t) : t :=
  mk (camera o) (target o) (minDistance o) (maxDistance o)
     (minPolarAngle o) (maxPolarAngle o) (minAzimuthAngle o)
     (maxAzimuthAngle o) (rotateSpeed o) (zoomSpeed o) (panSpeed o)
     (enableDamping o) (dampingFactor o) (spherical o) s (scale o)
     (panOffset o) (zoomChanged o) (enableZoom o) (enableRotate o)
     (enablePan o) (autoRotate o) (autoRotateSpeed o).

Definition set_scale (x : float) (o : t) : t :=
  mk (camera o) (target o) (minDistance o) (maxDistance o)
     (minPolarAngle o) (maxPolarAngle o) (minAzimuthAngle o)
     (maxAzimuthAngle o) (rotateSpeed o) (zoomSpeed o) (panSpeed o)
     (enableDamping o) (dampingFactor o) (spherical o) (sphericalDelta o)
     x (panOffset o) (zoomChanged o) (enableZoom o) (enableRotate o)
     (enablePan o) (autoRotate o) (autoRotateSpeed o).

Definition set_panOffset (v : Vec3) (o : t) : t :=
  mk (camera o) (target o) (minDistance o) (maxDistance o)
     (minPolarAngle o) (maxPolarAngle o) (minAzimuthAngle o)
     (maxAzimuthAngle o) (rotateSpeed o) (zoomSpeed o) (panSpeed o)
     (enableDamping o) (dampingFactor o) (spherical o) (sphericalDelta o)
     (scale o) v (zoomChanged o) (enableZoom o) (enableRotate o)
     (enablePan o) (autoRotate o) (autoRotateSpeed o).

Definition set_zoomChanged (b : bool) (o : t) : t :=
  mk (camera o) (target o) (minDistance o) (maxDistance o)
     (minPolarAngle o) (maxPolarAngle o) (minAzimuthAngle o)
     (maxAzimuthAngle o) (rotateSpeed o) (zoomSpeed o) (panSpeed o)
     (enableDamping o) (dampingFactor o) (spherical o) (sphericalDelta o)
     (scale o) (panOffset o) b (enableZoom o) (enableRotate o)
     (enablePan o) (autoRotate o) (autoRotateSpeed o).

Definition set_radius (x : float) (s : Spherical) : Spherical :=
  mkSpherical x (phi s) (theta s).
Definition set_phi (x : float) (s : Spherical) : Spherical :=
  mkSpherical (radius s) x (theta s).
Definition set_theta (x : float) (s : Spherical) : Spherical :=
  mkSpherical (radius s) (phi s) x.

Section WithMath.

Variable M : JS.MathLib.

(** [updateSphericalFromCamera()], part_005:226-249 *)
Definition updateSphericalFromCamera (o : t) : t :=
  let position := Camera.position (camera o) in
  let target := target o in
  let offset :=
    mkVec3 (v0 position - v0 target)
           (v1 position - v1 target)
           (v2 position - v2 target) in
  let r :=
    sqrt (v0 offset * v0 offset + v1 offset * v1 offset
          + v2 offset * v2 offset) in
  let o := set_spherical (set_radius r (spherical o)) o in
  let p :=
    JS.acos M
      (JS.min (JS.max (v1 offset / radius (spherical o)) (-1)) 1) in
  let o := set_spherical (set_phi p (spherical o)) o in
  let th := JS.atan2 M (v0 offset) (v2 offset) in
  set_spherical (set_theta th (spherical o)) o.

(** The position [updateCameraFromSpherical] computes,
    part_005:252-270. *)
Definition sphericalPosition (o : t) : Vec3 :=
  let radius := radius (spherical o) in
  let phi := phi (spherical o) in
  let theta := theta (spherical o) in
  let sinPhiRadius := radius * JS.sin M phi in
  let position :=
    mkVec3 (sinPhiRadius * JS.sin M theta)
           (radius * JS.cos M phi)
           (sinPhiRadius * JS.cos M theta) in
  mkVec3 (v0 position + (v0 (target o) + v0 (panOffset o)))
         (v1 position + (v1 (target o) + v1 (panOffset o)))
         (v2 position + (v2 (target o) + v2 (panOffset o))).

(** [updateCameraFromSpherical()], part_005:252-275 *)
Definition updateCameraFromSpherical (o : t) : t :=
  let position := sphericalPosition o in
  let o :=
    set_camera
      (Camera.setPosition (v0 position) (v1 position) (v2 position)
         (camera o)) o in
  set_camera
    (Camera.lookAt (v0 (target o)) (v1 (target o)) (v2 (target o))
       (camera o)) o.

(** [constructor(camera, options = {})], part_005:157-223, without
    the registration of the DOM listeners. *)
Definition new (camera : Camera.t) (options : Options) : t :=
  updateSphericalFromCamera
    {| camera := camera;
       target := JS.or_obj (o_target options) (mkVec3 0 0 0);
       minDistance := JS.or_num (o_minDistance options) 1;
       maxDistance := JS.or_num (o_maxDistance options) 100;
       minPolarAngle := JS.or_num (o_minPolarAngle options) 0.1;
       maxPolarAngle := JS.or_num (o_maxPolarAngle options) (JS.PI - 0.1);
       minAzimuthAngle :=
         JS.or_num (o_minAzimuthAngle options) (- JS.Infinity);
       maxAzimuthAngle :=
         JS.or_num (o_maxAzimuthAngle options) JS.Infinity;
       rotateSpeed := JS.or_num (o_rotateSpeed options) 1.0;
       zoomSpeed := JS.or_num (o_zoomSpeed options) 1.0;
       panSpeed := JS.or_num (o_panSpeed options) 1.0;
       enableDamping := JS.defined_or (o_enableDamping options) true;
       dampingFactor := JS.or_num (o_dampingFactor options) 0.05;
       spherical := mkSpherical 0 0 0;
       sphericalDelta := mkSpherical 0 0 0;
       scale := 1;
       panOffset := mkVec3 0 0 0;
       zoomChanged := false;
       enableZoom := JS.defined_or (o_enableZoom options) true;
       enableRotate := JS.defined_or (o_enableRotate options) true;
       enablePan := JS.defined_or (o_enablePan options) true;
       autoRotate := JS.or_false (o_autoRotate options);
       autoRotateSpeed := JS.or_num (o_autoRotateSpeed options) 2.0 |}.

(** [handleRotate(deltaX, deltaY)], part_005:423-430 *)
Definition handleRotate (deltaX deltaY : float) (o : t) : t :=
  let element := canvas o in
  let o :=
    set_sphericalDelta
      (set_theta
         (theta (sphericalDelta o)
          - 2 * JS.PI * deltaX / clientWidth element * rotateSpeed o)
         (sphericalDelta o)) o in
  set_sphericalDelta
    (set_phi
       (phi (sphericalDelta o)
        - 2 * JS.PI * deltaY / clientHeight element * rotateSpeed o)
       (sphericalDelta o)) o.

(** [handleZoom(delta)], part_005:432-440 *)
Definition handleZoom (delta : float) (o : t) : t :=
  let o :=
    if 0 <? delta then
      set_scale (scale o / JS.pow M 0.95 (zoomSpeed o)) o
    else if delta <? 0 then
      set_scale (scale o * JS.pow M 0.95 (zoomSpeed o)) o
    else o in
  set_zoomChanged true o.

(** [handlePan(deltaX, deltaY)], part_005:442-477 *)
Definition handlePan (deltaX deltaY : float) (o : t) : t :=
  let element := canvas o in
  let distance := radius (spherical o) in
  let deltaX := deltaX * (distance * 2) / clientWidth element in
  let deltaY := deltaY * (distance * 2) / clientHeight element in
  let f0 := v0 (target o) - v0 (Camera.position (camera o)) in
  let f1 := v1 (target o) - v1 (Camera.position (camera o)) in
  let f2 := v2 (target o) - v2 (Camera.position (camera o)) in
  let len := sqrt (f0 * f0 + f1 * f1 + f2 * f2) in
  let forward := mkVec3 (f0 / len) (f1 / len) (f2 / len) in
  let up := mkVec3 0 1 0 in
  let right :=
    mkVec3 (v1 forward * v2 up - v2 forward * v1 up)
           (v2 forward * v0 up - v0 forward * v2 up)
           (v0 forward * v1 up - v1 forward * v0 up) in
  set_panOffset
    (mkVec3
       (v0 (panOffset o)
        + (v0 right * deltaX * panSpeed o
           - v0 forward * deltaY * panSpeed o))
       (v1 (panOffset o)
        + (v1 right * deltaX * panSpeed o
           - v1 forward * deltaY * panSpeed o))
       (v2 (panOffset o)
        + (v2 right * deltaX * panSpeed o
           - v2 forward * deltaY * panSpeed o))) o.

(** [update(deltaTime = 0.016)], part_005:479-528; [None] is a
    call without argument (or with [undefined]). *)
Definition update (deltaTime : option float) (o : t) : t :=
  let deltaTime := JS.defined_or deltaTime 0.016 in
  (* Apply auto-rotation if enabled *)
  let o :=
    if autoRotate o then
      set_sphericalDelta
        (set_theta
           (theta (sphericalDelta o)
            - 2 * JS.PI / 60 / 60 * autoRotateSpeed o * deltaTime)
           (sphericalDelta o)) o
    else o in
  (* Apply spherical delta *)
  let o :=
    set_spherical
      (set_theta (theta (spherical o) + theta (sphericalDelta o))
         (spherical o)) o in
  let o :=
    set_spherical
      (set_phi (phi (spherical o) + phi (sphericalDelta o))
         (spherical o)) o in
  (* Restrict phi *)
  let o :=
    set_spherical
      (set_phi
         (JS.max (minPolarAngle o)
            (JS.min (maxPolarAngle o) (phi (spherical o))))
         (spherical o)) o in
  (* Restrict theta *)
  let o :=
    set_spherical
      (set_theta
         (JS.max (minAzimuthAngle o)
            (JS.min (maxAzimuthAngle o) (theta (spherical o))))
         (spherical o)) o in
  (* Apply damping *)
  let o :=
    if enableDamping o then
      let o :=
        set_sphericalDelta
          (set_theta
             (theta (sphericalDelta o) * (1 - dampingFactor o))
             (sphericalDelta o)) o in
      set_sphericalDelta
        (set_phi (phi (sphericalDelta o) * (1 - dampingFactor o))
           (sphericalDelta o)) o
    else
      let o :=
        set_sphericalDelta (set_theta 0 (sphericalDelta o)) o in
      set_sphericalDelta (set_phi 0 (sphericalDelta o)) o in
  (* Apply zoom *)
  let o :=
    if zoomChanged o then
      let o :=
        set_spherical
          (set_radius (radius (spherical o) / scale o) (spherical o))
          o in
      let o :=
        set_spherical
          (set_radius
             (JS.max (minDistance o)
                (JS.min (maxDistance o) (radius (spherical o))))
             (spherical o)) o in
      let o := set_scale 1 o in
      set_zoomChanged false o
    else o in
  (* Update camera position *)
  let o := updateCameraFromSpherical o in
  (* Reset pan offset with damping *)
  if enableDamping o then
    set_panOffset
      (mkVec3 (v0 (panOffset o) * (1 - dampingFactor o))
              (v1 (panOffset o) * (1 - dampingFactor o))
              (v2 (panOffset o) * (1 - dampingFactor o))) o
  else
    set_panOffset (mkVec3 0 0 0) o.

(** [setTarget(targetPosition)], part_005:530-533 *)
Definition setTarget (targetPosition : Vec3) (o : t) : t :=
  updateSphericalFromCamera (set_target targetPosition o).

(** [setPosition(position)], part_005:535-538 *)
Definition setPosition (position : Vec3) (o : t) : t :=
  updateSphericalFromCamera
    (set_camera
       (Camera.setPosition (v0 position) (v1 position) (v2 position)
          (camera o)) o).

End WithMath.

End OrbitControls.

(** ** Camera.update and Camera.createOrbitControls (Camera.js:142-161)

    A camera and its controller refer to each other ([camera.controls],
    [controls.camera]).  A camera without controller is its own state; a
    camera with a controller is the controller's state, whose [camera] field
    is the camera. *)

Module CameraRig.

Inductive t : Type :=
| bare (c : Camera.t)
| controlled (o : OrbitControls.t).

(** The camera object of the rig. *)
Definition camera (r : t) : Camera.t :=
  match r with
  | bare c => c
  | controlled o => OrbitControls.camera o
  end.

(** Camera.js:142-151; disposing the previous controller only removes its
    DOM listeners. *)
Definition createOrbitControls (M : JS.MathLib)
    (options : OrbitControls.Options) (r : t) : t :=
  controlled (OrbitControls.new M (camera r) options).

(** [update(deltaTime)], Camera.js:153-161 *)
Definition update (M : JS.MathLib) (deltaTime : option float) (r : t) : t :=
  match r with
  | bare c => bare (Camera.set_viewDirty true c)
  | controlled o =>
      let o := OrbitControls.update M deltaTime o in
      controlled
        (OrbitControls.set_camera
           (Camera.set_viewDirty true (OrbitControls.camera o)) o)
  end.

End CameraRig.

(** ** Renderer.render (src/render/Renderer.js:388-533)

    The renderer acts on the GPU device, the canvas context and the console.
    Each such call is recorded, in order, in a trace; a call may throw, which
    the environment decides from the calls made so far. *)

Module Renderer.

(** GPU objects are known by a handle. *)
Definition Handle : Type := nat.

Record Material : Type := {
  mat_type : string;
  mat_pipeline : option Handle;
  mat_modelBindGroup : Handle;
  mat_bindGroup : Handle
}.

Record Mesh : Type := {
  vertexBuffer : Handle;
  indexBuffer : Handle;
  indexCount : nat
}.

Record MeshRenderer : Type := {
  mesh : option Mesh;             (* null when missing *)
  material : option Material;     (* null when missing *)
  modelBindGroup : Handle;
  materialBindGroup : Handle
}.

(** An entity of the scene, by what [render] reads of it:
    [getComponent('MeshRenderer')] and [getComponent('Transform')]. *)
Record Entity : Type := {
  id : nat;
  meshRenderer : option MeshRenderer;
  transform : option Handle
}.

Inductive Call : Type :=
| CreateDepthTexture
| DestroyDepthTexture
| SceneUpdate
| UpdateCameraUniforms            (* ends in queue.writeBuffer *)
| GetCurrentTexture
| CreateView
| ConsoleError (message : string)
| ConsoleLog (message : string)
| CreateCommandEncoder
| BeginRenderPass
| SetViewport
| SetScissorRect
| SetPipeline (pipeline : Handle)
| SetBindGroup (index : nat) (group : Handle)
| MaterialUpdateModelUniforms (entity : nat)
| UpdateModelUniforms (entity : nat)
| SetVertexBuffer (slot : nat) (buffer : Handle)
| SetIndexBuffer (buffer : Handle)
| DrawIndexed (count : nat)
| PassEnd
| Finish
| Submit.

Definition Trace : Type := list Call.

Inductive outcome (A : Type) : Type :=
| returned (a : A)
| thrown.
Arguments returned {A} a.
Arguments thrown {A}.

(** What the renderer's surroundings answer during a frame. *)
Record Env : Type := {
  (* whether a call throws, given the calls completed so far *)
  throws : Trace -> Call -> bool;
  (* what [context.getCurrentTexture()] returns; [None] is a falsy value *)
  currentTexture : option Handle;
  devicePixelRatio : float
}.

(** The renderer object, by the fields [render] uses. *)
Record t : Type := mk {
  canvas : Canvas;
  depthTexture : option Handle;
  depthTextureView : option Handle;
  basicPipeline : Handle;
  cameraBindGroup : Handle
}.

(** A computation: from the trace so far to the trace afterwards and a
    result or an exception. *)
Definition Run (A : Type) : Type := Trace -> Trace * outcome A.

Definition ret {A : Type} (a : A) : Run A := fun tr => (tr, returned a).

Definition bind {A B : Type} (m : Run A) (k : A -> Run B) : Run B :=
  fun tr =>
    match m tr with
    | (tr', returned a) => k a tr'
    | (tr', thrown) => (tr', thrown)
    end.

#[local] Notation "x <- m ;; k" := (bind m (fun x => k))
  (at level 61, m at next level, right associativity).
#[local] Notation "' p <- m ;; k" := (bind m (fun x => let p := x in k))
  (at level 61, p pattern, m at next level, right associativity).
#[local] Notation "m ;; k" := (bind m (fun _ => k))
  (at level 61, right associativity).

(** [try { body } catch (error) { handler }] *)
Definition try_catch {A : Type} (body : Run A) (handler : Run A) : Run A :=
  fun tr =>
    match body tr with
    | (tr', returned a) => (tr', returned a)
    | (tr', thrown) => handler tr'
    end.

Section WithEnv.

Variable env : Env.

(** A call on the device, the context, the scene or a component: it
    throws or it completes and is recorded. *)
Definition call (c : Call) : Run unit :=
  fun tr =>
    if throws env tr c then (tr, thrown) else (tr ++ [c], returned tt).

(** [console.error] and [console.log] do not throw. *)
Definition console (c : Call) : Run unit :=
  fun tr => (tr ++ [c], returned tt).

(** A handle for a new GPU object: the number of calls made so far. *)
Definition fresh : Run Handle := fun tr => (tr, returned (List.length tr)).

(** [createDepthTexture()], Renderer.js:73-83 *)
Definition createDepthTexture (r : t) : Run t :=
  h <- fresh ;;
  call CreateDepthTexture ;;
  call CreateView ;;
  ret (mk (canvas r) (Some h) (Some (S h)) (basicPipeline r)
          (cameraBindGroup r)).

Definition set_canvas_size (w h : float) (r : t) : t :=
  mk {| clientWidth := clientWidth (canvas r);
        clientHeight := clientHeight (canvas r);
        width := w; height := h |}
     (depthTexture r) (depthTextureView r) (basicPipeline r)
     (cameraBindGroup r).

(** [resize()], Renderer.js:388-407 *)
Definition resize (r : t) : Run (bool * t) :=
  let w := clientWidth (canvas r) * devicePixelRatio env in
  let h := clientHeight (canvas r) * devicePixelRatio env in
  if negb (width (canvas r) =? w) || negb (height (canvas r) =? h) then
    let r := set_canvas_size w h r in
    match depthTexture r with
    | Some _ => call DestroyDepthTexture
    | None => ret tt
    end ;;
    r <- createDepthTexture r ;;
    ret (true, r)
  else ret (false, r).

(** The body of the loop over the drawables, Renderer.js:478-520; a
    [continue] ends the body. *)
Definition drawEntity (r : t) (entity : Entity) : Run unit :=
  match meshRenderer entity with
  | None => ret tt
  | Some meshRenderer =>
      match mesh meshRenderer, material meshRenderer with
      | Some mesh, Some material =>
          let draw : Run unit :=
            call (SetVertexBuffer 0 (vertexBuffer mesh)) ;;
            call (SetIndexBuffer (indexBuffer mesh)) ;;
            call (DrawIndexed (indexCount mesh)) in
          if String.eqb (mat_type material) "cubemap"
             || String.eqb (mat_type material) "standard"
          then
            call (MaterialUpdateModelUniforms (id entity)) ;;
            match mat_pipeline material with
            | Some pipeline =>
                call (SetPipeline pipeline) ;;
                call (SetBindGroup 0 (cameraBindGroup r)) ;;
                call (SetBindGroup 1 (mat_modelBindGroup material)) ;;
                call (SetBindGroup 2 (mat_bindGroup material)) ;;
                draw
            | None =>
                console
                  (ConsoleError
                     (mat_type material ++ " material has no pipeline"))
            end
          else
            call (UpdateModelUniforms (id entity)) ;;
            call (SetPipeline (basicPipeline r)) ;;
            call (SetBindGroup 0 (cameraBindGroup r)) ;;
            call (SetBindGroup 1 (modelBindGroup meshRenderer)) ;;
            call (SetBindGroup 2 (materialBindGroup meshRenderer)) ;;
            draw
      | _, _ => ret tt
      end
  end.

(** [for (const entity of meshEntities) { ... }] *)
Fixpoint drawEntities (r : t) (entities : list Entity) : Run unit :=
  match entities with
  | [] => ret tt
  | entity :: rest => drawEntity r entity ;; drawEntities r rest
  end.

(** The [try] block of [render], Renderer.js:419-529; each [return]
    ends it.  [meshEntities] is what
    [scene.getEntitiesByComponent('MeshRenderer')] returns. *)
Definition renderPass (r : t) (meshEntities : list Entity) : Run unit :=
  call GetCurrentTexture ;;
  match currentTexture env with
  | None => console (ConsoleError "No current texture available.")
  | Some currentTexture =>
      call CreateView ;;
      match depthTextureView r with
      | None => console (ConsoleError "Depth texture view is invalid.")
      | Some _ =>
          call CreateCommandEncoder ;;
          call BeginRenderPass ;;
          call SetViewport ;;
          call SetScissorRect ;;
          call (SetPipeline (basicPipeline r)) ;;
          call (SetBindGroup 0 (cameraBindGroup r)) ;;
          drawEntities r meshEntities ;;
          call PassEnd ;;
          call Finish ;;
          console (ConsoleLog "Command buffer finished") ;;
          call Submit
      end
  end.

(** The statements of [render] before its [try] block,
    Renderer.js:410-417. *)
Definition prepare (r : t) : Run t :=
  '(_, r) <- resize r ;;
  call SceneUpdate ;;
  call UpdateCameraUniforms ;;
  ret r.

(** [render(scene, camera)], Renderer.js:409-533, for a scene whose
    entities with a MeshRenderer are [meshEntities]; the renderer afterwards
    is the one [resize] leaves. *)
Definition render (r : t) (meshEntities : list Entity) : Run t :=
  r <- prepare r ;;
  try_catch (renderPass r meshEntities)
    (console (ConsoleError "Render pass error:")) ;;
  ret r.

(** [dispose()], Renderer.js:535-541 *)
Definition dispose (r : t) : Run t :=
  match depthTexture r with
  | Some _ =>
      call DestroyDepthTexture ;;
      ret (mk (canvas r) None None (basicPipeline r) (cameraBindGroup r))
  | None => ret r
  end.

End WithEnv.

(** The calls that record commands, and the submission to the queue. *)
Definition is_recording (c : Call) : bool :=
  match c with
  | CreateCommandEncoder | BeginRenderPass | SetViewport | SetScissorRect
  | SetPipeline _ | SetBindGroup _ _ | SetVertexBuffer _ _
  | SetIndexBuffer _ | DrawIndexed _ | PassEnd | Finish => true
  | _ => false
  end.

Definition is_submit (c : Call) : bool :=
  match c with
  | Submit => true
  | _ => false
  end.

Definition is_draw (c : Call) : bool :=
  match c with
  | DrawIndexed _ => true
  | _ => false
  end.

Definition is_error_log (c : Call) : bool :=
  match c with
  | ConsoleError _ => true
  | _ => false
  end.

(** A drawable whose mesh or material reference is missing. *)
Definition incomplete (entity : Entity) : bool :=
  match meshRenderer entity with
  | None => true
  | Some meshRenderer =>
      match mesh meshRenderer, material meshRenderer with
      | Some _, Some _ => false
      | _, _ => true
      end
  end.

End Renderer.

(** ** A host implementation of [Math]

    The concrete runs below need some implementation of the functions of
    [JS.MathLib]: this one sums the usual power series in binary64.  No
    statement depends on its precision. *)

Module HostMath.

(** [1 - x2/(2k(2k+1)) (1 - x2/((2k+2)(2k+3)) (...))] *)
Fixpoint sin_series (n : nat) (k x2 : float) : float :=
  match n with
  | O => 1
  | S n => 1 - x2 / (2 * k * (2 * k + 1)) * sin_series n (k + 1) x2
  end.

Fixpoint cos_series (n : nat) (k x2 : float) : float :=
  match n with
  | O => 1
  | S n => 1 - x2 / ((2 * k - 1) * (2 * k)) * cos_series n (k + 1) x2
  end.

Definition sin (x : float) : float := x * sin_series 14 1 (x * x).
Definition cos (x : float) : float := cos_series 14 1 (x * x).
Definition tan (x : float) : float := sin x / cos x.

(** [1/(2k+1) - t2 (1/(2k+3) - t2 (...))] *)
Fixpoint atan_series (n : nat) (k t2 : float) : float :=
  match n with
  | O => 0
  | S n => 1 / (2 * k + 1) - t2 * atan_series n (k + 1) t2
  end.

Definition half_angle (t : float) : float := t / (1 + sqrt (1 + t * t)).

Definition atan (t : float) : float :=
  let u := half_angle (half_angle t) in
  4 * (u * atan_series 24 0 (u * u)).

(** NaN for a NaN argument, as [Math.atan2]; so [acos] is NaN for NaN and
    outside [[-1, 1]]. *)
Definition atan2 (y x : float) : float :=
  if is_nan y || is_nan x then nan
  else if 0 <? x then atan (y / x)
  else if x <? 0 then
    if y <? 0 then atan (y / x) - JS.PI else atan (y / x) + JS.PI
  else if 0 <? y then JS.PI / 2
  else if y <? 0 then - (JS.PI / 2)
  else 0.

Definition acos (x : float) : float := atan2 (sqrt (1 - x * x)) x.

Fixpoint exp_series (n : nat) (k y : float) : float :=
  match n with
  | O => 1
  | S n => 1 + y / k * exp_series n (k + 1) y
  end.

Definition exp (y : float) : float := exp_series 30 1 y.

(** [ln x = 2 atanh ((x - 1) / (x + 1))] *)
Fixpoint atanh_series (n : nat) (k z2 : float) : float :=
  match n with
  | O => 0
  | S n => 1 / (2 * k + 1) + z2 * atanh_series n (k + 1) z2
  end.

Definition ln (x : float) : float :=
  let z := (x - 1) / (x + 1) in
  2 * (z * atanh_series 40 0 (z * z)).

Definition pow (b e : float) : float := exp (e * ln b).

Definition math : JS.MathLib :=
  {| JS.sin := sin; JS.cos := cos; JS.tan := tan; JS.acos := acos;
     JS.atan2 := atan2; JS.pow := pow |}.

End HostMath.

(** ** The order of binary64 values

    Comparisons of floats are specified on [spec_float] ([ltb_spec],
    [leb_spec], [eqb_spec]).  A value that is not NaN has a position in the
    order, a triple of integers compared lexicographically: the sign class,
    then exponent and mantissa, negated for negative values. *)

Module FloatOrder.

Definition key (x : spec_float) : option (Z * Z * Z) :=
  match x with
  | S754_nan => None
  | S754_infinity s => Some (if s then (-2, 0, 0) else (2, 0, 0))%Z
  | S754_zero _ => Some (0, 0, 0)%Z
  | S754_finite s m e =>
      Some (if s then (-1, - e, - Zpos m) else (1, e, Zpos m))%Z
  end.

Definition lex (a b : Z * Z * Z) : comparison :=
  let '(a1, a2, a3) := a in
  let '(b1, b2, b3) := b in
  match (a1 ?= b1)%Z with
  | Eq => match (a2 ?= b2)%Z with
          | Eq => (a3 ?= b3)%Z
          | c => c
          end
  | c => c
  end.

Definition fkey (x : float) : option (Z * Z * Z) := key (Prim2SF x).

Definition cmp (x y : float) : option comparison :=
  match fkey x, fkey y with
  | Some a, Some b => Some (lex a b)
  | _, _ => None
  end.

(** A zero or a finite non-zero value. *)
Definition sf_finite (x : spec_float) : bool :=
  match x with
  | S754_zero _ | S754_finite _ _ _ => true
  | _ => false
  end.

End FloatOrder.

(** [Math.max(lo, Math.min(hi, x))], the clamping [update] applies to
    [phi], [theta] and [radius]. *)
Definition clamp (lo hi x : float) : float := JS.max lo (JS.min hi x).

(** [lo <= x <= hi] *)
Definition within (lo hi x : float) : Prop :=
  (lo <=? x) = true /\ (x <=? hi) = true.

(** ** Concrete cameras, controllers and frames *)

Module Examples.

Definition canvas : Canvas :=
  {| clientWidth := 800; clientHeight := 600; width := 800; height := 600 |}.

(** A canvas whose viewport has no width. *)
Definition canvas_no_width : Canvas :=
  {| clientWidth := 0; clientHeight := 600; width := 0; height := 600 |}.

(** A canvas whose viewport has no height. *)
Definition canvas_no_height : Canvas :=
  {| clientWidth := 800; clientHeight := 0; width := 800; height := 0 |}.

(** Scenario A: [new Camera(engine, { position: [0, 0, 5], target:
    [0, 0, 0], fov: 60, aspectRatio: 1, nearPlane: 0.1, farPlane: 1000 })] *)
Definition scenarioA_options : Camera.Options :=
  {| Camera.o_type := None;
     Camera.o_position := Some (mkVec3 0 0 5);
     Camera.o_target := Some (mkVec3 0 0 0);
     Camera.o_up := None;
     Camera.o_fov := Some 60;
     Camera.o_aspectRatio := Some 1;
     Camera.o_nearPlane := Some 0.1;
     Camera.o_farPlane := Some 1000;
     Camera.o_size := None |}.

Definition scenarioA : Camera.t := Camera.new canvas scenarioA_options.

(** [new Camera(engine)] *)
Definition camera : Camera.t := Camera.new canvas Camera.no_options.

(** [new Camera(engine, { position: [0, 0, 200] })] *)
Definition far_camera : Camera.t :=
  Camera.new canvas
    {| Camera.o_type := None;
       Camera.o_position := Some (mkVec3 0 0 200);
       Camera.o_target := None; Camera.o_up := None; Camera.o_fov := None;
       Camera.o_aspectRatio := None; Camera.o_nearPlane := None;
       Camera.o_farPlane := None; Camera.o_size := None |}.


Definition with_polar (lo hi : float) : OrbitControls.Options :=
  {| OrbitControls.o_target := None;
     OrbitControls.o_minDistance := None;
     OrbitControls.o_maxDistance := None;
     OrbitControls.o_minPolarAngle := Some lo;
     OrbitControls.o_maxPolarAngle := Some hi;
     OrbitControls.o_minAzimuthAngle := None;
     OrbitControls.o_maxAzimuthAngle := None;
     OrbitControls.o_rotateSpeed := None;
     OrbitControls.o_zoomSpeed := None;
     OrbitControls.o_panSpeed := None;
     OrbitControls.o_enableDamping := None;
     OrbitControls.o_dampingFactor := None;
     OrbitControls.o_enableZoom := None;
     OrbitControls.o_enableRotate := None;
     OrbitControls.o_enablePan := None;
     OrbitControls.o_autoRotate := None;
     OrbitControls.o_autoRotateSpeed := None |}.

(** Scenario B: [{ minPolarAngle: 0.1, maxPolarAngle: Math.PI - 0.1 }] *)
Definition scenarioB_options : OrbitControls.Options :=
  with_polar 0.1 (JS.PI - 0.1).

(** [{ enableDamping: damping, dampingFactor: factor,
      autoRotate: rotate }] *)
Definition with_damping (damping : bool) (factor : float) (rotate : bool)
  : OrbitControls.Options :=
  {| OrbitControls.o_target := None;
     OrbitControls.o_minDistance := None;
     OrbitControls.o_maxDistance := None;
     OrbitControls.o_minPolarAngle := None;
     OrbitControls.o_maxPolarAngle := None;
     OrbitControls.o_minAzimuthAngle := None;
     OrbitControls.o_maxAzimuthAngle := None;
     OrbitControls.o_rotateSpeed := None;
     OrbitControls.o_zoomSpeed := None;
     OrbitControls.o_panSpeed := None;
     OrbitControls.o_enableDamping := Some damping;
     OrbitControls.o_dampingFactor := Some factor;
     OrbitControls.o_enableZoom := None;
     OrbitControls.o_enableRotate := None;
     OrbitControls.o_enablePan := None;
     OrbitControls.o_autoRotate := Some rotate;
     OrbitControls.o_autoRotateSpeed := None |}.


End Examples.

(** The rotate drags of a sequence, each handled by [handleRotate]. *)
Definition rotateAll (deltas : list (float * float)) (o : OrbitControls.t)
  : OrbitControls.t :=
  fold_left (fun o d => OrbitControls.handleRotate (fst d) (snd d) o)
    deltas o.

(** [n] calls of [update(deltaTime)]. *)
Definition updates (M : JS.MathLib) (deltaTime : option float) (n : nat)
    (o : OrbitControls.t) : OrbitControls.t :=
  Nat.iter n (OrbitControls.update M deltaTime) o.

(** The step auto-rotation subtracts from the pending theta,
    part_005:482. *)
Definition autoRotateStep (dt : option float) (o : OrbitControls.t) : float :=
  2 * JS.PI / 60 / 60 * OrbitControls.autoRotateSpeed o
  * JS.defined_or dt 0.016.

(** The class has a method of that name, with parameters [(x, y, z)], and
    every call of it sets [viewDirty]. *)
Definition sets_viewDirty (name : string) : Prop :=
  exists m,
    Camera.method_xyz name = Some m /\
    forall (x y z : float) (c : Camera.t),
      Camera.viewDirty (m x y z c) = true.

(** [n] multiplications by [k]. *)
Definition decay (k : float) (n : nat) (x : float) : float :=
  Nat.iter n (fun x => x * k) x.

(** [y] lies between zero and [x]: a step toward zero that does not pass
    it. *)
Definition toward_zero (x y : float) : bool :=
  ((0 <=? y) && (y <=? x)) || ((x <=? y) && (y <=? 0)).

(** ** Rounding of binary64 *)

(** The record of a right shift by [j] bits of the mantissa [m]: its
    mantissa is the quotient, and the round and sticky bits are set only
    when the bits shifted out are not all zero. *)
Definition shifted (m j : Z) (r : shr_record) : Prop :=
  (0 <= j)%Z /\ (0 <= shr_m r)%Z /\
  exists rem : Z,
    m = (shr_m r * 2 ^ j + rem)%Z /\ (0 <= rem < 2 ^ j)%Z /\
    (shr_r r || shr_s r = true -> 0 < rem)%Z.

(** The float of sign [s] with the rounded mantissa [q] at exponent [E]:
    a mantissa of 54 bits is [2 ^ 53] and loses its last bit. *)
Definition rounded (s : bool) (q E : Z) : spec_float :=
  match q with
  | Zpos m =>
      if (q <? 2 ^ 53)%Z then
        if (E <=? 971)%Z then S754_finite s m E else S754_infinity s
      else
        if (E + 1 <=? 971)%Z then S754_finite s 4503599627370496 (E + 1)
        else S754_infinity s
  | _ => S754_zero s
  end.

(** A zero of sign [s], or a finite value of sign [s] whose magnitude is
    at most that of the float with mantissa [mx] and exponent [ex]. *)
Definition below (s : bool) (mx : positive) (ex : Z) (r : spec_float) : Prop :=
  match r with
  | S754_zero s' => s' = s
  | S754_finite s' m e =>
      s' = s /\ (e < ex \/ (e = ex /\ Zpos m <= Zpos mx))%Z
  | _ => False
  end.

Definition nonzero (r : spec_float) : Prop :=
  match r with
  | S754_zero _ => False
  | _ => True
  end.

(** The product of a matrix (column-major) and a vector: the clip
    coordinates of a point. *)
Definition Vec4 : Type := (float * float * float * float)%type.

Definition transform (m : Mat4) (v : Vec4) : Vec4 :=
  let '(x, y, z, w) := v in
  let row i :=
    nth i m nan * x + nth (i + 4) m nan * y
    + nth (i + 8) m nan * z + nth (i + 12) m nan * w in
  (row 0%nat, row 1%nat, row 2%nat, row 3%nat).
(** A call that neither records a command nor submits to the queue. *)
Definition quiet (c : Renderer.Call) : bool :=
  negb (Renderer.is_recording c) && negb (Renderer.is_submit c).

(** A computation that only adds calls satisfying [P] to the trace. *)
Definition appends (P : Renderer.Call -> bool) {A : Type}
    (m : Renderer.Run A) : Prop :=
  forall tr tr' out,
    m tr = (tr', out) -> exists l, tr' = tr ++ l /\ forallb P l = true.

Module Frames.

Definition renderer : Renderer.t :=
  {| Renderer.canvas := Examples.canvas;
     Renderer.depthTexture := Some 2%nat;
     Renderer.depthTextureView := Some 3%nat;
     Renderer.basicPipeline := 4%nat;
     Renderer.cameraBindGroup := 5%nat |}.

Definition basic : Renderer.Material :=
  {| Renderer.mat_type := "basic";
     Renderer.mat_pipeline := None;
     Renderer.mat_modelBindGroup := 0%nat;
     Renderer.mat_bindGroup := 0%nat |}.

Definition box : Renderer.Mesh :=
  {| Renderer.vertexBuffer := 10%nat;
     Renderer.indexBuffer := 11%nat;
     Renderer.indexCount := 36%nat |}.

Definition drawable (n : nat) (mesh : option Renderer.Mesh)
    (material : option Renderer.Material) : Renderer.Entity :=
  {| Renderer.id := n;
     Renderer.meshRenderer :=
       Some {| Renderer.mesh := mesh;
               Renderer.material := material;
               Renderer.modelBindGroup := (20 + n)%nat;
               Renderer.materialBindGroup := (30 + n)%nat |};
     Renderer.transform := Some (40 + n)%nat |}.

(** A surface that reports no current image. *)
Definition no_image : Renderer.Env :=
  {| Renderer.throws := fun _ _ => false;
     Renderer.currentTexture := None;
     Renderer.devicePixelRatio := 1 |}.

(** A surface with a current image. *)
Definition ready : Renderer.Env :=
  {| Renderer.throws := fun _ _ => false;
     Renderer.currentTexture := Some 1%nat;
     Renderer.devicePixelRatio := 1 |}.

(** Three drawables, the second without material. *)
Definition scene : list Renderer.Entity :=
  [drawable 1 (Some box) (Some basic);
   drawable 2 (Some box) None;
   drawable 3 (Some box) (Some basic)].

End Frames.

(** ** The rest of the controller: what it passes to [Math.acos] *)

(** The argument [updateSphericalFromCamera] passes to [Math.acos],
    part_005:231-245. *)
Definition cosPhi (o : OrbitControls.t) : float :=
  let position := Camera.position (OrbitControls.camera o) in
  let target := OrbitControls.target o in
  let o0 := v0 position - v0 target in
  let o1 := v1 position - v1 target in
  let o2 := v2 position - v2 target in
  JS.min (JS.max (o1 / sqrt (o0 * o0 + o1 * o1 + o2 * o2)) (-1)) 1.

(** The three components of a vector are finite numbers. *)
Definition finite_vec (v : Vec3) : Prop :=
  is_finite (v0 v) = true /\ is_finite (v1 v) = true /\
  is_finite (v2 v) = true.

(** ** Sequences of calls on a camera

    The methods of a camera, and those of its controller that write to it,
    as operations on a [CameraRig.t]; a method of the controller called when
    the camera has no controller is not a call that can be made, and leaves
    the rig as it is. *)

Module CameraOps.

Inductive op : Type :=
| setPosition (x y z : float)
| setTarget (x y z : float)
| lookAt (x y z : float)
| getViewMatrix
| getProjectionMatrix
| getViewProjectionMatrix
| updateViewMatrix
| updateProjectionMatrix
| updateFrustum
| resize
| createOrbitControls (options : OrbitControls.Options)
| update (deltaTime : option float)
| controls_update (deltaTime : option float)
| controls_handleRotate (deltaX deltaY : float)
| controls_handleZoom (delta : float)
| controls_handlePan (deltaX deltaY : float)
| controls_setTarget (targetPosition : Vec3)
| controls_setPosition (position : Vec3).

(** A method of the camera, on the camera of the rig. *)
Definition on_camera (f : Camera.t -> Camera.t) (r : CameraRig.t)
  : CameraRig.t :=
  match r with
  | CameraRig.bare c => CameraRig.bare (f c)
  | CameraRig.controlled o =>
      CameraRig.controlled
        (OrbitControls.set_camera (f (OrbitControls.camera o)) o)
  end.

(** A method of the controller, on [camera.controls]. *)
Definition on_controls (f : OrbitControls.t -> OrbitControls.t)
    (r : CameraRig.t) : CameraRig.t :=
  match r with
  | CameraRig.bare c => CameraRig.bare c
  | CameraRig.controlled o => CameraRig.controlled (f o)
  end.

Definition step (M : JS.MathLib) (r : CameraRig.t) (o : op) : CameraRig.t :=
  match o with
  | setPosition x y z => on_camera (Camera.setPosition x y z) r
  | setTarget x y z => on_camera (Camera.setTarget x y z) r
  | lookAt x y z => on_camera (Camera.lookAt x y z) r
  | getViewMatrix => on_camera (fun c => snd (Camera.getViewMatrix c)) r
  | getProjectionMatrix =>
      on_camera (fun c => snd (Camera.getProjectionMatrix c)) r
  | getViewProjectionMatrix =>
      on_camera (fun c => snd (Camera.getViewProjectionMatrix c)) r
  | updateViewMatrix => on_camera Camera.updateViewMatrix r
  | updateProjectionMatrix => on_camera Camera.updateProjectionMatrix r
  | updateFrustum => r                      (* Camera.js:131-134: empty *)
  | resize => on_camera Camera.resize r
  | createOrbitControls options => CameraRig.createOrbitControls M options r
  | update deltaTime => CameraRig.update M deltaTime r
  | controls_update deltaTime =>
      on_controls (OrbitControls.update M deltaTime) r
  | controls_handleRotate dx dy =>
      on_controls (OrbitControls.handleRotate dx dy) r
  | controls_handleZoom delta =>
      on_controls (OrbitControls.handleZoom M delta) r
  | controls_handlePan dx dy => on_controls (OrbitControls.handlePan dx dy) r
  | controls_setTarget t => on_controls (OrbitControls.setTarget M t) r
  | controls_setPosition p => on_controls (OrbitControls.setPosition M p) r
  end.

Definition run (M : JS.MathLib) (ops : list op) (r : CameraRig.t)
  : CameraRig.t :=
  fold_left (step M) ops r.

(** The calls that make the projection be built: a [resize] when the
    aspect ratio is ['auto'], which sets [projectionDirty], and a direct
    call of the builder. *)
Definition rebuilds (a : Camera.AspectRatio) (o : op) : nat :=
  match o, a with
  | resize, Camera.auto => 1
  | updateProjectionMatrix, _ => 1
  | _, _ => 0
  end.

Definition count_rebuilds (a : Camera.AspectRatio) (ops : list op) : nat :=
  list_sum (map (rebuilds a) ops).

End CameraOps.

(** The cached matrices and the aspect ratio of a camera are those of
    another. *)
Definition same_caches (c c' : Camera.t) : Prop :=
  Camera.viewMatrix c' = Camera.viewMatrix c /\
  Camera.projectionMatrix c' = Camera.projectionMatrix c /\
  Camera.viewProjectionMatrix c' = Camera.viewProjectionMatrix c /\
  Camera.aspectRatio c' = Camera.aspectRatio c.

(** The calls of [updateProjectionMatrix] made, and the one pending. *)
Definition projection_builds (c : Camera.t) : nat :=
  Camera.projectionUpdates c + (if Camera.projectionDirty c then 1 else 0).

(** The state of the projection cache is that of another camera. *)
Definition same_projection (c c' : Camera.t) : Prop :=
  same_caches c c' /\
  Camera.projectionDirty c' = Camera.projectionDirty c /\
  Camera.projectionUpdates c' = Camera.projectionUpdates c.

(** ** The DOM listeners of OrbitControls (part_005:277-421) *)

Module Pointer.

(** [this.mouseState] *)
Record MouseState : Type := mkMouseState {
  leftDown : bool;
  rightDown : bool;
  middleDown : bool;
  x : float;
  y : float
}.

(** [options.mouseButtons] and [options.touches]: each entry a string or
    absent. *)
Record Options : Type := {
  o_LEFT : option string;
  o_MIDDLE : option string;
  o_RIGHT : option string;
  o_ONE : option string;
  o_TWO : option string
}.

Definition no_options : Options :=
  {| o_LEFT := None; o_MIDDLE := None; o_RIGHT := None;
     o_ONE := None; o_TWO := None |}.

(** The controller with the fields its listeners use: [controls] holds the
    fields of [OrbitControls.t]; [touchZoomDistance] is [undefined]
    ([None]) until a two-finger touch starts. *)
Record t : Type := mk {
  controls : OrbitControls.t;
  LEFT : string;
  MIDDLE : string;
  RIGHT : string;
  ONE : string;
  TWO : string;
  mouseState : MouseState;
  touchZoomDistance : option float
}.

Definition set_controls (o : OrbitControls.t) (p : t) : t :=
  mk o (LEFT p) (MIDDLE p) (RIGHT p) (ONE p) (TWO p) (mouseState p)
     (touchZoomDistance p).

Definition set_mouseState (m : MouseState) (p : t) : t :=
  mk (controls p) (LEFT p) (MIDDLE p) (RIGHT p) (ONE p) (TWO p) m
     (touchZoomDistance p).

Definition set_touchZoomDistance (d : option float) (p : t) : t :=
  mk (controls p) (LEFT p) (MIDDLE p) (RIGHT p) (ONE p) (TWO p)
     (mouseState p) d.

(** [s || d] for a string option: the empty string is falsy. *)
Definition or_string (o : option string) (d : string) : string :=
  match o with
  | Some s => if String.eqb s EmptyString then d else s
  | None => d
  end.

(** The part of the constructor on [mouseButtons], [touches] and
    [mouseState], part_005:198-218. *)
Definition new (M : JS.MathLib) (camera : Camera.t)
    (options : OrbitControls.Options) (buttons : Options) : t :=
  {| controls := OrbitControls.new M camera options;
     LEFT := or_string (o_LEFT buttons) "ROTATE";
     MIDDLE := or_string (o_MIDDLE buttons) "DOLLY";
     RIGHT := or_string (o_RIGHT buttons) "PAN";
     ONE := or_string (o_ONE buttons) "ROTATE";
     TWO := or_string (o_TWO buttons) "DOLLY_PAN";
     mouseState := mkMouseState false false false 0 0;
     touchZoomDistance := None |}.

(** A mouse event: the pressed button and the position of the pointer. *)
Record MouseEvent : Type := {
  button : nat;
  clientX : float;
  clientY : float
}.

(** A wheel event: each of the three fields is a number or absent. *)
Record WheelEvent : Type := {
  deltaY : option float;
  wheelDelta : option float;
  detail : option float
}.

(** A touch point, and a touch event by its list [touches]. *)
Record Touch : Type := { touchX : float; touchY : float }.

Inductive Event : Type :=
| mousedown (e : MouseEvent)
| mousemove (e : MouseEvent)
| mouseup (e : MouseEvent)
| wheel (e : WheelEvent)
| touchstart (touches : list Touch)
| touchmove (touches : list Touch)
| touchend (touches : list Touch).

(** A field that is a number or absent, in a condition. *)
Definition truthy (o : option float) : bool :=
  match o with
  | Some v => JS.truthy v
  | None => false
  end.

(** The same field in arithmetic: [undefined] is NaN there. *)
Definition number (o : option float) : float :=
  match o with
  | Some v => v
  | None => nan
  end.

Section WithMath.

Variable M : JS.MathLib.

(** [onMouseDown(event)], part_005:293-310 *)
Definition onMouseDown (e : MouseEvent) (p : t) : t :=
  let m := mouseState p in
  let m :=
    match button e with
    | 0%nat => mkMouseState true (rightDown m) (middleDown m) (x m) (y m)
    | 1%nat => mkMouseState (leftDown m) (rightDown m) true (x m) (y m)
    | 2%nat => mkMouseState (leftDown m) true (middleDown m) (x m) (y m)
    | _ => m
    end in
  set_mouseState
    (mkMouseState (leftDown m) (rightDown m) (middleDown m)
       (clientX e) (clientY e)) p.

(** [onMouseMove(event)], part_005:312-328 *)
Definition onMouseMove (e : MouseEvent) (p : t) : t :=
  let deltaX := clientX e - x (mouseState p) in
  let deltaY := clientY e - y (mouseState p) in
  let m := mouseState p in
  let p :=
    set_mouseState
      (mkMouseState (leftDown m) (rightDown m) (middleDown m)
         (clientX e) (clientY e)) p in
  let o := controls p in
  if leftDown (mouseState p) && String.eqb (LEFT p) "ROTATE"
     && OrbitControls.enableRotate o
  then set_controls (OrbitControls.handleRotate deltaX deltaY o) p
  else if middleDown (mouseState p) && String.eqb (MIDDLE p) "DOLLY"
          && OrbitControls.enableZoom o
  then set_controls (OrbitControls.handleZoom M (- deltaY) o) p
  else if rightDown (mouseState p) && String.eqb (RIGHT p) "PAN"
          && OrbitControls.enablePan o
  then set_controls (OrbitControls.handlePan deltaX deltaY o) p
  else p.

(** [onMouseUp(event)], part_005:330-342 *)
Definition onMouseUp (e : MouseEvent) (p : t) : t :=
  let m := mouseState p in
  match button e with
  | 0%nat =>
      set_mouseState
        (mkMouseState false (rightDown m) (middleDown m) (x m) (y m)) p
  | 1%nat =>
      set_mouseState
        (mkMouseState (leftDown m) (rightDown m) false (x m) (y m)) p
  | 2%nat =>
      set_mouseState
        (mkMouseState (leftDown m) false (middleDown m) (x m) (y m)) p
  | _ => p
  end.

(** [onMouseWheel(event)], part_005:344-362 *)
Definition onMouseWheel (e : WheelEvent) (p : t) : t :=
  let o := controls p in
  if negb (OrbitControls.enableZoom o) then p
  else
    let delta :=
      if truthy (deltaY e) then - number (deltaY e) * 0.01
      else if truthy (wheelDelta e) then number (wheelDelta e) * 0.0005
      else if truthy (detail e) then - number (detail e) * 0.01
      else 0 in
    set_controls
      (OrbitControls.handleZoom M (delta * OrbitControls.zoomSpeed o) o) p.

(** The distance between the first two touch points, part_005:379-381. *)
Definition pinch (t0 t1 : Touch) : float :=
  let dx := touchX t0 - touchX t1 in
  let dy := touchY t0 - touchY t1 in
  sqrt (dx * dx + dy * dy).

(** [onTouchStart(event)], part_005:365-385 *)
Definition onTouchStart (touches : list Touch) (p : t) : t :=
  let o := controls p in
  match touches with
  | [t0] =>
      if String.eqb (ONE p) "ROTATE" && OrbitControls.enableRotate o then
        let m := mouseState p in
        set_mouseState
          (mkMouseState true (rightDown m) (middleDown m)
             (touchX t0) (touchY t0)) p
      else p
  | [t0; t1] =>
      if String.eqb (TWO p) "DOLLY_PAN" && OrbitControls.enableZoom o then
        set_touchZoomDistance (Some (pinch t0 t1)) p
      else p
  | _ => p
  end.

(** [onTouchMove(event)], part_005:387-417 *)
Definition onTouchMove (touches : list Touch) (p : t) : t :=
  let o := controls p in
  match touches with
  | [t0] =>
      if String.eqb (ONE p) "ROTATE" && OrbitControls.enableRotate o
         && leftDown (mouseState p)
      then
        let deltaX := touchX t0 - x (mouseState p) in
        let deltaY := touchY t0 - y (mouseState p) in
        let m := mouseState p in
        let p :=
          set_mouseState
            (mkMouseState (leftDown m) (rightDown m) (middleDown m)
               (touchX t0) (touchY t0)) p in
        set_controls (OrbitControls.handleRotate deltaX deltaY o) p
      else p
  | [t0; t1] =>
      if String.eqb (TWO p) "DOLLY_PAN" && OrbitControls.enableZoom o then
        let distance := pinch t0 t1 in
        let delta := (number (touchZoomDistance p) - distance) * 0.01 in
        let p := set_touchZoomDistance (Some distance) p in
        set_controls (OrbitControls.handleZoom M (- delta) o) p
      else p
  | _ => p
  end.

(** [onTouchEnd(event)], part_005:419-421 *)
Definition onTouchEnd (p : t) : t :=
  let m := mouseState p in
  set_mouseState
    (mkMouseState false (rightDown m) (middleDown m) (x m) (y m)) p.

(** The listener the canvas calls for an event. *)
Definition dispatch (p : t) (e : Event) : t :=
  match e with
  | mousedown e => onMouseDown e p
  | mousemove e => onMouseMove e p
  | mouseup e => onMouseUp e p
  | wheel e => onMouseWheel e p
  | touchstart ts => onTouchStart ts p
  | touchmove ts => onTouchMove ts p
  | touchend _ => onTouchEnd p
  end.

Definition dispatchAll (events : list Event) (p : t) : t :=
  fold_left dispatch events p.

End WithMath.

End Pointer.

(** ** The listeners on the canvas (part_005:277-291, 540-550)

    [addEventListener] keeps at most one entry for an event type and a
    callback; [removeEventListener] removes the entry with that very
    callback.  A callback is a function object: the method of the class, a
    function made by [bind] (a new object at each call), an arrow function,
    or [undefined] where the class has no such method. *)

Module Listeners.

Inductive callback : Type :=
| method (name : string)
| bound (name : string) (n : nat)
| arrow (n : nat)
| undefined.

Definition callback_eqb (a b : callback) : bool :=
  match a, b with
  | method s, method s' => String.eqb s s'
  | bound s n, bound s' n' => String.eqb s s' && Nat.eqb n n'
  | arrow n, arrow n' => Nat.eqb n n'
  | _, _ => false
  end.

Definition entry : Type := (string * callback)%type.

Definition entry_eqb (a b : entry) : bool :=
  String.eqb (fst a) (fst b) && callback_eqb (snd a) (snd b).

(** The listeners of the canvas, and the number of function objects made
    so far. *)
Record t : Type := mk {
  listeners : list entry;
  created : nat
}.

Definition addEventListener (type : string) (c : callback) (s : t) : t :=
  match c with
  | undefined => s
  | _ =>
      if existsb (entry_eqb (type, c)) (listeners s) then s
      else mk (listeners s ++ [(type, c)]) (created s)
  end.

Definition removeEventListener (type : string) (c : callback) (s : t) : t :=
  mk (filter (fun e => negb (entry_eqb (type, c) e)) (listeners s))
     (created s).

(** [canvas.addEventListener(type, this[name].bind(this))] *)
Definition addBound (type name : string) (s : t) : t :=
  addEventListener type (bound name (created s))
    (mk (listeners s) (S (created s))).

(** [setupEvents()], part_005:277-291 *)
Definition setupEvents (s : t) : t :=
  let s := addBound "mousedown" "onMouseDown" s in
  let s := addBound "mousemove" "onMouseMove" s in
  let s := addBound "mouseup" "onMouseUp" s in
  let s := addBound "wheel" "onMouseWheel" s in
  let s := addBound "touchstart" "onTouchStart" s in
  let s := addBound "touchmove" "onTouchMove" s in
  let s := addBound "touchend" "onTouchEnd" s in
  addEventListener "contextmenu" (arrow (created s))
    (mk (listeners s) (S (created s))).

(** [dispose()], part_005:540-550; the class has no [onContextMenu]. *)
Definition dispose (s : t) : t :=
  let s := removeEventListener "mousedown" (method "onMouseDown") s in
  let s := removeEventListener "mousemove" (method "onMouseMove") s in
  let s := removeEventListener "mouseup" (method "onMouseUp") s in
  let s := removeEventListener "wheel" (method "onMouseWheel") s in
  let s := removeEventListener "touchstart" (method "onTouchStart") s in
  let s := removeEventListener "touchmove" (method "onTouchMove") s in
  let s := removeEventListener "touchend" (method "onTouchEnd") s in
  removeEventListener "contextmenu" undefined s.

(** What [camera.createOrbitControls()] does to the canvas, Camera.js:142-151:
    the previous controller, if any, is disposed, and the constructor of
    the new one calls [setupEvents]. *)
Definition createOrbitControls (had_controls : bool) (s : t) : t :=
  setupEvents (if had_controls then dispose s else s).

(** [n] calls of [createOrbitControls] on a camera without controller. *)
Fixpoint recreate (n : nat) (s : t) : t :=
  match n with
  | O => s
  | 1%nat => createOrbitControls false s
  | S n => createOrbitControls true (recreate n s)
  end.

(** The listeners are functions made by [bind] or arrow functions, each
    made before. *)
Definition well_formed (s : t) : Prop :=
  forall type c,
    In (type, c) (listeners s) ->
    match c with
    | bound _ n | arrow n => (n < created s)%nat
    | _ => False
    end.

End Listeners.

(** ** The shape of a frame *)

Definition no_submit (c : Renderer.Call) : bool := negb (Renderer.is_submit c).


(** A drawable that [render] draws when no call throws: mesh and material
    are present, and a cubemap or standard material has its pipeline. *)
Definition drawable (e : Renderer.Entity) : bool :=
  match Renderer.meshRenderer e with
  | None => false
  | Some m =>
      match Renderer.mesh m, Renderer.material m with
      | Some _, Some mat =>
          if String.eqb (Renderer.mat_type mat) "cubemap"
             || String.eqb (Renderer.mat_type mat) "standard"
          then match Renderer.mat_pipeline mat with
               | Some _ => true
               | None => false
               end
          else true
      | _, _ => false
      end
  end.

(** The draw call of a drawable: [drawIndexed(mesh.indexCount)]. *)
Definition draw_of (e : Renderer.Entity) : list Renderer.Call :=
  match Renderer.meshRenderer e with
  | Some m =>
      match Renderer.mesh m with
      | Some mesh => [Renderer.DrawIndexed (Renderer.indexCount mesh)]
      | None => []
      end
  | None => []
  end.

(** An environment in which no call throws. *)
Definition never_throws (env : Renderer.Env) : Prop :=
  forall tr c, Renderer.throws env tr c = false.

(** The canvas has the size [resize] would give it. *)
Definition sized (env : Renderer.Env) (r : Renderer.t) : Prop :=
  (width (Renderer.canvas r)
   =? clientWidth (Renderer.canvas r) * Renderer.devicePixelRatio env)
  = true /\
  (height (Renderer.canvas r)
   =? clientHeight (Renderer.canvas r) * Renderer.devicePixelRatio env)
  = true.

(** ** Pointer gestures for the concrete runs *)

Module Gestures.

(** [{ enableZoom: false, enableRotate: false, enablePan: false }] *)
Definition all_disabled : OrbitControls.Options :=
  {| OrbitControls.o_target := None;
     OrbitControls.o_minDistance := None;
     OrbitControls.o_maxDistance := None;
     OrbitControls.o_minPolarAngle := None;
     OrbitControls.o_maxPolarAngle := None;
     OrbitControls.o_minAzimuthAngle := None;
     OrbitControls.o_maxAzimuthAngle := None;
     OrbitControls.o_rotateSpeed := None;
     OrbitControls.o_zoomSpeed := None;
     OrbitControls.o_panSpeed := None;
     OrbitControls.o_enableDamping := None;
     OrbitControls.o_dampingFactor := None;
     OrbitControls.o_enableZoom := Some false;
     OrbitControls.o_enableRotate := Some false;
     OrbitControls.o_enablePan := Some false;
     OrbitControls.o_autoRotate := None;
     OrbitControls.o_autoRotateSpeed := None |}.

(** A mouse event of a button at a position. *)
Definition mouse (button : nat) (x y : float) : Pointer.MouseEvent :=
  {| Pointer.button := button; Pointer.clientX := x; Pointer.clientY := y |}.

(** A wheel event that carries none of the three deltas. *)
Definition still_wheel : Pointer.WheelEvent :=
  {| Pointer.deltaY := Some 0; Pointer.wheelDelta := None;
     Pointer.detail := None |}.

(** A press of the left button, a drag with the right button also held,
    a wheel turn and a one-finger touch. *)
Definition session : list Pointer.Event :=
  [Pointer.mousedown (mouse 0 100 100);
   Pointer.mousedown (mouse 2 100 100);
   Pointer.mousemove (mouse 0 180 130);
   Pointer.wheel
     {| Pointer.deltaY := Some 120; Pointer.wheelDelta := None;
        Pointer.detail := None |};
   Pointer.mouseup (mouse 0 180 130);
   Pointer.touchstart [{| Pointer.touchX := 10; Pointer.touchY := 10 |}];
   Pointer.touchmove [{| Pointer.touchX := 50; Pointer.touchY := 20 |}];
   Pointer.touchend []].

End Gestures.

(** ** Renderer.updateCameraUniforms (Renderer.js:295-386) *)

(** [Math.fround]: the binary32 value nearest to a number, as the number
    it is.  A [Float32Array] holds such values. *)
Definition fround (x : float) : float :=
  SF2Prim
    match Prim2SF x with
    | S754_finite s m e => binary_round 24 128 s m e
    | sf => sf
    end.

(** [new Float32Array([...])] *)
Definition Float32Array_from (l : list float) : list float := map fround l.

Module CameraUniforms.

(** The three axes of the simplified look-at, Renderer.js:316-354:
    [(xAxis, yAxis, zAxis)]. *)
Definition axes (pos target : Vec3) : Vec3 * Vec3 * Vec3 :=
  let z0 := v0 pos - v0 target in
  let z1 := v1 pos - v1 target in
  let z2 := v2 pos - v2 target in
  let zLen := sqrt (z0 * z0 + z1 * z1 + z2 * z2) in
  let zAxis := mkVec3 (z0 / zLen) (z1 / zLen) (z2 / zLen) in
  let x0 := v2 zAxis in
  let x1 := 0 in
  let x2 := - v0 zAxis in
  let xLen := sqrt (x0 * x0 + x1 * x1 + x2 * x2) in
  let xAxis :=
    if 0.0001 <? xLen then mkVec3 (x0 / xLen) (x1 / xLen) (x2 / xLen)
    else mkVec3 1 0 0 in
  let yAxis :=
    mkVec3 (v1 zAxis * v2 xAxis - v2 zAxis * v1 xAxis)
           (v2 zAxis * v0 xAxis - v0 zAxis * v2 xAxis)
           (v0 zAxis * v1 xAxis - v1 zAxis * v0 xAxis) in
  (xAxis, yAxis, zAxis).

(** Renderer.js:357-365 *)
Definition viewMatrix (pos target : Vec3) : Mat4 :=
  let '(xAxis, yAxis, zAxis) := axes pos target in
  Float32Array_from
    [v0 xAxis; v0 yAxis; v0 zAxis; 0;
     v1 xAxis; v1 yAxis; v1 zAxis; 0;
     v2 xAxis; v2 yAxis; v2 zAxis; 0;
     - (v0 xAxis * v0 pos + v1 xAxis * v1 pos + v2 xAxis * v2 pos);
     - (v0 yAxis * v0 pos + v1 yAxis * v1 pos + v2 yAxis * v2 pos);
     - (v0 zAxis * v0 pos + v1 zAxis * v1 pos + v2 zAxis * v2 pos);
     1].

(** Renderer.js:297-310 *)
Definition projMatrix (M : JS.MathLib) (canvas : Canvas) (camera : Camera.t)
  : Mat4 :=
  let aspect := width canvas / height canvas in
  let fov := Camera.fov camera * (JS.PI / 180) in
  let near := Camera.nearPlane camera in
  let far := Camera.farPlane camera in
  let f := 1.0 / JS.tan M (fov / 2) in
  Float32Array_from
    [f / aspect; 0; 0; 0;
     0; f; 0; 0;
     0; 0; far / (near - far); -1;
     0; 0; (near * far) / (near - far); 0].

(** The inner loop, Renderer.js:372-376: the entry of row [i] and column
    [j] of the product. *)
Definition product_entry (p v : Mat4) (i j : nat) : float :=
  fold_left
    (fun sum k => sum + nth (i + k * 4) p nan * nth (k + j * 4) v nan)
    [0; 1; 2; 3]%nat 0.

(** Renderer.js:369-378: entry [i + j * 4] of the new [Float32Array(16)]. *)
Definition multiply (p v : Mat4) : Mat4 :=
  map (fun n => fround (product_entry p v (n mod 4) (n / 4))) (seq 0 16).

(** The matrix [updateCameraUniforms(camera)] writes to the camera uniform
    buffer. *)
Definition viewProjectionMatrix (M : JS.MathLib) (canvas : Canvas)
    (camera : Camera.t) : Mat4 :=
  multiply (projMatrix M canvas camera)
    (viewMatrix (Camera.position camera) (Camera.target camera)).

End CameraUniforms.

(** ** MathUtils (part_005:687-829) *)

Module MathUtils.

Definition EPSILON : float := 1e-6.

Definition vecAdd (a b : Vec3) : Vec3 :=
  mkVec3 (v0 a + v0 b) (v1 a + v1 b) (v2 a + v2 b).

Definition vecSubtract (a b : Vec3) : Vec3 :=
  mkVec3 (v0 a - v0 b) (v1 a - v1 b) (v2 a - v2 b).

Definition vecLength (v : Vec3) : float :=
  sqrt (v0 v * v0 v + v1 v * v1 v + v2 v * v2 v).

Definition vecNormalize (v : Vec3) : Vec3 :=
  let length := vecLength v in
  if length <? EPSILON then mkVec3 0 0 0
  else
    let invLength := 1 / length in
    mkVec3 (v0 v * invLength) (v1 v * invLength) (v2 v * invLength).

Definition vecCross (a b : Vec3) : Vec3 :=
  mkVec3 (v1 a * v2 b - v2 a * v1 b)
         (v2 a * v0 b - v0 a * v2 b)
         (v0 a * v1 b - v1 a * v0 b).

Definition vecDot (a b : Vec3) : float :=
  v0 a * v0 b + v1 a * v1 b + v2 a * v2 b.

(** [lookAt(eye, target, up)], part_005:815-826 *)
Definition lookAt (eye target up : Vec3) : Mat4 :=
  let zAxis := vecNormalize (vecSubtract eye target) in
  let xAxis := vecNormalize (vecCross up zAxis) in
  let yAxis := vecCross zAxis xAxis in
  Float32Array_from
    [v0 xAxis; v0 yAxis; v0 zAxis; 0;
     v1 xAxis; v1 yAxis; v1 zAxis; 0;
     v2 xAxis; v2 yAxis; v2 zAxis; 0;
     - vecDot xAxis eye; - vecDot yAxis eye; - vecDot zAxis eye; 1].

End MathUtils.

(** * Properties

    ** Comparison and arithmetic of binary64 values *)

Import FloatOrder.

Lemma SFcompare_key (x y : spec_float) :
  SFcompare x y =
  match key x, key y with
  | Some a, Some b => Some (lex a b)
  | _, _ => None
  end.
Proof.
  destruct x as [sx|sx| |sx mx ex], y as [sy|sy| |sy my ey];
    try reflexivity;
    try (destruct sx; reflexivity); try (destruct sy; reflexivity);
    try (destruct sx, sy; reflexivity).
  destruct sx, sy; try reflexivity; unfold SFcompare, key, lex.
  (* two negative values: the order of exponents and mantissas is reversed *)
  change (-1 ?= -1)%Z with Eq. cbv iota.
  rewrite !Z.compare_opp, (Z.compare_antisym ex ey).
  change (Z.pos my ?= Z.pos mx)%Z with (my ?= mx)%positive.
  rewrite (Pos.compare_antisym mx my).
  change (PosDef.Pos.compare_cont Eq mx my) with (mx ?= my)%positive.
  destruct (ex ?= ey)%Z; reflexivity.
Qed.

Lemma ltb_cmp (x y : float) :
  (x <? y) = match cmp x y with Some Lt => true | _ => false end.
Proof.
  rewrite ltb_spec. unfold SFltb, cmp, fkey. rewrite SFcompare_key.
  destruct (key (Prim2SF x)), (key (Prim2SF y)); reflexivity.
Qed.

Lemma leb_cmp (x y : float) :
  (x <=? y) = match cmp x y with Some (Lt | Eq) => true | _ => false end.
Proof.
  rewrite leb_spec. unfold SFleb, cmp, fkey. rewrite SFcompare_key.
  destruct (key (Prim2SF x)), (key (Prim2SF y)); reflexivity.
Qed.

Lemma eqb_cmp (x y : float) :
  (x =? y) = match cmp x y with Some Eq => true | _ => false end.
Proof.
  rewrite eqb_spec. unfold SFeqb, cmp, fkey. rewrite SFcompare_key.
  destruct (key (Prim2SF x)), (key (Prim2SF y)); reflexivity.
Qed.

Lemma lex_refl (a : Z * Z * Z) : lex a a = Eq.
Proof.
  destruct a as [[a1 a2] a3]. unfold lex. now rewrite !Z.compare_refl.
Qed.

Lemma is_nan_key (x : float) :
  is_nan x = match fkey x with Some _ => false | None => true end.
Proof.
  unfold is_nan. rewrite eqb_cmp. unfold cmp.
  destruct (fkey x) as [a|]; [now rewrite lex_refl | reflexivity].
Qed.

Lemma is_zero_key (x : float) :
  is_zero x =
  match fkey x with
  | Some a => match lex a (0, 0, 0)%Z with Eq => true | _ => false end
  | None => false
  end.
Proof.
  unfold is_zero. rewrite eqb_cmp. unfold cmp.
  change (fkey zero) with (Some (0, 0, 0)%Z).
  destruct (fkey x); reflexivity.
Qed.

(** Turns a goal on the order of floats into one on the order of their
    keys, and decides it by linear arithmetic. *)
Ltac float_keys :=
  rewrite ?ltb_cmp, ?leb_cmp, ?eqb_cmp, ?is_nan_key, ?is_zero_key in *;
  unfold cmp in *;
  repeat match goal with
         | H : context [fkey ?x] |- _ =>
             is_var x; destruct (fkey x) as [[[? ?] ?]|]
         | |- context [fkey ?x] =>
             is_var x; destruct (fkey x) as [[[? ?] ?]|]
         end;
  unfold lex in *.

Ltac compare_cases :=
  repeat match goal with
         | H : context [(?a ?= ?b)%Z] |- _ =>
             destruct (Z.compare_spec a b)
         | |- context [(?a ?= ?b)%Z] =>
             destruct (Z.compare_spec a b)
         end;
  try discriminate; try reflexivity; try lia.

Ltac float_order := float_keys; compare_cases.

Lemma ltb_leb (x y : float) : (x <? y) = true -> (x <=? y) = true.
Proof. intros H. float_order. Qed.

Lemma ltb_leb_trans (x y z : float) :
  (x <? y) = true -> (y <=? z) = true -> (x <? z) = true.
Proof. intros H1 H2. float_order. Qed.

Lemma leb_refl (x : float) : is_nan x = false -> (x <=? x) = true.
Proof. intros H. float_order. Qed.

Lemma max_cases (a b : float) :
  (is_nan a || is_nan b = true /\ JS.max a b = nan) \/
  (is_nan a = false /\ is_nan b = false /\
   ((JS.max a b = b /\ (a <=? b) = true) \/
    (JS.max a b = a /\ (b <=? a) = true))).
Proof.
  unfold JS.max, JS.is_pzero, JS.is_nzero.
  destruct (is_nan a) eqn:Na; [left; now split|].
  destruct (is_nan b) eqn:Nb; [left; now split|].
  right. split; [reflexivity|]. split; [reflexivity|]. cbn [orb].
  destruct (is_zero b && negb (get_sign b) && (is_zero a && get_sign a))
    eqn:Z.
  - left. split; [reflexivity|].
    apply andb_prop in Z. destruct Z as [Zb Za].
    apply andb_prop in Zb. destruct Zb as [Zb _].
    apply andb_prop in Za. destruct Za as [Za _].
    float_order.
  - destruct (a <? b) eqn:L.
    + left. split; [reflexivity|]. float_order.
    + right. split; [reflexivity|]. float_order.
Qed.

Lemma min_cases (a b : float) :
  (is_nan a || is_nan b = true /\ JS.min a b = nan) \/
  (is_nan a = false /\ is_nan b = false /\
   ((JS.min a b = b /\ (b <=? a) = true) \/
    (JS.min a b = a /\ (a <=? b) = true))).
Proof.
  unfold JS.min, JS.is_pzero, JS.is_nzero.
  destruct (is_nan a) eqn:Na; [left; now split|].
  destruct (is_nan b) eqn:Nb; [left; now split|].
  right. split; [reflexivity|]. split; [reflexivity|]. cbn [orb].
  destruct (is_zero b && get_sign b && (is_zero a && negb (get_sign a)))
    eqn:Z.
  - left. split; [reflexivity|].
    apply andb_prop in Z. destruct Z as [Zb Za].
    apply andb_prop in Zb. destruct Zb as [Zb _].
    apply andb_prop in Za. destruct Za as [Za _].
    float_order.
  - destruct (b <? a) eqn:L.
    + left. split; [reflexivity|]. float_order.
    + right. split; [reflexivity|]. float_order.
Qed.

Ltac clamp_cases lo hi x :=
  unfold clamp;
  let m := fresh "m" in
  let Em := fresh "Em" in
  destruct (min_cases hi x) as [[? Em]|(? & ? & [[Em ?]|[Em ?]])];
  rewrite Em;
  [ | destruct (max_cases lo x) as [[? ?]|(? & ? & [[m ?]|[m ?]])]
    | destruct (max_cases lo hi) as [[? ?]|(? & ? & [[m ?]|[m ?]])] ];
  try rewrite m.

Lemma clamp_range (lo hi x : float) :
  (lo <=? hi) = true -> is_nan x = false ->
  (lo <=? clamp lo hi x) = true /\ (clamp lo hi x <=? hi) = true.
Proof.
  intros Hb Hx. clamp_cases lo hi x; split; float_order.
Qed.

Lemma clamp_nan (lo hi x : float) :
  is_nan x = true -> clamp lo hi x = nan.
Proof.
  intros Hx. unfold clamp, JS.min. rewrite Hx, orb_true_r.
  unfold JS.max. change (is_nan nan) with true. now rewrite orb_true_r.
Qed.

Lemma clamp_above (lo hi x : float) :
  (lo <=? hi) = true -> (hi <? x) = true -> (clamp lo hi x =? hi) = true.
Proof.
  intros Hb Hx. clamp_cases lo hi x; float_order.
Qed.

Lemma clamp_below (lo hi x : float) :
  (lo <=? hi) = true -> (x <? lo) = true -> (clamp lo hi x =? lo) = true.
Proof.
  intros Hb Hx. clamp_cases lo hi x; float_order.
Qed.

Lemma max_nan_r (a : float) : JS.max a nan = nan.
Proof.
  unfold JS.max. change (is_nan nan) with true. now rewrite orb_true_r.
Qed.

Lemma leb_nan_l (a : float) : (nan <=? a) = false.
Proof. rewrite leb_cmp. reflexivity. Qed.

Lemma clamp_inverted (lo hi x : float) :
  (hi <? lo) = true -> (clamp lo hi x <=? hi) = false.
Proof.
  intros Hb. clamp_cases lo hi x;
    rewrite ?max_nan_r, ?leb_nan_l; try reflexivity; float_order.
Qed.

Lemma add_nan_r (x : float) : x + nan = nan.
Proof.
  apply Prim2SF_inj. rewrite add_spec.
  change (Prim2SF nan) with S754_nan. now destruct (Prim2SF x).
Qed.

Lemma is_finite_spec (x : float) : is_finite x = sf_finite (Prim2SF x).
Proof.
  unfold is_finite, is_infinity. rewrite is_nan_key, eqb_cmp.
  unfold cmp, fkey. rewrite abs_spec.
  change (Prim2SF infinity) with (S754_infinity false).
  destruct (Prim2SF x) as [s|s| |s m e]; reflexivity.
Qed.

Lemma is_zero_spec (z : float) :
  is_zero z = true -> exists s, Prim2SF z = S754_zero s.
Proof.
  rewrite is_zero_key. unfold fkey.
  destruct (Prim2SF z) as [s|s| |s m e]; try discriminate.
  - now exists s.
  - destruct s; discriminate.
  - destruct s; discriminate.
Qed.

Lemma div_zero_not_finite (a z : float) :
  is_zero z = true -> is_finite (a / z) = false.
Proof.
  intros Hz. destruct (is_zero_spec z Hz) as [s Es].
  rewrite is_finite_spec, div_spec, Es.
  destruct (Prim2SF a); reflexivity.
Qed.

Lemma mul_not_finite_l (a b : float) :
  is_finite a = false -> is_finite (a * b) = false.
Proof.
  rewrite !is_finite_spec, mul_spec.
  destruct (Prim2SF a), (Prim2SF b); try discriminate; reflexivity.
Qed.

Lemma mul_not_finite_r (a b : float) :
  is_finite b = false -> is_finite (a * b) = false.
Proof.
  rewrite !is_finite_spec, mul_spec.
  destruct (Prim2SF a), (Prim2SF b); try discriminate; reflexivity.
Qed.

Lemma sub_not_finite_l (a b : float) :
  is_finite a = false -> is_finite (a - b) = false.
Proof.
  rewrite !is_finite_spec, sub_spec.
  destruct (Prim2SF a) as [| [|] | |], (Prim2SF b) as [| [|] | |];
    try discriminate; reflexivity.
Qed.

Lemma sub_not_finite_r (a b : float) :
  is_finite b = false -> is_finite (a - b) = false.
Proof.
  rewrite !is_finite_spec, sub_spec.
  destruct (Prim2SF a) as [| [|] | |], (Prim2SF b) as [| [|] | |];
    try discriminate; reflexivity.
Qed.

Lemma add_not_finite_r (a b : float) :
  is_finite b = false -> is_finite (a + b) = false.
Proof.
  rewrite !is_finite_spec, add_spec.
  destruct (Prim2SF a) as [| [|] | |], (Prim2SF b) as [| [|] | |];
    try discriminate; reflexivity.
Qed.

(** ** Rounding to binary64 *)

Lemma digits2_pos_bounds (p : positive) :
  (2 ^ (Zpos (digits2_pos p) - 1) <= Zpos p < 2 ^ Zpos (digits2_pos p))%Z.
Proof.
  induction p as [p IH|p IH|]; cbn [digits2_pos].
  - rewrite Pos2Z.inj_succ, Z.pow_succ_r by lia.
    replace (Z.succ (Zpos (digits2_pos p)) - 1)%Z
      with (Z.succ (Zpos (digits2_pos p) - 1)) by lia.
    rewrite Z.pow_succ_r by lia. lia.
  - rewrite Pos2Z.inj_succ, Z.pow_succ_r by lia.
    replace (Z.succ (Zpos (digits2_pos p)) - 1)%Z
      with (Z.succ (Zpos (digits2_pos p) - 1)) by lia.
    rewrite Z.pow_succ_r by lia. lia.
  - cbn. lia.
Qed.

Lemma digits2_pos_lt (m : positive) (n : Z) :
  (Zpos (digits2_pos m) <= n)%Z -> (Zpos m < 2 ^ n)%Z.
Proof.
  intros H. pose proof (digits2_pos_bounds m) as D.
  assert (2 ^ Zpos (digits2_pos m) <= 2 ^ n)%Z
    by (apply Z.pow_le_mono_r; lia).
  lia.
Qed.

Lemma shifted_start (m : Z) :
  (0 <= m)%Z -> shifted m 0 (Build_shr_record m false false).
Proof.
  intros H. split; [lia|]. split; [exact H|]. exists 0%Z. cbn.
  split; [lia|]. split; [lia|]. discriminate.
Qed.

Lemma shifted_shr_1 (m j : Z) (r : shr_record) :
  shifted m j r -> shifted m (j + 1) (shr_1 r).
Proof.
  intros (J & Q & rem & E & R & S).
  destruct r as [q b s]. cbn [shr_m shr_r shr_s] in *.
  assert (P : (0 < 2 ^ j)%Z) by (apply Z.pow_pos_nonneg; lia).
  unfold shifted.
  rewrite Z.pow_add_r, Z.pow_1_r by lia.
  destruct q as [|[q|q|]|q]; cbn [shr_1 shr_m shr_r shr_s];
    (split; [lia|]); (split; [lia|]).
  - exists rem. split; [lia|]. split; [lia|]. intros H. apply S.
    destruct b, s; (reflexivity || discriminate).
  - exists (2 ^ j + rem)%Z. split; [lia|]. split; [lia|]. intros _. lia.
  - exists rem. split; [lia|]. split; [lia|]. intros H. apply S.
    destruct b, s; (reflexivity || discriminate).
  - exists (2 ^ j + rem)%Z. split; [lia|]. split; [lia|]. intros _. lia.
  - lia.
Qed.

Lemma shifted_iter_pos (m : Z) (p : positive) :
  forall (j : Z) (r : shr_record),
    shifted m j r -> shifted m (j + Zpos p) (iter_pos shr_1 p r).
Proof.
  induction p as [p IH|p IH|]; intros j r H; cbn [iter_pos].
  - replace (j + Zpos p~1)%Z with (j + 1 + Zpos p + Zpos p)%Z by lia.
    apply IH, IH, shifted_shr_1, H.
  - replace (j + Zpos p~0)%Z with (j + Zpos p + Zpos p)%Z by lia.
    apply IH, IH, H.
  - apply shifted_shr_1, H.
Qed.

Lemma round_nearest_even_cases (r : shr_record) :
  let q := round_nearest_even (shr_m r) (loc_of_shr_record r) in
  q = shr_m r \/ (q = (shr_m r + 1)%Z /\ shr_r r = true).
Proof.
  destruct r as [q [|] [|]]; cbn; try (left; reflexivity);
    try (right; split; reflexivity).
  destruct (Z.even q); [left|right]; auto.
Qed.

Lemma bounded_spec (m : positive) (e : Z) :
  bounded prec emax m e = true ->
  (Zpos (digits2_pos m) <= 53 /\ -1074 <= e <= 971 /\
   (e = -1074 \/ Zpos (digits2_pos m) = 53))%Z.
Proof.
  unfold bounded, canonical_mantissa, fexp, emin, prec, emax.
  intros H. apply andb_true_iff in H as (C & B).
  apply Z.eqb_eq in C. apply Z.leb_le in B. lia.
Qed.

Lemma shr_fexp_fits (m : positive) (e : Z) :
  (Zpos (digits2_pos m) <= 53)%Z -> (-1074 <= e)%Z ->
  shr_fexp prec emax (Zpos m) e loc_Exact =
    (Build_shr_record (Zpos m) false false, e).
Proof.
  intros D E. unfold shr_fexp, fexp, emin, prec, emax.
  cbn [Zdigits2 shr_record_of_loc].
  destruct (Z.max (Zpos (digits2_pos m) + e - 53) (3 - 1024 - 53) - e)%Z
    eqn:N; try reflexivity.
  lia.
Qed.

(** The second shift of [binary_round_aux], which only a mantissa of
    54 bits needs. *)
Lemma round_carry (s : bool) (q E : Z) :
  (0 <= q <= 2 ^ 53)%Z -> (-1074 <= E)%Z ->
  (let '(mrs, e) := shr_fexp prec emax q E loc_Exact in
   match shr_m mrs with
   | Z0 => S754_zero s
   | Zpos m =>
       if (e <=? emax - prec)%Z then S754_finite s m e else S754_infinity s
   | Zneg _ => S754_nan
   end) = rounded s q E.
Proof.
  intros Q HE. unfold rounded. destruct q as [|m|m]; [| |lia].
  - unfold shr_fexp, fexp, emin, prec, emax.
    cbn [Zdigits2 shr_record_of_loc].
    destruct (Z.max (0 + E - 53) (3 - 1024 - 53) - E)%Z eqn:N;
      try reflexivity.
    lia.
  - destruct (Z.ltb_spec (Zpos m) (2 ^ 53)) as [H|H].
    + rewrite shr_fexp_fits; [reflexivity| |exact HE].
      pose proof (digits2_pos_bounds m) as D.
      assert (P : (2 ^ (Zpos (digits2_pos m) - 1) < 2 ^ 53)%Z) by lia.
      apply Z.pow_lt_mono_r_iff in P; lia.
    + assert (M : Zpos m = (2 ^ 53)%Z) by lia.
      change (2 ^ 53)%Z with (Zpos 9007199254740992) in M.
      injection M as ->.
      unfold shr_fexp, fexp, emin, prec, emax.
      cbn [Zdigits2 shr_record_of_loc].
      change (Zpos (digits2_pos 9007199254740992)) with 54%Z.
      replace (Z.max (54 + E - 53) (3 - 1024 - 53) - E)%Z with 1%Z by lia.
      reflexivity.
Qed.

(** What [binary_round_aux] computes from an exact mantissa: the exponent
    [E] binary64 has for a value of that size, and a mantissa [q] that is
    the quotient of the shift or, when bits that are not all zero were
    shifted out, possibly its successor. *)
Lemma binary_round_aux_spec (s : bool) (m0 : positive) (e0 : Z) :
  exists q E : Z,
    E = Z.max e0 (Z.max (Zpos (digits2_pos m0) + e0 - 53) (-1074)) /\
    (0 <= q <= 2 ^ 53)%Z /\
    (q * 2 ^ (E - e0) <= Zpos m0 < (q + 1) * 2 ^ (E - e0) \/
     (q - 1) * 2 ^ (E - e0) < Zpos m0 < q * 2 ^ (E - e0))%Z /\
    binary_round_aux prec emax s (Zpos m0) e0 loc_Exact = rounded s q E.
Proof.
  pose proof (digits2_pos_bounds m0) as D0.
  unfold binary_round_aux, shr_fexp at 1.
  cbn [Zdigits2 shr_record_of_loc].
  set (F := fexp prec emax (Zpos (digits2_pos m0) + e0)).
  assert (HF : (F = Z.max (Zpos (digits2_pos m0) + e0 - 53) (-1074))%Z)
    by reflexivity.
  rewrite <- HF. clearbody F.
  unfold shr. destruct (F - e0)%Z as [|n|n] eqn:N.
  - exists (Zpos m0), e0.
    cbn [shr_m round_nearest_even loc_of_shr_record].
    pose proof (digits2_pos_lt m0 53 ltac:(lia)).
    rewrite round_carry by lia. rewrite Z.sub_diag, Z.pow_0_r.
    repeat split; try lia.
  - pose proof (shifted_iter_pos (Zpos m0) n 0 _
                  (shifted_start (Zpos m0) ltac:(lia)))
      as (_ & Q & rem & EQ & R & T).
    rewrite Z.add_0_l in EQ, R.
    pose proof (round_nearest_even_cases
                  (iter_pos shr_1 n (Build_shr_record (Zpos m0) false false)))
      as C. cbv zeta in C.
    set (r := iter_pos shr_1 n (Build_shr_record (Zpos m0) false false)) in *.
    set (q := round_nearest_even (shr_m r) (loc_of_shr_record r)) in *.
    clearbody q.
    assert (P : (0 < 2 ^ Zpos n)%Z) by (apply Z.pow_pos_nonneg; lia).
    assert (Q53 : (shr_m r < 2 ^ 53)%Z).
    { pose proof (digits2_pos_lt m0 (Zpos n + 53) ltac:(lia)) as H.
      rewrite Z.pow_add_r in H by lia. nia. }
    exists q, (e0 + Zpos n)%Z.
    rewrite round_carry by lia.
    replace (e0 + Zpos n - e0)%Z with (Zpos n) by lia.
    split; [lia|]. split; [lia|]. split; [|reflexivity].
    destruct C as [->|[-> C]]; [left; nia|].
    rewrite C in T. specialize (T eq_refl). right. nia.
  - exists (Zpos m0), e0.
    cbn [shr_m round_nearest_even loc_of_shr_record].
    pose proof (digits2_pos_lt m0 53 ltac:(lia)).
    rewrite round_carry by lia. rewrite Z.sub_diag, Z.pow_0_r.
    repeat split; try lia.
Qed.

(** Rounding a value that is at most a binary64 number of finer exponent
    does not exceed that number. *)
Lemma binary_round_aux_below (s : bool) (m0 mx : positive) (e0 ex : Z) :
  bounded prec emax mx ex = true -> (e0 < ex)%Z ->
  (Zpos m0 <= Zpos mx * 2 ^ (ex - e0))%Z ->
  below s mx ex (binary_round_aux prec emax s (Zpos m0) e0 loc_Exact).
Proof.
  intros B L V. destruct (bounded_spec _ _ B) as (Dx & Ex & Nx).
  pose proof (digits2_pos_bounds m0) as D0.
  pose proof (digits2_pos_bounds mx) as DX.
  pose proof (digits2_pos_lt mx 53 Dx) as MX.
  assert (S : (Zpos (digits2_pos m0) + e0 <= Zpos (digits2_pos mx) + ex)%Z).
  { assert (H : (2 ^ (Zpos (digits2_pos m0) - 1)
                 < 2 ^ (Zpos (digits2_pos mx) + (ex - e0)))%Z).
    { rewrite Z.pow_add_r by lia.
      assert (0 < 2 ^ (ex - e0))%Z by (apply Z.pow_pos_nonneg; lia). nia. }
    apply Z.pow_lt_mono_r_iff in H; lia. }
  destruct (binary_round_aux_spec s m0 e0) as (q & E & HE & Q & C & ->).
  assert (LE : (E = ex -> q <= Zpos mx)%Z).
  { intros X. rewrite X in C.
    assert (0 < 2 ^ (ex - e0))%Z by (apply Z.pow_pos_nonneg; lia). nia. }
  unfold rounded. destruct q as [|m|m]; [reflexivity| |lia].
  destruct (Z.ltb_spec (Zpos m) (2 ^ 53)).
  - destruct (Z.leb_spec E 971); [|lia].
    split; [reflexivity|]. lia.
  - assert (E < ex)%Z by lia.
    destruct (Z.leb_spec (E + 1) 971); [|lia].
    split; [reflexivity|].
    destruct (Z.eq_dec (E + 1) ex) as [X|X]; [right|left; lia].
    split; [exact X|].
    destruct Nx as [Nx|Nx]; [lia|]. rewrite Nx in DX.
    change (2 ^ (53 - 1))%Z with 4503599627370496%Z in DX. lia.
Qed.

(** Rounding does not underflow to zero from an exponent binary64 has. *)
Lemma binary_round_aux_nonzero (s : bool) (m0 : positive) (e0 : Z) :
  (-1074 <= e0)%Z ->
  nonzero (binary_round_aux prec emax s (Zpos m0) e0 loc_Exact).
Proof.
  intros L. pose proof (digits2_pos_bounds m0) as D0.
  destruct (binary_round_aux_spec s m0 e0) as (q & E & HE & Q & C & ->).
  unfold rounded. destruct q as [|m|m]; [| |lia].
  2: { destruct (Zpos m <? 2 ^ 53)%Z;
         [destruct (E <=? 971)%Z|destruct (E + 1 <=? 971)%Z]; exact I. }
  exfalso. destruct C as [C|C]; [|lia].
  rewrite Z.mul_0_l, Z.add_0_l, Z.mul_1_l in C.
  assert (H : (2 ^ (Zpos (digits2_pos m0) - 1) < 2 ^ (E - e0))%Z) by lia.
  apply Z.pow_lt_mono_r_iff in H; lia.
Qed.

(** ** Multiplication by a factor in (0, 1] *)

Lemma SFleb_positive (m1 m2 : positive) (e1 e2 : Z) :
  SFleb (S754_finite false m1 e1) (S754_finite false m2 e2) = true ->
  (e1 < e2 \/ (e1 = e2 /\ Zpos m1 <= Zpos m2))%Z.
Proof.
  unfold SFleb, SFcompare.
  change (Pos.compare_cont Eq m1 m2) with (m1 ?= m2)%positive.
  destruct (Z.compare_spec e1 e2); [|left; assumption|discriminate].
  destruct (Pos.compare_spec m1 m2); try discriminate; intros _; right; lia.
Qed.

Lemma SFltb_positive (m1 m2 : positive) (e1 e2 : Z) :
  SFltb (S754_finite false m1 e1) (S754_finite false m2 e2) = true ->
  (e1 < e2 \/ (e1 = e2 /\ Zpos m1 < Zpos m2))%Z.
Proof.
  unfold SFltb, SFcompare.
  change (Pos.compare_cont Eq m1 m2) with (m1 ?= m2)%positive.
  destruct (Z.compare_spec e1 e2); [|left; assumption|discriminate].
  destruct (Pos.compare_spec m1 m2); try discriminate; intros _; right; lia.
Qed.

Lemma one_spec : Prim2SF 1 = S754_finite false 4503599627370496 (-52).
Proof. reflexivity. Qed.

(** A float in (0, 1] is [mk * 2 ^ ek] with [mk <= 2 ^ (- ek)]. *)
Lemma leb_one_spec (k : float) :
  (0 <? k) = true -> (k <=? 1) = true ->
  exists (mk : positive) (ek : Z),
    Prim2SF k = S754_finite false mk ek /\
    (ek < 0)%Z /\ (Zpos mk <= 2 ^ (- ek))%Z.
Proof.
  intros P L. pose proof (Prim2SF_valid k) as V.
  rewrite ltb_spec in P. rewrite leb_spec, one_spec in L.
  change (Prim2SF 0) with (S754_zero false) in P.
  destruct (Prim2SF k) as [s|[|]| |[|] mk ek]; try discriminate.
  exists mk, ek. split; [reflexivity|].
  destruct (bounded_spec mk ek V) as (D & E & _).
  pose proof (digits2_pos_lt mk 53 D) as M.
  apply SFleb_positive in L. clear V P.
  destruct L as [L|[-> L]].
  - split; [lia|].
    assert (2 ^ 53 <= 2 ^ (- ek))%Z by (apply Z.pow_le_mono_r; lia).
    lia.
  - split; [lia|exact L].
Qed.

Lemma SFmul_below (s : bool) (mx mk : positive) (ex ek : Z) :
  bounded prec emax mx ex = true ->
  (ek < 0)%Z -> (Zpos mk <= 2 ^ (- ek))%Z ->
  below s mx ex
    (SFmul prec emax (S754_finite s mx ex) (S754_finite false mk ek)).
Proof.
  intros B E K. cbn [SFmul]. rewrite xorb_false_r.
  apply binary_round_aux_below; [exact B|lia|].
  replace (ex - (ex + ek))%Z with (- ek)%Z by lia.
  rewrite Pos2Z.inj_mul. nia.
Qed.

Lemma below_order (s : bool) (mx : positive) (ex : Z) (r : spec_float) :
  below s mx ex r ->
  SFleb (SFabs r) (S754_finite false mx ex) = true /\
  if s then
    SFleb (S754_finite true mx ex) r = true /\
    SFleb r (S754_zero false) = true
  else
    SFleb (S754_zero false) r = true /\
    SFleb r (S754_finite false mx ex) = true.
Proof.
  destruct r as [s'|s'| |s' m e]; cbn [below]; try contradiction.
  - intros ->. destruct s; repeat split.
  - intros (-> & H). unfold SFleb, SFabs, SFcompare.
    change (Pos.compare_cont Eq m mx) with (m ?= mx)%positive.
    change (Pos.compare_cont Eq mx m) with (mx ?= m)%positive.
    rewrite (Pos.compare_antisym m mx).
    destruct (Z.compare_spec e ex), (Z.compare_spec ex e),
      (Pos.compare_spec m mx), s;
      cbn; repeat split; lia.
Qed.

(** The product of a number and a factor in (0, 1], rounded to binary64,
    lies between zero and the number. *)
Lemma mul_toward_zero (x k : float) :
  is_nan x = false -> (0 <? k) = true -> (k <=? 1) = true ->
  toward_zero x (x * k) = true /\ (abs (x * k) <=? abs x) = true.
Proof.
  intros N P L. destruct (leb_one_spec k P L) as (mk & ek & K & E & M).
  pose proof (Prim2SF_valid x) as V.
  unfold toward_zero. unfold is_nan in N. rewrite eqb_spec in N.
  rewrite !leb_spec, !abs_spec, mul_spec, K. unfold SF64mul.
  change (Prim2SF 0) with (S754_zero false).
  destruct (Prim2SF x) as [s|s| |s mx ex]; try discriminate.
  - destruct s; split; reflexivity.
  - destruct s; split; reflexivity.
  - destruct (below_order _ _ _ _ (SFmul_below s mx mk ex ek V E M))
      as (A & B).
    cbn [SFabs]. split; [|exact A].
    destruct s, B as (B1 & B2); rewrite B1, B2;
      [apply orb_true_r|reflexivity].
Qed.

(** ** [1 - d] for [d] in (0, 1) *)

Lemma iter_xO (p n : positive) :
  Zpos (Pos.iter xO p n) = (Zpos p * 2 ^ Zpos n)%Z.
Proof.
  induction n as [|n IH] using Pos.peano_ind.
  - cbn [Pos.iter]. rewrite Z.pow_1_r. lia.
  - rewrite Pos.iter_succ, Pos2Z.inj_succ, Z.pow_succ_r by lia.
    rewrite Pos2Z.inj_xO, IH. lia.
Qed.

Lemma shl_align_spec (m : positive) (e e' : Z) :
  snd (shl_align m e e') = Z.min e e' /\
  Zpos (fst (shl_align m e e')) = (Zpos m * 2 ^ (e - Z.min e e'))%Z.
Proof.
  unfold shl_align. destruct (e' - e)%Z as [|d|d] eqn:D; cbn [fst snd].
  - rewrite Z.min_l by lia. rewrite Z.sub_diag, Z.pow_0_r. lia.
  - rewrite Z.min_l by lia. rewrite Z.sub_diag, Z.pow_0_r. lia.
  - rewrite Z.min_r by lia. split; [reflexivity|].
    rewrite iter_xO. f_equal. f_equal. lia.
Qed.

Lemma SFsub_one (md : positive) (ed : Z) :
  (-1074 <= ed < -52)%Z -> (Zpos md < 2 ^ 53)%Z ->
  let r :=
    SFsub prec emax (S754_finite false 4503599627370496 (-52))
      (S754_finite false md ed) in
  below false 4503599627370496 (-52) r /\ nonzero r.
Proof.
  intros E M. cbn [SFsub cond_Zopp].
  replace (Z.min (-52) ed) with ed by lia.
  destruct (shl_align_spec 4503599627370496 (-52) ed) as (_ & A).
  destruct (shl_align_spec md ed ed) as (_ & B).
  rewrite Z.min_r in A by lia. rewrite Z.min_id, Z.sub_diag, Z.pow_0_r in B.
  rewrite A, B. clear A B.
  assert (T : (4503599627370496 * 2 ^ (-52 - ed) = 2 ^ (- ed))%Z).
  { change 4503599627370496%Z with (2 ^ 52)%Z.
    rewrite <- Z.pow_add_r by lia. f_equal. lia. }
  rewrite T, Z.mul_1_r.
  assert (U : (2 ^ 53 <= 2 ^ (- ed))%Z) by (apply Z.pow_le_mono_r; lia).
  destruct (2 ^ (- ed) - Zpos md)%Z as [|p|p] eqn:D; [lia| |lia].
  cbn [binary_normalize]. unfold binary_round.
  set (F := fexp prec emax (Zpos (digits2_pos p) + ed)).
  assert (HF : (-1074 <= F)%Z) by (unfold F, fexp, emin, prec, emax; lia).
  clearbody F.
  destruct (shl_align_spec p ed F) as (S1 & S2).
  destruct (shl_align p ed F) as [mz ez]. cbn [fst snd] in S1, S2.
  assert (P : (0 < 2 ^ (ed - ez))%Z) by (apply Z.pow_pos_nonneg; lia).
  split.
  - apply binary_round_aux_below; [reflexivity|lia|].
    replace (4503599627370496 * 2 ^ (-52 - ez))%Z
      with (2 ^ (- ed) * 2 ^ (ed - ez))%Z.
    + rewrite S2, <- S1. nia.
    + change 4503599627370496%Z with (2 ^ 52)%Z.
      rewrite <- !Z.pow_add_r by lia. f_equal. lia.
  - apply binary_round_aux_nonzero. lia.
Qed.

(** For a damping factor in (0, 1), the factor [1 - dampingFactor] of the
    decay is in (0, 1]. *)
Lemma one_minus_unit (d : float) :
  (0 <? d) = true -> (d <? 1) = true ->
  (0 <? 1 - d) = true /\ (1 - d <=? 1) = true.
Proof.
  intros P L. pose proof (Prim2SF_valid d) as V.
  rewrite ltb_spec in P, L. rewrite one_spec in L.
  rewrite ltb_spec, leb_spec, sub_spec, one_spec. unfold SF64sub.
  change (Prim2SF 0) with (S754_zero false) in *.
  destruct (Prim2SF d) as [s|[|]| |[|] md ed]; try discriminate.
  destruct (bounded_spec md ed V) as (D & E & C).
  pose proof (digits2_pos_lt md 53 D) as M.
  pose proof (digits2_pos_bounds md) as B.
  apply SFltb_positive in L.
  assert (E' : (-1074 <= ed < -52)%Z).
  { destruct L as [L|[-> L]]; [lia|].
    destruct C as [C|C]; [lia|]. rewrite C in B.
    change (2 ^ (53 - 1))%Z with 4503599627370496%Z in B. lia. }
  destruct (SFsub_one md ed E' M) as (R & Z). cbv zeta in R, Z.
  destruct (below_order _ _ _ _ R) as (_ & R1 & R2).
  split; [|exact R2].
  destruct (SFsub prec emax _ _) as [s|s| |s m e]; try contradiction.
  destruct R as (-> & _). reflexivity.
Qed.

Lemma leb_trans (x y z : float) :
  (x <=? y) = true -> (y <=? z) = true -> (x <=? z) = true.
Proof. intros H1 H2. float_order. Qed.

Lemma abs_leb_refl (x : float) :
  is_nan x = false -> (abs x <=? abs x) = true.
Proof.
  rewrite is_nan_key, leb_cmp. unfold cmp, fkey. rewrite abs_spec.
  destruct (Prim2SF x) as [s|s| |s m e]; try discriminate; intros _;
    cbn [SFabs key]; now rewrite lex_refl.
Qed.

Lemma toward_zero_number (x y : float) :
  toward_zero x y = true -> is_nan y = false.
Proof.
  unfold toward_zero. intros H. apply orb_prop in H.
  destruct H as [H|H]; apply andb_prop in H; destruct H as [H1 H2];
    clear H1; float_order.
Qed.

(** Repeated multiplication by a factor in (0, 1] goes toward zero step by
    step, and never leaves the magnitude it started from. *)
Lemma decay_toward_zero (k x : float) (n : nat) :
  is_nan x = false -> (0 <? k) = true -> (k <=? 1) = true ->
  is_nan (decay k n x) = false /\
  toward_zero (decay k n x) (decay k (S n) x) = true /\
  (abs (decay k n x) <=? abs x) = true.
Proof.
  intros N P L. induction n as [|n (IH1 & IH2 & IH3)].
  - split; [exact N|]. split; [|exact (abs_leb_refl x N)].
    exact (proj1 (mul_toward_zero x k N P L)).
  - change (decay k (S (S n)) x) with (decay k (S n) x * k).
    pose proof (toward_zero_number _ _ IH2) as N'.
    split; [exact N'|]. split.
    + exact (proj1 (mul_toward_zero _ k N' P L)).
    + apply leb_trans with (y := abs (decay k n x)); [|exact IH3].
      exact (proj2 (mul_toward_zero _ k IH1 P L)).
Qed.

(** ** Camera *)

Lemma getViewMatrix_updates (c : Camera.t) :
  Camera.viewUpdates (snd (Camera.getViewMatrix c)) =
  if Camera.viewDirty c then S (Camera.viewUpdates c)
  else Camera.viewUpdates c.
Proof. unfold Camera.getViewMatrix. now destruct (Camera.viewDirty c). Qed.

Lemma getViewMatrix_clean (c : Camera.t) :
  Camera.viewDirty (snd (Camera.getViewMatrix c)) = false.
Proof.
  unfold Camera.getViewMatrix.
  destruct (Camera.viewDirty c) eqn:E; [reflexivity | exact E].
Qed.

Lemma getViewMatrix_idle (c : Camera.t) :
  Camera.viewDirty c = false ->
  Camera.getViewMatrix c = (Camera.viewMatrix c, c).
Proof. intros E. unfold Camera.getViewMatrix. now rewrite E. Qed.

(** C3 (amended).  Two calls of [getViewMatrix] in a row return the same
    matrix, and the second one leaves the camera as it is: it does not call
    [updateViewMatrix].  A call of [getViewMatrix] calls [updateViewMatrix]
    exactly when [viewDirty] is set and leaves the flag cleared.  Each of
    the methods that set a vector of the view, [setPosition], [setTarget]
    and [lookAt], sets [viewDirty], so that the next [getViewMatrix] calls
    [updateViewMatrix] once more. *)
Theorem C3_view_matrix_dirty_flag (c : Camera.t) (x y z : float) :
  let '(m1, c1) := Camera.getViewMatrix c in
  let '(m2, c2) := Camera.getViewMatrix c1 in
  (m2 = m1 /\ c2 = c1 /\ Camera.viewUpdates c2 = Camera.viewUpdates c1) /\
  Camera.viewDirty c1 = false /\
  Camera.viewUpdates c1 =
    (if Camera.viewDirty c then S (Camera.viewUpdates c)
     else Camera.viewUpdates c) /\
  (Camera.viewDirty (Camera.setPosition x y z c1) = true /\
   Camera.viewUpdates
     (snd (Camera.getViewMatrix (Camera.setPosition x y z c1))) =
   S (Camera.viewUpdates c1)) /\
  (Camera.viewDirty (Camera.setTarget x y z c1) = true /\
   Camera.viewUpdates
     (snd (Camera.getViewMatrix (Camera.setTarget x y z c1))) =
   S (Camera.viewUpdates c1)) /\
  (Camera.viewDirty (Camera.lookAt x y z c1) = true /\
   Camera.viewUpdates
     (snd (Camera.getViewMatrix (Camera.lookAt x y z c1))) =
   S (Camera.viewUpdates c1)).
Proof.
  destruct (Camera.getViewMatrix c) as [m1 c1] eqn:E1.
  assert (D1 : Camera.viewDirty c1 = false).
  { change c1 with (snd (m1, c1)). rewrite <- E1. apply getViewMatrix_clean. }
  assert (M1 : m1 = Camera.viewMatrix c1).
  { unfold Camera.getViewMatrix in E1. now inversion E1. }
  rewrite (getViewMatrix_idle c1 D1).
  repeat split; try assumption; try reflexivity.
  - now symmetry.
  - change c1 with (snd (m1, c1)). rewrite <- E1.
    apply getViewMatrix_updates.
Qed.

(** C3 as stated fails: the class has no method [setUp]; [setPosition],
    [setTarget] and [lookAt] are its methods with three coordinates, and
    each sets [viewDirty]. *)
Lemma C3_counterexample :
  ~ sets_viewDirty "setUp" /\
  sets_viewDirty "setPosition" /\
  sets_viewDirty "setTarget" /\
  sets_viewDirty "lookAt".
Proof.
  split; [intros (m & E & _); discriminate E|].
  repeat split; eexists; (split; [reflexivity|intros; reflexivity]).
Qed.

(** C10.  [Camera.update] leaves [viewDirty] set, with or without a
    controller, so the next [getViewMatrix] calls [updateViewMatrix]; on a
    camera without controller whose cache was valid, it changes nothing
    but the flag: position, target and up are the same. *)
Theorem C10_update_always_invalidates_view (M : JS.MathLib)
    (deltaTime : option float) (r : CameraRig.t) :
  let r' := CameraRig.update M deltaTime r in
  Camera.viewDirty (CameraRig.camera r') = true /\
  Camera.viewUpdates (snd (Camera.getViewMatrix (CameraRig.camera r'))) =
    S (Camera.viewUpdates (CameraRig.camera r')) /\
  (forall c : Camera.t,
     r = CameraRig.bare c ->
     r' = CameraRig.bare (Camera.set_viewDirty true c) /\
     Camera.position (CameraRig.camera r') = Camera.position c /\
     Camera.target (CameraRig.camera r') = Camera.target c /\
     Camera.up (CameraRig.camera r') = Camera.up c /\
     Camera.viewMatrix (CameraRig.camera r') = Camera.viewMatrix c /\
     Camera.viewUpdates (CameraRig.camera r') = Camera.viewUpdates c).
Proof.
  intros r'.
  assert (D : Camera.viewDirty (CameraRig.camera r') = true).
  { subst r'. destruct r; reflexivity. }
  split; [exact D|]. split.
  - rewrite getViewMatrix_updates. now rewrite D.
  - intros c ->. subst r'. cbn. repeat split.
Qed.

Lemma viewProjectionMatrix_never_written (c : Camera.t) (x y z : float) :
  Camera.viewProjectionMatrix (Camera.setPosition x y z c) =
    Camera.viewProjectionMatrix c /\
  Camera.viewProjectionMatrix (Camera.setTarget x y z c) =
    Camera.viewProjectionMatrix c /\
  Camera.viewProjectionMatrix (Camera.lookAt x y z c) =
    Camera.viewProjectionMatrix c /\
  Camera.viewProjectionMatrix (Camera.resize c) =
    Camera.viewProjectionMatrix c /\
  Camera.viewProjectionMatrix (snd (Camera.getViewMatrix c)) =
    Camera.viewProjectionMatrix c /\
  Camera.viewProjectionMatrix (snd (Camera.getProjectionMatrix c)) =
    Camera.viewProjectionMatrix c /\
  Camera.viewProjectionMatrix (snd (Camera.getViewProjectionMatrix c)) =
    Camera.viewProjectionMatrix c /\
  fst (Camera.getViewProjectionMatrix c) = Camera.viewProjectionMatrix c.
Proof.
  unfold Camera.getViewProjectionMatrix, Camera.getViewMatrix,
    Camera.getProjectionMatrix, Camera.resize.
  destruct (Camera.viewDirty c) eqn:V, (Camera.projectionDirty c) eqn:P,
    (Camera.aspectRatio c); cbn; rewrite ?V, ?P; cbn; repeat split.
Qed.

(** C1.  On the camera of scenario A, [getViewProjectionMatrix] returns the
    sixteen zeros the constructor allocated, as [getViewMatrix] and
    [getProjectionMatrix] do: neither [updateViewMatrix] nor
    [updateProjectionMatrix] nor [getViewProjectionMatrix] writes a matrix.
    The origin is mapped to [(0, 0, 0, 0)]: [w] is zero and the depth [z / w]
    is NaN, inside neither [[0, 1]] nor [[-1, 1]]. *)
Theorem C1_scenarioA_view_projection_is_zero :
  let vp := fst (Camera.getViewProjectionMatrix Examples.scenarioA) in
  let '(x, y, z, w) := transform vp (0, 0, 0, 1) in
  fst (Camera.getViewMatrix Examples.scenarioA) = Float32Array_new 16 /\
  fst (Camera.getProjectionMatrix Examples.scenarioA) = Float32Array_new 16 /\
  vp = Float32Array_new 16 /\
  (x, y, z, w) = (0, 0, 0, 0) /\
  is_nan (z / w) = true /\
  (0 <=? z / w) = false /\ (z / w <=? 1) = false /\ (-1 <=? z / w) = false.
Proof. vm_compute. repeat split. Qed.



(** ** OrbitControls *)

Ltac update_cases o :=
  destruct o as [? ? ? ? ? ? ? ? ? ? ? [|] ? ? ? ? ? [|] ? ? ? [|] ?];
  cbn.

Lemma update_phi (M : JS.MathLib) (dt : option float) (o : OrbitControls.t) :
  OrbitControls.phi (OrbitControls.spherical (OrbitControls.update M dt o)) =
  clamp (OrbitControls.minPolarAngle o) (OrbitControls.maxPolarAngle o)
    (OrbitControls.phi (OrbitControls.spherical o)
     + OrbitControls.phi (OrbitControls.sphericalDelta o)).
Proof. update_cases o; reflexivity. Qed.

Lemma update_radius (M : JS.MathLib) (dt : option float)
    (o : OrbitControls.t) :
  OrbitControls.radius
    (OrbitControls.spherical (OrbitControls.update M dt o)) =
  if OrbitControls.zoomChanged o then
    clamp (OrbitControls.minDistance o) (OrbitControls.maxDistance o)
      (OrbitControls.radius (OrbitControls.spherical o)
       / OrbitControls.scale o)
  else OrbitControls.radius (OrbitControls.spherical o).
Proof. update_cases o; reflexivity. Qed.

Lemma update_phi_delta (M : JS.MathLib) (dt : option float)
    (o : OrbitControls.t) :
  OrbitControls.phi
    (OrbitControls.sphericalDelta (OrbitControls.update M dt o)) =
  if OrbitControls.enableDamping o then
    OrbitControls.phi (OrbitControls.sphericalDelta o)
    * (1 - OrbitControls.dampingFactor o)
  else 0.
Proof. update_cases o; reflexivity. Qed.

Lemma update_theta_delta (M : JS.MathLib) (dt : option float)
    (o : OrbitControls.t) :
  OrbitControls.theta
    (OrbitControls.sphericalDelta (OrbitControls.update M dt o)) =
  if OrbitControls.enableDamping o then
    (if OrbitControls.autoRotate o then
       OrbitControls.theta (OrbitControls.sphericalDelta o)
       - autoRotateStep dt o
     else OrbitControls.theta (OrbitControls.sphericalDelta o))
    * (1 - OrbitControls.dampingFactor o)
  else 0.
Proof. update_cases o; reflexivity. Qed.

Lemma update_settings (M : JS.MathLib) (dt : option float)
    (o : OrbitControls.t) :
  let o' := OrbitControls.update M dt o in
  OrbitControls.enableDamping o' = OrbitControls.enableDamping o /\
  OrbitControls.dampingFactor o' = OrbitControls.dampingFactor o /\
  OrbitControls.autoRotate o' = OrbitControls.autoRotate o /\
  OrbitControls.target o' = OrbitControls.target o.
Proof. update_cases o; repeat split. Qed.

Lemma rotateAll_keeps (deltas : list (float * float)) (o : OrbitControls.t) :
  let o' := rotateAll deltas o in
  OrbitControls.spherical o' = OrbitControls.spherical o /\
  OrbitControls.zoomChanged o' = OrbitControls.zoomChanged o /\
  OrbitControls.scale o' = OrbitControls.scale o /\
  OrbitControls.minPolarAngle o' = OrbitControls.minPolarAngle o /\
  OrbitControls.maxPolarAngle o' = OrbitControls.maxPolarAngle o /\
  OrbitControls.minDistance o' = OrbitControls.minDistance o /\
  OrbitControls.maxDistance o' = OrbitControls.maxDistance o.
Proof.
  revert o. induction deltas as [|d deltas IH]; intros o.
  - cbn. repeat split.
  - cbn. specialize (IH (OrbitControls.handleRotate (fst d) (snd d) o)).
    cbn in IH. exact IH.
Qed.

(** C4.  After every [update], the camera is the one [setPosition(x, y, z)]
    followed by [lookAt(target)] leave, where, for the spherical state
    [update] has just computed, [x = radius sin(phi) sin(theta)],
    [y = radius cos(phi)], [z = radius sin(phi) cos(theta)], each increased
    by the component of [target + panOffset]. *)
Theorem C4_update_writes_spherical_position (M : JS.MathLib)
    (deltaTime : option float) (o : OrbitControls.t) :
  let o' := OrbitControls.update M deltaTime o in
  let radius := OrbitControls.radius (OrbitControls.spherical o') in
  let phi := OrbitControls.phi (OrbitControls.spherical o') in
  let theta := OrbitControls.theta (OrbitControls.spherical o') in
  let target := OrbitControls.target o in
  let panOffset := OrbitControls.panOffset o in
  let x := radius * JS.sin M phi * JS.sin M theta
           + (v0 target + v0 panOffset) in
  let y := radius * JS.cos M phi + (v1 target + v1 panOffset) in
  let z := radius * JS.sin M phi * JS.cos M theta
           + (v2 target + v2 panOffset) in
  OrbitControls.camera o' =
    Camera.lookAt (v0 target) (v1 target) (v2 target)
      (Camera.setPosition x y z (OrbitControls.camera o)) /\
  Camera.position (OrbitControls.camera o') = mkVec3 x y z /\
  Camera.target (OrbitControls.camera o') = target /\
  Camera.viewDirty (OrbitControls.camera o') = true.
Proof.
  update_cases o; destruct target; repeat split.
Qed.

Lemma updates_settings (M : JS.MathLib) (dt : option float) (n : nat)
    (o : OrbitControls.t) :
  OrbitControls.enableDamping (updates M dt n o) =
    OrbitControls.enableDamping o /\
  OrbitControls.dampingFactor (updates M dt n o) =
    OrbitControls.dampingFactor o /\
  OrbitControls.autoRotate (updates M dt n o) = OrbitControls.autoRotate o.
Proof.
  induction n as [|n (IH1 & IH2 & IH3)]; [now repeat split|].
  change (updates M dt (S n) o)
    with (OrbitControls.update M dt (updates M dt n o)).
  destruct (update_settings M dt (updates M dt n o)) as (E1 & E2 & E3 & _).
  rewrite E1, E2, E3. now repeat split.
Qed.

(** C5 (amended).  With damping enabled, an [update] replaces the pending
    phi by its product with [1 - dampingFactor], and the pending theta by
    the product of [1 - dampingFactor] and the pending theta less the
    auto-rotation step when [autoRotate] is set; so [n] updates multiply
    pending phi, and pending theta without auto-rotation, [n] times by
    [1 - dampingFactor], each product rounded to binary64.  For a
    [dampingFactor] in (0, 1) and a pending delta that is a number, the
    updates shrink it monotonically toward zero, though not strictly:
    the delta after one more update lies between zero and the delta before
    it, and its magnitude never exceeds the one it started from.  With
    damping disabled, one [update] sets both to zero. *)
Theorem C5_damping_decay (M : JS.MathLib) (deltaTime : option float)
    (n : nat) (o : OrbitControls.t) :
  (OrbitControls.enableDamping o = true ->
   OrbitControls.phi
     (OrbitControls.sphericalDelta (OrbitControls.update M deltaTime o)) =
   OrbitControls.phi (OrbitControls.sphericalDelta o)
   * (1 - OrbitControls.dampingFactor o) /\
   OrbitControls.theta
     (OrbitControls.sphericalDelta (OrbitControls.update M deltaTime o)) =
   (if OrbitControls.autoRotate o then
      OrbitControls.theta (OrbitControls.sphericalDelta o)
      - autoRotateStep deltaTime o
    else OrbitControls.theta (OrbitControls.sphericalDelta o))
   * (1 - OrbitControls.dampingFactor o) /\
   OrbitControls.phi
     (OrbitControls.sphericalDelta (updates M deltaTime n o)) =
   decay (1 - OrbitControls.dampingFactor o) n
     (OrbitControls.phi (OrbitControls.sphericalDelta o)) /\
   (OrbitControls.autoRotate o = false ->
    OrbitControls.theta
      (OrbitControls.sphericalDelta (updates M deltaTime n o)) =
    decay (1 - OrbitControls.dampingFactor o) n
      (OrbitControls.theta (OrbitControls.sphericalDelta o))) /\
   ((0 <? OrbitControls.dampingFactor o) = true ->
    (OrbitControls.dampingFactor o <? 1) = true ->
    (is_nan (OrbitControls.phi (OrbitControls.sphericalDelta o)) = false ->
     toward_zero
       (OrbitControls.phi
          (OrbitControls.sphericalDelta (updates M deltaTime n o)))
       (OrbitControls.phi
          (OrbitControls.sphericalDelta (updates M deltaTime (S n) o)))
     = true /\
     (abs (OrbitControls.phi
             (OrbitControls.sphericalDelta (updates M deltaTime (S n) o)))
      <=? abs (OrbitControls.phi
                 (OrbitControls.sphericalDelta (updates M deltaTime n o))))
     = true /\
     (abs (OrbitControls.phi
             (OrbitControls.sphericalDelta (updates M deltaTime n o)))
      <=? abs (OrbitControls.phi (OrbitControls.sphericalDelta o))) = true)
    /\
    (OrbitControls.autoRotate o = false ->
     is_nan (OrbitControls.theta (OrbitControls.sphericalDelta o)) = false ->
     toward_zero
       (OrbitControls.theta
          (OrbitControls.sphericalDelta (updates M deltaTime n o)))
       (OrbitControls.theta
          (OrbitControls.sphericalDelta (updates M deltaTime (S n) o)))
     = true /\
     (abs (OrbitControls.theta
             (OrbitControls.sphericalDelta (updates M deltaTime (S n) o)))
      <=? abs (OrbitControls.theta
                 (OrbitControls.sphericalDelta (updates M deltaTime n o))))
     = true /\
     (abs (OrbitControls.theta
             (OrbitControls.sphericalDelta (updates M deltaTime n o)))
      <=? abs (OrbitControls.theta (OrbitControls.sphericalDelta o)))
     = true))) /\
  (OrbitControls.enableDamping o = false ->
   OrbitControls.theta
     (OrbitControls.sphericalDelta (OrbitControls.update M deltaTime o)) = 0 /\
   OrbitControls.phi
     (OrbitControls.sphericalDelta (OrbitControls.update M deltaTime o)) = 0).
Proof.
  split; intros D.
  - rewrite update_phi_delta, update_theta_delta, D.
    assert (Hphi : forall i,
               OrbitControls.phi
                 (OrbitControls.sphericalDelta (updates M deltaTime i o)) =
               decay (1 - OrbitControls.dampingFactor o) i
                 (OrbitControls.phi (OrbitControls.sphericalDelta o))).
    { induction i as [|i IH]; [reflexivity|].
      change (updates M deltaTime (S i) o)
        with (OrbitControls.update M deltaTime (updates M deltaTime i o)).
      destruct (updates_settings M deltaTime i o) as (E1 & E2 & _).
      rewrite update_phi_delta, E1, E2, D, IH. reflexivity. }
    assert (Htheta : OrbitControls.autoRotate o = false -> forall i,
               OrbitControls.theta
                 (OrbitControls.sphericalDelta (updates M deltaTime i o)) =
               decay (1 - OrbitControls.dampingFactor o) i
                 (OrbitControls.theta (OrbitControls.sphericalDelta o))).
    { intros A. induction i as [|i IH]; [reflexivity|].
      change (updates M deltaTime (S i) o)
        with (OrbitControls.update M deltaTime (updates M deltaTime i o)).
      destruct (updates_settings M deltaTime i o) as (E1 & E2 & E3).
      rewrite update_theta_delta, E1, E2, E3, D, A, IH. reflexivity. }
    split; [reflexivity|]. split; [reflexivity|].
    split; [apply Hphi|]. split; [intros A; apply (Htheta A)|].
    intros P L. destruct (one_minus_unit _ P L) as (K1 & K2).
    split.
    + intros N. rewrite !Hphi.
      destruct (decay_toward_zero _ _ n N K1 K2) as (N' & T & B).
      split; [exact T|]. split; [|exact B].
      exact (proj2 (mul_toward_zero _ _ N' K1 K2)).
    + intros A N. rewrite !(Htheta A).
      destruct (decay_toward_zero _ _ n N K1 K2) as (N' & T & B).
      split; [exact T|]. split; [|exact B].
      exact (proj2 (mul_toward_zero _ _ N' K1 K2)).
  - rewrite update_phi_delta, update_theta_delta, D. now split.
Qed.

(** C5, a run: damping factor 0.25 without auto-rotation, eight updates
    after a drag, and the ninth; and damping disabled, one update. *)
Lemma C5_damping_decay_witness :
  let o :=
    OrbitControls.handleRotate 100 100
      (OrbitControls.new HostMath.math Examples.camera
         (Examples.with_damping true 0.25 false)) in
  let o0 :=
    OrbitControls.handleRotate 100 100
      (OrbitControls.new HostMath.math Examples.camera
         (Examples.with_damping false 0.25 false)) in
  let theta i :=
    OrbitControls.theta
      (OrbitControls.sphericalDelta (updates HostMath.math None i o)) in
  (OrbitControls.enableDamping o = true /\
   OrbitControls.autoRotate o = false /\
   (0 <? OrbitControls.dampingFactor o) = true /\
   (OrbitControls.dampingFactor o <? 1) = true /\
   is_nan (OrbitControls.theta (OrbitControls.sphericalDelta o)) = false /\
   theta 8%nat =
     decay (1 - 0.25) 8 (OrbitControls.theta (OrbitControls.sphericalDelta o))
   /\
   toward_zero (theta 8%nat) (theta 9%nat) = true /\
   (abs (theta 9%nat) <=? abs (theta 8%nat)) = true /\
   (abs (theta 8%nat) <=? abs (theta 0%nat)) = true)
  /\
  (OrbitControls.enableDamping o0 = false /\
   OrbitControls.theta
     (OrbitControls.sphericalDelta
        (OrbitControls.update HostMath.math None o0)) = 0).
Proof.
  intros o o0 theta.
  assert (D : OrbitControls.enableDamping o = true) by reflexivity.
  assert (A : OrbitControls.autoRotate o = false) by reflexivity.
  assert (P : (0 <? OrbitControls.dampingFactor o) = true) by reflexivity.
  assert (L : (OrbitControls.dampingFactor o <? 1) = true) by reflexivity.
  assert (N : is_nan (OrbitControls.theta (OrbitControls.sphericalDelta o))
              = false) by reflexivity.
  assert (D0 : OrbitControls.enableDamping o0 = false) by reflexivity.
  split.
  - split; [exact D|]. split; [exact A|]. split; [exact P|].
    split; [exact L|]. split; [exact N|].
    destruct (proj1 (C5_damping_decay HostMath.math None 8 o) D)
      as (_ & _ & _ & E & S).
    split; [exact (E A)|].
    exact (proj2 (S P L) A N).
  - split; [exact D0|].
    exact (proj1 (proj2 (C5_damping_decay HostMath.math None 8 o0) D0)).
Defined.

(** C5 as stated fails.  With [dampingFactor: 0.5] a pending phi that is
    not zero is exactly zero after 1100 updates; with the default
    [dampingFactor] a pending phi stalls at a subnormal value, which the
    next update leaves as it is; with [autoRotate] set, the pending theta
    after an update is not the product of the pending theta and
    [1 - dampingFactor].  The constructor takes any [dampingFactor]: with
    [dampingFactor: -1] an update doubles the pending phi, which is 1024
    times as large after ten updates.  On a viewport without height a drag
    with [deltaY = 0] makes the pending phi NaN, and the updates leave it
    NaN. *)
Lemma C5_counterexample :
  (forall M : JS.MathLib,
     let o :=
       OrbitControls.handleRotate 100 100
         (OrbitControls.new M Examples.camera
            (Examples.with_damping true 0.5 false)) in
     is_zero (OrbitControls.phi (OrbitControls.sphericalDelta o)) = false /\
     (OrbitControls.phi
        (OrbitControls.sphericalDelta (updates M None 1100 o)) =? 0) = true)
  /\
  (forall M : JS.MathLib,
     let o :=
       OrbitControls.handleRotate 100 100
         (OrbitControls.new M Examples.camera OrbitControls.no_options) in
     OrbitControls.dampingFactor o = 0.05 /\
     is_zero
       (OrbitControls.phi
          (OrbitControls.sphericalDelta (updates M None 20000 o))) = false /\
     OrbitControls.phi
       (OrbitControls.sphericalDelta (updates M None 20001 o)) =
     OrbitControls.phi
       (OrbitControls.sphericalDelta (updates M None 20000 o)))
  /\
  (forall M : JS.MathLib,
     let o :=
       OrbitControls.handleRotate 100 100
         (OrbitControls.new M Examples.camera
            (Examples.with_damping true 0.05 true)) in
     (OrbitControls.theta
        (OrbitControls.sphericalDelta (OrbitControls.update M None o)) =?
      OrbitControls.theta (OrbitControls.sphericalDelta o)
      * (1 - OrbitControls.dampingFactor o)) = false)
  /\
  (forall M : JS.MathLib,
     let o :=
       OrbitControls.handleRotate 100 100
         (OrbitControls.new M Examples.camera
            (Examples.with_damping true (-1) false)) in
     let phi i :=
       OrbitControls.phi
         (OrbitControls.sphericalDelta (updates M None i o)) in
     OrbitControls.dampingFactor o = -1 /\
     phi 1%nat = 2 * phi 0%nat /\
     (abs (phi 0%nat) <? abs (phi 1%nat)) = true /\
     toward_zero (phi 0%nat) (phi 1%nat) = false /\
     phi 10%nat = 1024 * phi 0%nat)
  /\
  (forall M : JS.MathLib,
     let o :=
       rotateAll [(10, 0)]
         (OrbitControls.new M
            (Camera.new Examples.canvas_no_height Camera.no_options)
            (Examples.with_damping true 0.25 false)) in
     let phi i :=
       OrbitControls.phi
         (OrbitControls.sphericalDelta (updates M None i o)) in
     is_nan (phi 0%nat) = true /\
     is_nan (phi 1%nat) = true /\
     toward_zero (phi 0%nat) (phi 1%nat) = false).
Proof.
  split; [|split; [|split; [|split]]]; intros M; vm_compute; repeat split.
Qed.

(** C2 (amended).  Let a sequence of rotate drags be followed by an
    [update], on a controller with [minPolarAngle <= maxPolarAngle], and let
    the angle [phi] plus the accumulated pending phi be a number.  Then
    [phi] is afterwards in [[minPolarAngle, maxPolarAngle]], and it is equal
    to [maxPolarAngle] (to [minPolarAngle]) when the angle was beyond it.
    The radius is what it was when no zoom is pending; when a zoom is
    pending, [minDistance <= maxDistance] and [radius / scale] is a number,
    it is afterwards in [[minDistance, maxDistance]]. *)
Theorem C2_orbit_clamping (M : JS.MathLib) (deltaTime : option float)
    (deltas : list (float * float)) (o : OrbitControls.t) :
  let o1 := rotateAll deltas o in
  let o' := OrbitControls.update M deltaTime o1 in
  let angle :=
    OrbitControls.phi (OrbitControls.spherical o)
    + OrbitControls.phi (OrbitControls.sphericalDelta o1) in
  let lo := OrbitControls.minPolarAngle o in
  let hi := OrbitControls.maxPolarAngle o in
  (lo <=? hi) = true ->
  is_nan angle = false ->
  within lo hi (OrbitControls.phi (OrbitControls.spherical o')) /\
  ((hi <? angle) = true ->
   (OrbitControls.phi (OrbitControls.spherical o') =? hi) = true) /\
  ((angle <? lo) = true ->
   (OrbitControls.phi (OrbitControls.spherical o') =? lo) = true) /\
  (OrbitControls.zoomChanged o = false ->
   OrbitControls.radius (OrbitControls.spherical o') =
   OrbitControls.radius (OrbitControls.spherical o)) /\
  (OrbitControls.zoomChanged o = true ->
   (OrbitControls.minDistance o <=? OrbitControls.maxDistance o) = true ->
   is_nan
     (OrbitControls.radius (OrbitControls.spherical o)
      / OrbitControls.scale o) = false ->
   within (OrbitControls.minDistance o) (OrbitControls.maxDistance o)
     (OrbitControls.radius (OrbitControls.spherical o'))).
Proof.
  intros o1 o' angle lo hi Hb Ha.
  destruct (rotateAll_keeps deltas o)
    as (Es & Ez & Esc & Elo & Ehi & Emin & Emax).
  fold o1 in Es, Ez, Esc, Elo, Ehi, Emin, Emax.
  assert (P : OrbitControls.phi (OrbitControls.spherical o') =
              clamp lo hi angle).
  { subst o' angle lo hi. rewrite update_phi, Es, Elo, Ehi. reflexivity. }
  assert (R : OrbitControls.radius (OrbitControls.spherical o') =
              if OrbitControls.zoomChanged o then
                clamp (OrbitControls.minDistance o)
                  (OrbitControls.maxDistance o)
                  (OrbitControls.radius (OrbitControls.spherical o)
                   / OrbitControls.scale o)
              else OrbitControls.radius (OrbitControls.spherical o)).
  { subst o'. rewrite update_radius, Es, Ez, Esc, Emin, Emax. reflexivity. }
  rewrite P, R. split; [|split; [|split; [|split]]].
  - now apply clamp_range.
  - now apply clamp_above.
  - now apply clamp_below.
  - now intros ->.
  - intros -> Hd Hr. now apply clamp_range.
Qed.

(** C2, scenario B: a drag upwards by 100000 pixels on a controller with
    [minPolarAngle: 0.1] and [maxPolarAngle: Math.PI - 0.1] leaves [phi]
    equal to [maxPolarAngle]. *)
Lemma C2_orbit_clamping_witness :
  let o :=
    OrbitControls.new HostMath.math Examples.camera
      Examples.scenarioB_options in
  let deltas := [(0, -100000)] in
  let o' := OrbitControls.update HostMath.math None (rotateAll deltas o) in
  (OrbitControls.minPolarAngle o <=? OrbitControls.maxPolarAngle o) = true /\
  is_nan
    (OrbitControls.phi (OrbitControls.spherical o)
     + OrbitControls.phi
         (OrbitControls.sphericalDelta (rotateAll deltas o))) = false /\
  (OrbitControls.maxPolarAngle o
   <? OrbitControls.phi (OrbitControls.spherical o)
      + OrbitControls.phi
          (OrbitControls.sphericalDelta (rotateAll deltas o))) = true /\
  within (OrbitControls.minPolarAngle o) (OrbitControls.maxPolarAngle o)
    (OrbitControls.phi (OrbitControls.spherical o')) /\
  (OrbitControls.phi (OrbitControls.spherical o')
   =? OrbitControls.maxPolarAngle o) = true.
Proof.
  intros o deltas o'.
  assert (Hb : (OrbitControls.minPolarAngle o
                <=? OrbitControls.maxPolarAngle o) = true)
    by (vm_compute; reflexivity).
  assert (Ha : is_nan
                 (OrbitControls.phi (OrbitControls.spherical o)
                  + OrbitControls.phi
                      (OrbitControls.sphericalDelta (rotateAll deltas o)))
               = false)
    by (vm_compute; reflexivity).
  assert (Hp : (OrbitControls.maxPolarAngle o
                <? OrbitControls.phi (OrbitControls.spherical o)
                   + OrbitControls.phi
                       (OrbitControls.sphericalDelta (rotateAll deltas o)))
               = true)
    by (vm_compute; reflexivity).
  destruct (C2_orbit_clamping HostMath.math None deltas o Hb Ha)
    as (W & A & _).
  split; [exact Hb|]. split; [exact Ha|]. split; [exact Hp|].
  split; [exact W | exact (A Hp)].
Defined.

(** C2 as stated fails.  A camera 200 away from the target gives a radius
    of 200, above [maxDistance = 100]; a drag and an [update] leave it
    there, as no zoom is pending.  On a viewport without height a drag
    with [deltaY = 0] makes the pending phi NaN, and [phi] is NaN after the
    [update].  With [minPolarAngle: 2] and [maxPolarAngle: 1], [phi] is 2
    after an [update]. *)
Lemma C2_counterexample :
  (forall M : JS.MathLib,
     let o :=
       OrbitControls.update M None
         (rotateAll [(10, 10)]
            (OrbitControls.new M Examples.far_camera
               OrbitControls.no_options)) in
     OrbitControls.radius (OrbitControls.spherical o) = 200 /\
     OrbitControls.maxDistance o = 100 /\
     (OrbitControls.radius (OrbitControls.spherical o)
      <=? OrbitControls.maxDistance o) = false)
  /\
  (forall M : JS.MathLib,
     let o :=
       OrbitControls.update M None
         (rotateAll [(10, 0)]
            (OrbitControls.new M
               (Camera.new Examples.canvas_no_height Camera.no_options)
               OrbitControls.no_options)) in
     is_nan (OrbitControls.phi (OrbitControls.spherical o)) = true /\
     (OrbitControls.minPolarAngle o
      <=? OrbitControls.phi (OrbitControls.spherical o)) = false /\
     (OrbitControls.phi (OrbitControls.spherical o)
      <=? OrbitControls.maxPolarAngle o) = false)
  /\
  (forall M : JS.MathLib,
     let o :=
       OrbitControls.update M None
         (rotateAll [(10, 10)]
            (OrbitControls.new M Examples.camera
               (Examples.with_polar 2 1))) in
     OrbitControls.maxPolarAngle o = 1 /\
     (OrbitControls.phi (OrbitControls.spherical o)
      <=? OrbitControls.maxPolarAngle o) = false).
Proof.
  split; [|split]; intros M.
  - vm_compute. repeat split.
  - cbv zeta. rewrite update_phi.
    change (OrbitControls.phi (OrbitControls.sphericalDelta
              (rotateAll [(10, 0)]
                 (OrbitControls.new M
                    (Camera.new Examples.canvas_no_height Camera.no_options)
                    OrbitControls.no_options))))
      with nan.
    rewrite add_nan_r, clamp_nan by reflexivity.
    repeat split.
  - cbv zeta. rewrite update_phi. split; [reflexivity|].
    apply clamp_inverted. reflexivity.
Qed.

Create HintDb not_finite.
#[local] Hint Resolve div_zero_not_finite mul_not_finite_l mul_not_finite_r
  sub_not_finite_l sub_not_finite_r add_not_finite_r : not_finite.

(** C6 (amended).  [handleRotate] and [handlePan] divide by the width and
    the height of the viewport whatever they are.  When the width is zero,
    for every state and every drag, [handleRotate] leaves the pending theta
    NaN or infinite, and [handlePan] leaves the three components of
    [panOffset] NaN or infinite; when the height is zero, the same holds of
    the pending phi and of [panOffset]. *)
Theorem C6_zero_viewport_is_divided_by (deltaX deltaY : float)
    (o : OrbitControls.t) :
  let rotated := OrbitControls.handleRotate deltaX deltaY o in
  let panned :=
    OrbitControls.panOffset (OrbitControls.handlePan deltaX deltaY o) in
  (is_zero (clientWidth (OrbitControls.canvas o)) = true ->
   is_finite (OrbitControls.theta (OrbitControls.sphericalDelta rotated))
     = false /\
   is_finite (v0 panned) = false /\
   is_finite (v1 panned) = false /\
   is_finite (v2 panned) = false) /\
  (is_zero (clientHeight (OrbitControls.canvas o)) = true ->
   is_finite (OrbitControls.phi (OrbitControls.sphericalDelta rotated))
     = false /\
   is_finite (v0 panned) = false /\
   is_finite (v1 panned) = false /\
   is_finite (v2 panned) = false).
Proof.
  destruct o. unfold OrbitControls.canvas. cbn.
  split; intros Z; repeat split; auto 8 with not_finite.
Qed.

(** C6, a run: a viewport without width, a drag of ten pixels each way. *)
Lemma C6_zero_viewport_witness :
  let o :=
    OrbitControls.new HostMath.math
      (Camera.new Examples.canvas_no_width Camera.no_options)
      OrbitControls.no_options in
  is_zero (clientWidth (OrbitControls.canvas o)) = true /\
  is_finite
    (OrbitControls.theta
       (OrbitControls.sphericalDelta (OrbitControls.handleRotate 10 10 o)))
    = false /\
  is_finite
    (v0 (OrbitControls.panOffset (OrbitControls.handlePan 10 10 o))) = false.
Proof.
  intros o.
  assert (Z : is_zero (clientWidth (OrbitControls.canvas o)) = true)
    by reflexivity.
  destruct (proj1 (C6_zero_viewport_is_divided_by 10 10 o) Z)
    as (T & P & _).
  split; [exact Z|]. split; [exact T | exact P].
Defined.

(** C6 as stated fails.  On a viewport without width, a drag of ten pixels
    changes the pending theta from [0] to [-Infinity] and [panOffset] from
    zeros to [Infinity, NaN, NaN]; a drag of no pixel makes the pending
    theta NaN.  On a viewport without height the pending phi becomes
    [-Infinity]. *)
Lemma C6_counterexample :
  (forall M : JS.MathLib,
     let o :=
       OrbitControls.new M
         (Camera.new Examples.canvas_no_width Camera.no_options)
         OrbitControls.no_options in
     OrbitControls.theta (OrbitControls.sphericalDelta o) = 0 /\
     OrbitControls.panOffset o = mkVec3 0 0 0 /\
     OrbitControls.theta
       (OrbitControls.sphericalDelta (OrbitControls.handleRotate 10 10 o))
     = neg_infinity /\
     OrbitControls.theta
       (OrbitControls.sphericalDelta (OrbitControls.handleRotate 0 10 o))
     = nan /\
     OrbitControls.panOffset (OrbitControls.handlePan 10 10 o)
     = mkVec3 infinity nan nan)
  /\
  (forall M : JS.MathLib,
     let o :=
       OrbitControls.new M
         (Camera.new Examples.canvas_no_height Camera.no_options)
         OrbitControls.no_options in
     OrbitControls.phi (OrbitControls.sphericalDelta o) = 0 /\
     OrbitControls.phi
       (OrbitControls.sphericalDelta (OrbitControls.handleRotate 10 10 o))
     = neg_infinity).
Proof.
  split; intros M; vm_compute; repeat split.
Qed.

(** ** Renderer *)

Lemma appends_ret (P : Renderer.Call -> bool) (A : Type) (a : A) :
  appends P (Renderer.ret a).
Proof.
  intros tr tr' out E. inversion E; subst. exists [].
  now rewrite app_nil_r.
Qed.

Lemma appends_call (env : Renderer.Env) (P : Renderer.Call -> bool)
    (c : Renderer.Call) :
  P c = true -> appends P (Renderer.call env c).
Proof.
  intros Hc tr tr' out E. unfold Renderer.call in E.
  destruct (Renderer.throws env tr c); inversion E; subst.
  - exists []. now rewrite app_nil_r.
  - exists [c]. cbn. now rewrite Hc.
Qed.

Lemma appends_console (P : Renderer.Call -> bool) (c : Renderer.Call) :
  P c = true -> appends P (Renderer.console c).
Proof.
  intros Hc tr tr' out E. inversion E; subst.
  exists [c]. cbn. now rewrite Hc.
Qed.

Lemma appends_bind (P : Renderer.Call -> bool) (A B : Type)
    (m : Renderer.Run A) (k : A -> Renderer.Run B) :
  appends P m -> (forall a, appends P (k a)) ->
  appends P (Renderer.bind m k).
Proof.
  intros Hm Hk tr tr' out E. unfold Renderer.bind in E.
  destruct (m tr) as [tr1 [a|]] eqn:Em.
  - destruct (Hm _ _ _ Em) as (l1 & -> & F1).
    destruct (Hk a _ _ _ E) as (l2 & -> & F2).
    exists (l1 ++ l2). rewrite app_assoc, forallb_app, F1, F2. now split.
  - inversion E; subst. exact (Hm _ _ _ Em).
Qed.

Lemma appends_try_catch (P : Renderer.Call -> bool) (A : Type)
    (body handler : Renderer.Run A) :
  appends P body -> appends P handler ->
  appends P (Renderer.try_catch body handler).
Proof.
  intros Hb Hh tr tr' out E. unfold Renderer.try_catch in E.
  destruct (body tr) as [tr1 [a|]] eqn:Eb.
  - inversion E; subst. exact (Hb _ _ _ Eb).
  - destruct (Hb _ _ _ Eb) as (l1 & -> & F1).
    destruct (Hh _ _ _ E) as (l2 & -> & F2).
    exists (l1 ++ l2). rewrite app_assoc, forallb_app, F1, F2. now split.
Qed.

Lemma appends_fresh (P : Renderer.Call -> bool) : appends P Renderer.fresh.
Proof.
  intros tr tr' out E. inversion E; subst. exists [].
  now rewrite app_nil_r.
Qed.

Ltac appends_steps :=
  repeat first
    [ apply appends_ret
    | apply appends_fresh
    | apply appends_call; reflexivity
    | apply appends_console; reflexivity
    | apply appends_bind; [|intros ?]
    | apply appends_try_catch
    | match goal with
      | |- appends _ (match ?x with _ => _ end) => destruct x
      | |- appends _ (if ?x then _ else _) => destruct x
      end ].

Lemma prepare_quiet (env : Renderer.Env) (r : Renderer.t) :
  appends quiet (Renderer.prepare env r).
Proof.
  unfold Renderer.prepare, Renderer.resize, Renderer.createDepthTexture.
  appends_steps.
Qed.

(** C7.  Let the statements before the [try] block have completed, and let
    the surface report no current image.  Then [render] returns normally;
    the calls of the whole frame neither record a command nor submit to the
    queue; an error is logged; and, [getCurrentTexture] having returned, the
    frame ends with that call and the log of "No current texture
    available.". *)
Theorem C7_no_current_texture_aborts_frame (env : Renderer.Env)
    (r r1 : Renderer.t) (scene : list Renderer.Entity)
    (tr tr1 : Renderer.Trace) :
  Renderer.currentTexture env = None ->
  Renderer.prepare env r tr = (tr1, Renderer.returned r1) ->
  exists frame,
    Renderer.render env r scene tr = (tr ++ frame, Renderer.returned r1) /\
    forallb quiet frame = true /\
    existsb Renderer.is_error_log frame = true /\
    (Renderer.throws env tr1 Renderer.GetCurrentTexture = false ->
     tr ++ frame =
     tr1 ++ [Renderer.GetCurrentTexture;
             Renderer.ConsoleError "No current texture available."]).
Proof.
  intros Hnone Hprep.
  destruct (prepare_quiet env r _ _ _ Hprep) as (pre & -> & Fpre).
  unfold Renderer.render, Renderer.bind at 1. rewrite Hprep.
  unfold Renderer.bind at 1.
  unfold Renderer.try_catch, Renderer.renderPass, Renderer.bind at 1.
  unfold Renderer.call at 1.
  destruct (Renderer.throws env (tr ++ pre) Renderer.GetCurrentTexture)
    eqn:T.
  - exists (pre ++ [Renderer.ConsoleError "Render pass error:"]).
    cbn. rewrite <- app_assoc. split; [reflexivity|].
    rewrite forallb_app, existsb_app, Fpre, orb_true_r.
    repeat split. discriminate.
  - rewrite Hnone.
    exists (pre ++ [Renderer.GetCurrentTexture;
                    Renderer.ConsoleError "No current texture available."]).
    cbn. rewrite <- !app_assoc. cbn. split; [reflexivity|].
    rewrite forallb_app, existsb_app, Fpre. cbn. rewrite orb_true_r.
    repeat split.
Qed.

(** C7, scenario D: a frame on a surface that reports no current image. *)
Lemma C7_no_current_texture_witness :
  Renderer.currentTexture Frames.no_image = None /\
  Renderer.prepare Frames.no_image Frames.renderer [] =
    ([Renderer.SceneUpdate; Renderer.UpdateCameraUniforms],
     Renderer.returned Frames.renderer) /\
  exists frame,
    Renderer.render Frames.no_image Frames.renderer Frames.scene [] =
      ([] ++ frame, Renderer.returned Frames.renderer) /\
    forallb quiet frame = true /\
    existsb Renderer.is_error_log frame = true /\
    (Renderer.throws Frames.no_image
       [Renderer.SceneUpdate; Renderer.UpdateCameraUniforms]
       Renderer.GetCurrentTexture = false ->
     [] ++ frame =
     [Renderer.SceneUpdate; Renderer.UpdateCameraUniforms]
     ++ [Renderer.GetCurrentTexture;
         Renderer.ConsoleError "No current texture available."]).
Proof.
  assert (N : Renderer.currentTexture Frames.no_image = None)
    by reflexivity.
  assert (P : Renderer.prepare Frames.no_image Frames.renderer [] =
              ([Renderer.SceneUpdate; Renderer.UpdateCameraUniforms],
               Renderer.returned Frames.renderer))
    by (vm_compute; reflexivity).
  split; [exact N|]. split; [exact P|].
  exact (C7_no_current_texture_aborts_frame Frames.no_image Frames.renderer
           Frames.renderer Frames.scene [] _ N P).
Defined.

Lemma drawEntity_incomplete (env : Renderer.Env) (r : Renderer.t)
    (e : Renderer.Entity) (tr : Renderer.Trace) :
  Renderer.incomplete e = true ->
  Renderer.drawEntity env r e tr = (tr, Renderer.returned tt).
Proof.
  unfold Renderer.incomplete, Renderer.drawEntity.
  destruct (Renderer.meshRenderer e) as [m|]; [|reflexivity].
  destruct (Renderer.mesh m), (Renderer.material m);
    try discriminate; reflexivity.
Qed.

Lemma drawEntities_skip (env : Renderer.Env) (r : Renderer.t)
    (before after : list Renderer.Entity) (e : Renderer.Entity)
    (tr : Renderer.Trace) :
  Renderer.incomplete e = true ->
  Renderer.drawEntities env r (before ++ e :: after) tr =
  Renderer.drawEntities env r (before ++ after) tr.
Proof.
  intros He. revert tr. induction before as [|b before IH]; intros tr.
  - cbn. unfold Renderer.bind. now rewrite drawEntity_incomplete.
  - cbn. unfold Renderer.bind.
    destruct (Renderer.drawEntity env r b tr) as [tr1 [[]|]];
      [apply IH | reflexivity].
Qed.

Lemma bind_ext (A B : Type) (m : Renderer.Run A)
    (k1 k2 : A -> Renderer.Run B) (tr : Renderer.Trace) :
  (forall a tr', k1 a tr' = k2 a tr') ->
  Renderer.bind m k1 tr = Renderer.bind m k2 tr.
Proof.
  intros H. unfold Renderer.bind. destruct (m tr) as [tr' [a|]]; auto.
Qed.

Lemma bind_ext_l (A B : Type) (m1 m2 : Renderer.Run A)
    (k : A -> Renderer.Run B) (tr : Renderer.Trace) :
  m1 tr = m2 tr -> Renderer.bind m1 k tr = Renderer.bind m2 k tr.
Proof. intros H. unfold Renderer.bind. now rewrite H. Qed.

Lemma renderPass_skip (env : Renderer.Env) (r : Renderer.t)
    (before after : list Renderer.Entity) (e : Renderer.Entity)
    (tr : Renderer.Trace) :
  Renderer.incomplete e = true ->
  Renderer.renderPass env r (before ++ e :: after) tr =
  Renderer.renderPass env r (before ++ after) tr.
Proof.
  intros He. unfold Renderer.renderPass.
  apply bind_ext. intros _ tr1.
  destruct (Renderer.currentTexture env); [|reflexivity].
  apply bind_ext. intros _ tr2.
  destruct (Renderer.depthTextureView r); [|reflexivity].
  do 6 (apply bind_ext; intros _ ?).
  apply bind_ext_l. now apply drawEntities_skip.
Qed.

(** C8.  A drawable whose mesh or material reference is missing adds no
    call to the trace and raises nothing; the loop over the drawables, and
    the whole frame, make the same calls with the same outcome as without
    it: the draw calls of the other drawables and the submission are the
    same. *)
Theorem C8_incomplete_drawable_is_skipped (env : Renderer.Env)
    (r : Renderer.t) (before after : list Renderer.Entity)
    (e : Renderer.Entity) (tr : Renderer.Trace) :
  Renderer.incomplete e = true ->
  Renderer.drawEntity env r e tr = (tr, Renderer.returned tt) /\
  Renderer.drawEntities env r (before ++ e :: after) tr =
    Renderer.drawEntities env r (before ++ after) tr /\
  Renderer.render env r (before ++ e :: after) tr =
    Renderer.render env r (before ++ after) tr.
Proof.
  intros He. split; [now apply drawEntity_incomplete|].
  split; [now apply drawEntities_skip|].
  unfold Renderer.render.
  apply bind_ext. intros r1 tr1. apply bind_ext_l.
  unfold Renderer.try_catch. now rewrite renderPass_skip.
Qed.

(** C8, scenario C: three drawables, the second without material; the
    frame draws the first and the third and submits. *)
Lemma C8_incomplete_drawable_witness :
  let d1 := Frames.drawable 1 (Some Frames.box) (Some Frames.basic) in
  let d2 := Frames.drawable 2 (Some Frames.box) None in
  let d3 := Frames.drawable 3 (Some Frames.box) (Some Frames.basic) in
  Renderer.incomplete d2 = true /\
  Renderer.render Frames.ready Frames.renderer ([d1] ++ d2 :: [d3]) [] =
    Renderer.render Frames.ready Frames.renderer ([d1] ++ [d3]) [] /\
  filter Renderer.is_draw
    (fst (Renderer.render Frames.ready Frames.renderer
            ([d1] ++ d2 :: [d3]) [])) =
    [Renderer.DrawIndexed 36; Renderer.DrawIndexed 36] /\
  existsb Renderer.is_submit
    (fst (Renderer.render Frames.ready Frames.renderer
            ([d1] ++ d2 :: [d3]) [])) = true /\
  existsb Renderer.is_error_log
    (fst (Renderer.render Frames.ready Frames.renderer
            ([d1] ++ d2 :: [d3]) [])) = false.
Proof.
  intros d1 d2 d3.
  assert (I : Renderer.incomplete d2 = true) by reflexivity.
  split; [exact I|]. split.
  - exact (proj2 (proj2
             (C8_incomplete_drawable_is_skipped Frames.ready Frames.renderer
                [d1] [d3] d2 [] I))).
  - vm_compute. repeat split.
Defined.

(** * Further properties of the code *)
(** * Further properties of the controller *)

Lemma update_zoom_state (M : JS.MathLib) (dt : option float)
    (o : OrbitControls.t) :
  OrbitControls.zoomChanged (OrbitControls.update M dt o) = false /\
  OrbitControls.scale (OrbitControls.update M dt o) =
    if OrbitControls.zoomChanged o then 1 else OrbitControls.scale o.
Proof. update_cases o; split; reflexivity. Qed.

Lemma update_limits (M : JS.MathLib) (dt : option float)
    (o : OrbitControls.t) :
  OrbitControls.minDistance (OrbitControls.update M dt o) =
    OrbitControls.minDistance o /\
  OrbitControls.maxDistance (OrbitControls.update M dt o) =
    OrbitControls.maxDistance o.
Proof. update_cases o; split; reflexivity. Qed.

(** X1.  An [update] consumes the pending zoom: it leaves [zoomChanged]
    cleared and, when a zoom was pending, [scale] at 1; the next [update],
    whatever its [deltaTime], leaves the radius and the scale as they
    are. *)
Theorem update_applies_zoom_once (M : JS.MathLib) (dt dt' : option float)
    (o : OrbitControls.t) :
  let o1 := OrbitControls.update M dt o in
  let o2 := OrbitControls.update M dt' o1 in
  OrbitControls.zoomChanged o1 = false /\
  (OrbitControls.zoomChanged o = true -> OrbitControls.scale o1 = 1) /\
  (OrbitControls.zoomChanged o = false ->
   OrbitControls.scale o1 = OrbitControls.scale o /\
   OrbitControls.radius (OrbitControls.spherical o1) =
     OrbitControls.radius (OrbitControls.spherical o)) /\
  OrbitControls.radius (OrbitControls.spherical o2) =
    OrbitControls.radius (OrbitControls.spherical o1) /\
  OrbitControls.scale o2 = OrbitControls.scale o1 /\
  OrbitControls.zoomChanged o2 = false.
Proof.
  intros o1 o2.
  destruct (update_zoom_state M dt o) as (Z1 & S1).
  destruct (update_zoom_state M dt' o1) as (Z2 & S2).
  fold o1 in Z1, S1. fold o2 in Z2, S2.
  split; [exact Z1|]. split; [intros H; now rewrite S1, H|].
  split; [intros H; split; [now rewrite S1, H|]|].
  - unfold o1. now rewrite update_radius, H.
  - split; [unfold o2; now rewrite update_radius, Z1|].
    split; [now rewrite S2, Z1 | exact Z2].
Qed.

(** X2.  [handleZoom] sets [zoomChanged] whatever its argument; an
    argument that is zero or NaN leaves [scale] as it is.  The next
    [update] then clamps the radius, also when the scale has not changed:
    a camera 200 away from the target is brought to [maxDistance = 100] by
    [handleZoom(0)]. *)
Theorem handleZoom_always_requests_clamp (M : JS.MathLib)
    (dt : option float) (delta : float) (o : OrbitControls.t) :
  let o1 := OrbitControls.handleZoom M delta o in
  OrbitControls.zoomChanged o1 = true /\
  ((0 <? delta) = false -> (delta <? 0) = false ->
   OrbitControls.scale o1 = OrbitControls.scale o) /\
  OrbitControls.radius
    (OrbitControls.spherical (OrbitControls.update M dt o1)) =
  clamp (OrbitControls.minDistance o) (OrbitControls.maxDistance o)
    (OrbitControls.radius (OrbitControls.spherical o)
     / OrbitControls.scale o1) /\
  OrbitControls.radius
    (OrbitControls.spherical
       (OrbitControls.update M dt
          (OrbitControls.handleZoom M 0
             (OrbitControls.new M Examples.far_camera
                OrbitControls.no_options)))) = 100.
Proof.
  intros o1. split; [|split; [|split]].
  - unfold o1, OrbitControls.handleZoom.
    destruct (0 <? delta), (delta <? 0); reflexivity.
  - intros P N. unfold o1, OrbitControls.handleZoom. now rewrite P, N.
  - rewrite update_radius. unfold o1, OrbitControls.handleZoom.
    destruct (0 <? delta), (delta <? 0); reflexivity.
  - rewrite update_radius. vm_compute. reflexivity.
Qed.

Lemma nan_unique (x : float) : is_nan x = true -> x = nan.
Proof.
  intros H. apply Prim2SF_inj. rewrite is_nan_key in H. unfold fkey in H.
  destruct (Prim2SF x) as [s|s| |s m e]; try discriminate H;
    try (destruct s; discriminate H).
  reflexivity.
Qed.

Lemma infinity_leb (x : float) : (infinity <=? x) = true -> x = infinity.
Proof.
  intros H. apply Prim2SF_inj. rewrite leb_spec in H.
  change (Prim2SF infinity) with (S754_infinity false) in *.
  destruct (Prim2SF x) as [s|[|]| |s m e]; try discriminate H; reflexivity.
Qed.

Lemma leb_neg_infinity (x : float) :
  (x <=? neg_infinity) = true -> x = neg_infinity.
Proof.
  intros H. apply Prim2SF_inj. rewrite leb_spec in H.
  change (Prim2SF neg_infinity) with (S754_infinity true) in *.
  destruct (Prim2SF x) as [[|]|[|]| |[|] m e]; try discriminate H;
    reflexivity.
Qed.

(** Clamping between the infinities changes nothing. *)
Lemma clamp_unbounded (x : float) : clamp neg_infinity infinity x = x.
Proof.
  destruct (is_nan x) eqn:N.
  - rewrite (clamp_nan _ _ _ N). symmetry. now apply nan_unique.
  - unfold clamp.
    destruct (min_cases infinity x) as [[H _]|(_ & _ & [[E H]|[E H]])].
    + rewrite N in H. discriminate H.
    + rewrite E.
      destruct (max_cases neg_infinity x)
        as [[H' _]|(_ & _ & [[E' H']|[E' H']])].
      * rewrite N in H'. discriminate H'.
      * exact E'.
      * rewrite E'. symmetry. now apply leb_neg_infinity.
    + rewrite E. apply infinity_leb in H. subst x. reflexivity.
Qed.

Lemma update_theta (M : JS.MathLib) (dt : option float)
    (o : OrbitControls.t) :
  OrbitControls.theta
    (OrbitControls.spherical (OrbitControls.update M dt o)) =
  clamp (OrbitControls.minAzimuthAngle o) (OrbitControls.maxAzimuthAngle o)
    (OrbitControls.theta (OrbitControls.spherical o)
     + (if OrbitControls.autoRotate o then
          OrbitControls.theta (OrbitControls.sphericalDelta o)
          - autoRotateStep dt o
        else OrbitControls.theta (OrbitControls.sphericalDelta o))).
Proof. update_cases o; reflexivity. Qed.

(** X3.  With the azimuth limits the constructor gives when the options
    name none, [-Infinity] and [Infinity], an [update] adds the pending
    theta (less the auto-rotation step) to [theta] and restricts nothing:
    the azimuth is not kept in any interval, and a NaN stays. *)
Theorem default_azimuth_limits_do_not_restrict (M : JS.MathLib)
    (dt : option float) (o : OrbitControls.t) :
  OrbitControls.minAzimuthAngle o = - JS.Infinity ->
  OrbitControls.maxAzimuthAngle o = JS.Infinity ->
  OrbitControls.theta
    (OrbitControls.spherical (OrbitControls.update M dt o)) =
  OrbitControls.theta (OrbitControls.spherical o)
  + (if OrbitControls.autoRotate o then
       OrbitControls.theta (OrbitControls.sphericalDelta o)
       - autoRotateStep dt o
     else OrbitControls.theta (OrbitControls.sphericalDelta o)).
Proof.
  intros L H. rewrite update_theta, L, H.
  change (- JS.Infinity) with neg_infinity.
  change JS.Infinity with infinity. apply clamp_unbounded.
Qed.

(** X3, a run: a controller made without options, after a drag of 100000
    pixels to the left; its azimuth is beyond a full turn. *)
Lemma default_azimuth_limits_witness :
  let o :=
    OrbitControls.handleRotate (-100000) 0
      (OrbitControls.new HostMath.math Examples.camera
         OrbitControls.no_options) in
  let o' := OrbitControls.update HostMath.math None o in
  OrbitControls.minAzimuthAngle o = - JS.Infinity /\
  OrbitControls.maxAzimuthAngle o = JS.Infinity /\
  OrbitControls.theta (OrbitControls.spherical o') =
    OrbitControls.theta (OrbitControls.spherical o)
    + OrbitControls.theta (OrbitControls.sphericalDelta o) /\
  (2 * JS.PI <? OrbitControls.theta (OrbitControls.spherical o')) = true.
Proof.
  intros o o'.
  assert (L : OrbitControls.minAzimuthAngle o = - JS.Infinity)
    by reflexivity.
  assert (H : OrbitControls.maxAzimuthAngle o = JS.Infinity) by reflexivity.
  split; [exact L|]. split; [exact H|]. split.
  - exact (default_azimuth_limits_do_not_restrict HostMath.math None o L H).
  - vm_compute. reflexivity.
Defined.





Lemma sub_diag_finite (x : float) : is_finite x = true -> x - x = 0.
Proof.
  intros H. apply Prim2SF_inj. rewrite is_finite_spec in H.
  rewrite sub_spec. change (Prim2SF 0) with (S754_zero false).
  destruct (Prim2SF x) as [s|s| |s m e]; try discriminate H.
  - destruct s; reflexivity.
  - unfold SF64sub. cbn [SFsub]. rewrite Z.sub_diag. reflexivity.
Qed.

Lemma updateSphericalFromCamera_phi (M : JS.MathLib) (o : OrbitControls.t) :
  OrbitControls.phi
    (OrbitControls.spherical (OrbitControls.updateSphericalFromCamera M o)) =
  JS.acos M (cosPhi o).
Proof. reflexivity. Qed.

(** X5.  The polar angle [updateSphericalFromCamera] stores is
    [Math.acos] of a value that is in [[-1, 1]] or is NaN; and it is NaN,
    whatever the coordinates, for a camera placed on the target. *)
Theorem acos_argument_in_domain (M : JS.MathLib) (o : OrbitControls.t) :
  OrbitControls.phi
    (OrbitControls.spherical (OrbitControls.updateSphericalFromCamera M o)) =
  JS.acos M (cosPhi o) /\
  (is_nan (cosPhi o) = true \/ within (-1) 1 (cosPhi o)) /\
  (finite_vec (OrbitControls.target o) ->
   Camera.position (OrbitControls.camera o) = OrbitControls.target o ->
   is_nan (cosPhi o) = true).
Proof.
  split; [reflexivity|]. split.
  - unfold cosPhi. cbv zeta.
    set (q := (_ / sqrt _)).
    destruct (is_nan (JS.min (JS.max q (-1)) 1)) eqn:N; [now left|right].
    unfold within.
    destruct (max_cases q (-1)) as [[H E]|(Nq & _ & [[E H]|[E H]])];
      rewrite E in *.
    + discriminate N.
    + destruct (min_cases (-1) 1) as [[H' E']|(_ & _ & [[E' H']|[E' H']])];
        rewrite E' in *; try discriminate; split; reflexivity.
    + destruct (min_cases q 1) as [[H' E']|(_ & _ & [[E' H']|[E' H']])];
        rewrite E' in *; try discriminate; split; try reflexivity;
        try assumption; float_order.
  - intros (F0 & F1 & F2) E. unfold cosPhi. rewrite E. cbv zeta.
    rewrite !sub_diag_finite by assumption. reflexivity.
Qed.

(** X5, a run: the target of a controller moved onto the camera. *)
Lemma acos_argument_witness :
  let o :=
    OrbitControls.setTarget HostMath.math (mkVec3 0 0 5)
      (OrbitControls.new HostMath.math Examples.camera
         OrbitControls.no_options) in
  finite_vec (OrbitControls.target o) /\
  Camera.position (OrbitControls.camera o) = OrbitControls.target o /\
  is_nan (cosPhi o) = true /\
  is_nan (OrbitControls.phi (OrbitControls.spherical o)) = true.
Proof.
  intros o.
  assert (F : finite_vec (OrbitControls.target o)) by (repeat split).
  assert (E : Camera.position (OrbitControls.camera o) =
              OrbitControls.target o) by reflexivity.
  split; [exact F|]. split; [exact E|]. split.
  - exact (proj2 (proj2 (acos_argument_in_domain HostMath.math o)) F E).
  - vm_compute. reflexivity.
Defined.

(** ** Sequences of calls on a camera *)

Lemma same_projection_refl (c : Camera.t) : same_projection c c.
Proof. repeat split. Qed.

Lemma same_projection_trans (c1 c2 c3 : Camera.t) :
  same_projection c1 c2 -> same_projection c2 c3 -> same_projection c1 c3.
Proof.
  intros ((A1 & A2 & A3 & A4) & A5 & A6) ((B1 & B2 & B3 & B4) & B5 & B6).
  repeat split; congruence.
Qed.

Lemma setPosition_same (x y z : float) (c : Camera.t) :
  same_projection c (Camera.setPosition x y z c).
Proof. repeat split. Qed.

Lemma setTarget_same (x y z : float) (c : Camera.t) :
  same_projection c (Camera.setTarget x y z c).
Proof. repeat split. Qed.

Lemma lookAt_same (x y z : float) (c : Camera.t) :
  same_projection c (Camera.lookAt x y z c).
Proof. repeat split. Qed.

Lemma set_viewDirty_same (b : bool) (c : Camera.t) :
  same_projection c (Camera.set_viewDirty b c).
Proof. repeat split. Qed.

Lemma updateViewMatrix_same (c : Camera.t) :
  same_projection c (Camera.updateViewMatrix c).
Proof. repeat split. Qed.

Lemma getViewMatrix_same (c : Camera.t) :
  same_projection c (snd (Camera.getViewMatrix c)).
Proof.
  unfold Camera.getViewMatrix. destruct (Camera.viewDirty c); repeat split.
Qed.

Lemma update_camera (M : JS.MathLib) (dt : option float)
    (o : OrbitControls.t) :
  exists x y z,
    OrbitControls.camera (OrbitControls.update M dt o) =
    Camera.lookAt (v0 (OrbitControls.target o)) (v1 (OrbitControls.target o))
      (v2 (OrbitControls.target o))
      (Camera.setPosition x y z (OrbitControls.camera o)).
Proof. update_cases o; do 3 eexists; reflexivity. Qed.

Lemma controls_same_projection (M : JS.MathLib) (o : OrbitControls.t) :
  (forall dt,
     same_projection (OrbitControls.camera o)
       (OrbitControls.camera (OrbitControls.update M dt o))) /\
  (forall dx dy,
     OrbitControls.camera (OrbitControls.handleRotate dx dy o) =
     OrbitControls.camera o) /\
  (forall delta,
     OrbitControls.camera (OrbitControls.handleZoom M delta o) =
     OrbitControls.camera o) /\
  (forall dx dy,
     OrbitControls.camera (OrbitControls.handlePan dx dy o) =
     OrbitControls.camera o) /\
  (forall t,
     OrbitControls.camera (OrbitControls.setTarget M t o) =
     OrbitControls.camera o) /\
  (forall p,
     OrbitControls.camera (OrbitControls.setPosition M p o) =
     Camera.setPosition (v0 p) (v1 p) (v2 p) (OrbitControls.camera o)).
Proof.
  split; [|split; [|split; [|split; [|split]]]].
  - intros dt. destruct (update_camera M dt o) as (x & y & z & E).
    rewrite E.
    eapply same_projection_trans; [apply (setPosition_same x y z)|].
    apply lookAt_same.
  - reflexivity.
  - intros delta. unfold OrbitControls.handleZoom.
    destruct (0 <? delta), (delta <? 0); reflexivity.
  - reflexivity.
  - reflexivity.
  - reflexivity.
Qed.

Lemma on_camera_camera (f : Camera.t -> Camera.t) (r : CameraRig.t) :
  CameraRig.camera (CameraOps.on_camera f r) = f (CameraRig.camera r).
Proof. destruct r; reflexivity. Qed.

(** What a call does to the projection cache of the camera. *)
Lemma step_projection (M : JS.MathLib) (r : CameraRig.t)
    (o : CameraOps.op) :
  let c := CameraRig.camera r in
  let c' := CameraRig.camera (CameraOps.step M r o) in
  match o with
  | CameraOps.resize => c' = Camera.resize c
  | CameraOps.updateProjectionMatrix => c' = Camera.updateProjectionMatrix c
  | CameraOps.getProjectionMatrix => c' = snd (Camera.getProjectionMatrix c)
  | CameraOps.getViewProjectionMatrix =>
      c' = snd (Camera.getViewProjectionMatrix c)
  | _ => same_projection c c'
  end.
Proof.
  destruct o; cbn [CameraOps.step]; cbv zeta;
    rewrite ?on_camera_camera; try reflexivity.
  - apply setPosition_same.
  - apply setTarget_same.
  - apply lookAt_same.
  - apply getViewMatrix_same.
  - apply updateViewMatrix_same.
  - apply same_projection_refl.
  - apply same_projection_refl.
  - destruct r as [c|oc]; cbn [CameraRig.update CameraRig.camera].
    + apply set_viewDirty_same.
    + cbn [OrbitControls.camera OrbitControls.set_camera].
      eapply same_projection_trans;
        [apply (controls_same_projection M oc)|].
      apply set_viewDirty_same.
  - destruct r as [c|oc]; [apply same_projection_refl|].
    apply (controls_same_projection M oc).
  - destruct r as [c|oc]; apply same_projection_refl.
  - destruct r as [c|oc]; [apply same_projection_refl|].
    cbn [CameraOps.on_controls CameraRig.camera].
    rewrite (proj1 (proj2 (proj2 (controls_same_projection M oc)))).
    apply same_projection_refl.
  - destruct r as [c|oc]; apply same_projection_refl.
  - destruct r as [c|oc]; apply same_projection_refl.
  - destruct r as [c|oc]; [apply same_projection_refl|].
    cbn [CameraOps.on_controls CameraRig.camera].
    rewrite (proj2 (proj2 (proj2 (proj2 (proj2
               (controls_same_projection M oc)))))).
    apply setPosition_same.
Qed.

Lemma projection_getters_caches (c : Camera.t) :
  same_caches c (Camera.resize c) /\
  same_caches c (Camera.updateProjectionMatrix c) /\
  same_caches c (snd (Camera.getProjectionMatrix c)) /\
  same_caches c (snd (Camera.getViewProjectionMatrix c)).
Proof.
  unfold same_caches, Camera.getViewProjectionMatrix, Camera.getViewMatrix,
    Camera.getProjectionMatrix, Camera.resize.
  destruct (Camera.viewDirty c) eqn:V, (Camera.projectionDirty c) eqn:P,
    (Camera.aspectRatio c) eqn:A; cbn; rewrite ?V, ?P, ?A; cbn;
    rewrite ?V, ?P, ?A; repeat split; auto.
Qed.

Lemma step_caches (M : JS.MathLib) (r : CameraRig.t) (o : CameraOps.op) :
  same_caches (CameraRig.camera r) (CameraRig.camera (CameraOps.step M r o)).
Proof.
  pose proof (step_projection M r o) as H. cbv zeta in H.
  destruct (projection_getters_caches (CameraRig.camera r))
    as (C1 & C2 & C3 & C4).
  destruct o; try (exact (proj1 H)); rewrite H; assumption.
Qed.

Lemma run_caches (M : JS.MathLib) (ops : list CameraOps.op)
    (r : CameraRig.t) :
  same_caches (CameraRig.camera r) (CameraRig.camera (CameraOps.run M ops r)).
Proof.
  revert r. induction ops as [|o ops IH]; intros r.
  - repeat split.
  - destruct (step_caches M r o) as (A1 & A2 & A3 & A4).
    destruct (IH (CameraOps.step M r o)) as (B1 & B2 & B3 & B4).
    change (CameraOps.run M (o :: ops) r)
      with (CameraOps.run M ops (CameraOps.step M r o)).
    repeat split; congruence.
Qed.

(** X6.  Whatever calls have been made on a camera since its constructor,
    on it or on its controller, its three cached matrices are the sixteen
    zeros the constructor allocated, and they are what [getViewMatrix],
    [getProjectionMatrix] and [getViewProjectionMatrix] return: no method
    of the camera or of the controller writes a matrix. *)
Theorem cached_matrices_are_never_written (M : JS.MathLib)
    (canvas : Canvas) (options : Camera.Options)
    (ops : list CameraOps.op) :
  let c :=
    CameraRig.camera
      (CameraOps.run M ops (CameraRig.bare (Camera.new canvas options))) in
  fst (Camera.getViewMatrix c) = Float32Array_new 16 /\
  fst (Camera.getProjectionMatrix c) = Float32Array_new 16 /\
  fst (Camera.getViewProjectionMatrix c) = Float32Array_new 16.
Proof.
  intros c.
  destruct (run_caches M ops (CameraRig.bare (Camera.new canvas options)))
    as (V & P & VP & _).
  fold c in V, P, VP.
  change (Camera.viewMatrix c = Float32Array_new 16) in V.
  change (Camera.projectionMatrix c = Float32Array_new 16) in P.
  change (Camera.viewProjectionMatrix c = Float32Array_new 16) in VP.
  unfold Camera.getViewProjectionMatrix, Camera.getViewMatrix,
    Camera.getProjectionMatrix.
  destruct (Camera.viewDirty c) eqn:Dv, (Camera.projectionDirty c) eqn:Dp;
    cbn; rewrite ?Dp; cbn; repeat split; assumption.
Qed.

Lemma step_projection_builds (M : JS.MathLib) (r : CameraRig.t)
    (o : CameraOps.op) :
  (projection_builds (CameraRig.camera (CameraOps.step M r o))
   <= projection_builds (CameraRig.camera r)
      + CameraOps.rebuilds (Camera.aspectRatio (CameraRig.camera r)) o)%nat.
Proof.
  pose proof (step_projection M r o) as H. cbv zeta in H.
  set (c := CameraRig.camera r) in *.
  destruct o;
    try (destruct H as (_ & D & U); unfold projection_builds;
         rewrite D, U; cbn [CameraOps.rebuilds]; lia);
    rewrite H; unfold projection_builds, Camera.getViewProjectionMatrix,
      Camera.getViewMatrix, Camera.getProjectionMatrix, Camera.resize;
    cbn [CameraOps.rebuilds];
    destruct (Camera.viewDirty c) eqn:V, (Camera.projectionDirty c) eqn:P,
      (Camera.aspectRatio c) eqn:A; cbn; rewrite ?V, ?P, ?A; cbn;
    rewrite ?P; lia.
Qed.

(** X7.  The projection is built only after the constructor, after a
    [resize] of a camera whose aspect ratio is ['auto'], or by a direct
    call of the builder: over any sequence of calls, the calls of
    [updateProjectionMatrix] made, with the one pending, are at most those
    at the start plus the number of such calls.  Moving the camera, its
    controller and its [update] never make the projection be built. *)
Theorem projection_rebuilt_only_after_resize (M : JS.MathLib)
    (ops : list CameraOps.op) (r : CameraRig.t) :
  (projection_builds (CameraRig.camera (CameraOps.run M ops r))
   <= projection_builds (CameraRig.camera r)
      + CameraOps.count_rebuilds (Camera.aspectRatio (CameraRig.camera r))
          ops)%nat.
Proof.
  revert r. induction ops as [|o ops IH]; intros r.
  - cbn. lia.
  - change (CameraOps.run M (o :: ops) r)
      with (CameraOps.run M ops (CameraOps.step M r o)).
    specialize (IH (CameraOps.step M r o)).
    destruct (step_caches M r o) as (_ & _ & _ & A).
    rewrite A in IH.
    pose proof (step_projection_builds M r o) as S.
    unfold CameraOps.count_rebuilds, list_sum in *.
    cbn [map fold_right]. lia.
Qed.

(** X8.  After [getViewProjectionMatrix] both dirty flags are cleared, and
    a second call returns the same matrix and leaves the camera as it is:
    it calls neither builder. *)
Theorem getViewProjectionMatrix_settles (c : Camera.t) :
  let '(m1, c1) := Camera.getViewProjectionMatrix c in
  let '(m2, c2) := Camera.getViewProjectionMatrix c1 in
  Camera.viewDirty c1 = false /\ Camera.projectionDirty c1 = false /\
  m2 = m1 /\ c2 = c1.
Proof.
  unfold Camera.getViewProjectionMatrix, Camera.getViewMatrix,
    Camera.getProjectionMatrix.
  destruct (Camera.viewDirty c) eqn:V, (Camera.projectionDirty c) eqn:P;
    cbn; rewrite ?V, ?P; cbn; rewrite ?V, ?P; cbn; rewrite ?V, ?P;
    repeat split; auto.
Qed.

(** ** The DOM listeners *)

Lemma dispatch_disabled (M : JS.MathLib) (p : Pointer.t) (e : Pointer.Event) :
  OrbitControls.enableRotate (Pointer.controls p) = false ->
  OrbitControls.enableZoom (Pointer.controls p) = false ->
  OrbitControls.enablePan (Pointer.controls p) = false ->
  Pointer.controls (Pointer.dispatch M p e) = Pointer.controls p.
Proof.
  intros R Z P. destruct e as [e|e|e|e|ts|ts|ts]; cbn [Pointer.dispatch].
  - reflexivity.
  - unfold Pointer.onMouseMove. cbn [Pointer.controls Pointer.set_mouseState].
    rewrite R, Z, P, !andb_false_r. reflexivity.
  - unfold Pointer.onMouseUp.
    destruct (Pointer.button e) as [|[|[|n]]]; reflexivity.
  - unfold Pointer.onMouseWheel. now rewrite Z.
  - unfold Pointer.onTouchStart. rewrite R, Z, !andb_false_r.
    destruct ts as [|t0 [|t1 [|t2 ts]]]; reflexivity.
  - unfold Pointer.onTouchMove. rewrite R, Z, !andb_false_r.
    cbn [andb]. destruct ts as [|t0 [|t1 [|t2 ts]]]; reflexivity.
  - reflexivity.
Qed.

(** X9.  With rotation, zoom and pan disabled, no sequence of mouse, wheel
    and touch events changes the controller: the pending angles, the
    scale, the pan offset and [zoomChanged] stay as they are, and the next
    [update] has nothing to apply. *)
Theorem disabled_features_ignore_events (M : JS.MathLib)
    (events : list Pointer.Event) (p : Pointer.t) :
  OrbitControls.enableRotate (Pointer.controls p) = false ->
  OrbitControls.enableZoom (Pointer.controls p) = false ->
  OrbitControls.enablePan (Pointer.controls p) = false ->
  Pointer.controls (Pointer.dispatchAll M events p) = Pointer.controls p.
Proof.
  revert p. induction events as [|e events IH]; intros p R Z P;
    [reflexivity|].
  cbn [Pointer.dispatchAll fold_left].
  pose proof (dispatch_disabled M p e R Z P) as E.
  change (Pointer.controls
            (Pointer.dispatchAll M events (Pointer.dispatch M p e)) =
          Pointer.controls p).
  rewrite IH; rewrite E; auto.
Qed.

(** X9, a run: a press, a drag, a wheel turn and a touch on a controller
    made with the three features disabled. *)
Lemma disabled_features_witness :
  let p :=
    Pointer.new HostMath.math Examples.camera Gestures.all_disabled
      Pointer.no_options in
  OrbitControls.enableRotate (Pointer.controls p) = false /\
  OrbitControls.enableZoom (Pointer.controls p) = false /\
  OrbitControls.enablePan (Pointer.controls p) = false /\
  Pointer.controls (Pointer.dispatchAll HostMath.math Gestures.session p) =
    Pointer.controls p.
Proof.
  intros p.
  assert (R : OrbitControls.enableRotate (Pointer.controls p) = false)
    by reflexivity.
  assert (Z : OrbitControls.enableZoom (Pointer.controls p) = false)
    by reflexivity.
  assert (P : OrbitControls.enablePan (Pointer.controls p) = false)
    by reflexivity.
  split; [exact R|]. split; [exact Z|]. split; [exact P|].
  exact (disabled_features_ignore_events HostMath.math Gestures.session p
           R Z P).
Defined.

(** X10.  A press of the left button followed by a move is one
    [handleRotate] by the travel of the pointer, whatever the state of the
    other buttons: with the left button held and rotation enabled a move
    neither zooms nor pans.  After the release of the left button, with no
    other button held, a move changes nothing of the controller. *)
Theorem left_drag_rotates_by_the_pointer_travel (M : JS.MathLib)
    (p : Pointer.t) (x1 y1 x2 y2 x3 y3 : float) (b b' : nat) :
  Pointer.LEFT p = "ROTATE"%string ->
  OrbitControls.enableRotate (Pointer.controls p) = true ->
  let p1 := Pointer.dispatch M p (Pointer.mousedown (Gestures.mouse 0 x1 y1)) in
  let p2 := Pointer.dispatch M p1 (Pointer.mousemove (Gestures.mouse b x2 y2)) in
  let p3 := Pointer.dispatch M p2 (Pointer.mouseup (Gestures.mouse 0 x2 y2)) in
  let p4 := Pointer.dispatch M p3 (Pointer.mousemove (Gestures.mouse b' x3 y3)) in
  Pointer.controls p2 =
    OrbitControls.handleRotate (x2 - x1) (y2 - y1) (Pointer.controls p) /\
  Pointer.leftDown (Pointer.mouseState p3) = false /\
  (Pointer.middleDown (Pointer.mouseState p) = false ->
   Pointer.rightDown (Pointer.mouseState p) = false ->
   Pointer.controls p4 = Pointer.controls p2).
Proof.
  intros L R p1 p2 p3 p4.
  assert (E2 : p2 =
               Pointer.set_controls
                 (OrbitControls.handleRotate (x2 - x1) (y2 - y1)
                    (Pointer.controls p))
                 (Pointer.set_mouseState
                    (Pointer.mkMouseState true
                       (Pointer.rightDown (Pointer.mouseState p))
                       (Pointer.middleDown (Pointer.mouseState p)) x2 y2)
                    p)).
  { unfold p2, p1. cbn [Pointer.dispatch]. unfold Pointer.onMouseMove.
    cbn. rewrite L, R. reflexivity. }
  split; [now rewrite E2|]. split; [reflexivity|].
  intros Mi Ri. unfold p4, p3. rewrite E2.
  cbn [Pointer.dispatch]. unfold Pointer.onMouseMove.
  cbn. rewrite Mi, Ri. cbn. reflexivity.
Qed.

(** X10, a run: the left button pressed at (100, 100) and moved to
    (180, 130), with the right button held as well. *)
Lemma left_drag_witness :
  let p0 :=
    Pointer.new HostMath.math Examples.camera OrbitControls.no_options
      Pointer.no_options in
  let p :=
    Pointer.dispatch HostMath.math p0
      (Pointer.mousedown (Gestures.mouse 2 100 100)) in
  let p2 :=
    Pointer.dispatch HostMath.math
      (Pointer.dispatch HostMath.math p
         (Pointer.mousedown (Gestures.mouse 0 100 100)))
      (Pointer.mousemove (Gestures.mouse 0 180 130)) in
  Pointer.LEFT p = "ROTATE"%string /\
  OrbitControls.enableRotate (Pointer.controls p) = true /\
  Pointer.rightDown (Pointer.mouseState p) = true /\
  Pointer.controls p2 =
    OrbitControls.handleRotate (180 - 100) (130 - 100) (Pointer.controls p)
  /\
  OrbitControls.panOffset (Pointer.controls p2) = mkVec3 0 0 0.
Proof.
  intros p0 p p2.
  assert (L : Pointer.LEFT p = "ROTATE"%string) by reflexivity.
  assert (R : OrbitControls.enableRotate (Pointer.controls p) = true)
    by reflexivity.
  split; [exact L|]. split; [exact R|]. split; [reflexivity|].
  split.
  - exact (proj1 (left_drag_rotates_by_the_pointer_travel HostMath.math p
                    100 100 180 130 0 0 0%nat 0%nat L R)).
  - vm_compute. reflexivity.
Defined.

Lemma zero_mul_sign (z : float) :
  (0 <? 0 * z) = false /\ (0 * z <? 0) = false.
Proof.
  rewrite !ltb_spec, mul_spec. change (Prim2SF 0) with (S754_zero false).
  destruct (Prim2SF z) as [s|s| |s m e]; cbn; try destruct s; split;
    reflexivity.
Qed.

(** X11.  A wheel event that carries no delta (each of [deltaY],
    [wheelDelta] and [detail] absent, zero or NaN) still calls
    [handleZoom]: the scale stays as it is, [zoomChanged] is set, and the
    next [update] clamps the radius. *)
Theorem wheel_without_delta_still_requests_zoom (M : JS.MathLib)
    (dt : option float) (e : Pointer.WheelEvent) (p : Pointer.t) :
  OrbitControls.enableZoom (Pointer.controls p) = true ->
  Pointer.truthy (Pointer.deltaY e) = false ->
  Pointer.truthy (Pointer.wheelDelta e) = false ->
  Pointer.truthy (Pointer.detail e) = false ->
  let o := Pointer.controls p in
  let o' := Pointer.controls (Pointer.dispatch M p (Pointer.wheel e)) in
  o' = OrbitControls.set_zoomChanged true o /\
  OrbitControls.scale o' = OrbitControls.scale o /\
  OrbitControls.zoomChanged o' = true /\
  OrbitControls.radius
    (OrbitControls.spherical (OrbitControls.update M dt o')) =
  clamp (OrbitControls.minDistance o) (OrbitControls.maxDistance o)
    (OrbitControls.radius (OrbitControls.spherical o)
     / OrbitControls.scale o).
Proof.
  intros Z D W T o o'.
  assert (E : o' = OrbitControls.set_zoomChanged true o).
  { unfold o'. cbn [Pointer.dispatch]. unfold Pointer.onMouseWheel.
    rewrite Z, D, W, T. cbn [negb Pointer.controls Pointer.set_controls].
    unfold OrbitControls.handleZoom.
    destruct (zero_mul_sign (OrbitControls.zoomSpeed (Pointer.controls p)))
      as (A & B).
    now rewrite A, B. }
  split; [exact E|]. rewrite E. split; [reflexivity|].
  split; [reflexivity|]. rewrite update_radius. reflexivity.
Qed.

(** X11, a run: a wheel event with [deltaY: 0] on a camera 200 away from
    the target; the next [update] brings the radius to [maxDistance]. *)
Lemma wheel_without_delta_witness :
  let p :=
    Pointer.new HostMath.math Examples.far_camera OrbitControls.no_options
      Pointer.no_options in
  let o' :=
    Pointer.controls
      (Pointer.dispatch HostMath.math p (Pointer.wheel Gestures.still_wheel))
  in
  OrbitControls.enableZoom (Pointer.controls p) = true /\
  OrbitControls.scale o' = 1 /\
  OrbitControls.zoomChanged o' = true /\
  OrbitControls.radius (OrbitControls.spherical (Pointer.controls p)) = 200
  /\
  OrbitControls.radius
    (OrbitControls.spherical (OrbitControls.update HostMath.math None o')) =
  100.
Proof.
  intros p o'.
  assert (Z : OrbitControls.enableZoom (Pointer.controls p) = true)
    by reflexivity.
  destruct (wheel_without_delta_still_requests_zoom HostMath.math None
              Gestures.still_wheel p Z eq_refl eq_refl eq_refl)
    as (_ & S & C & R).
  split; [exact Z|]. split; [exact S|]. split; [exact C|].
  split; [vm_compute; reflexivity|].
  fold o' in R. rewrite R. vm_compute. reflexivity.
Defined.

(** ** The listeners on the canvas *)

Lemma removeEventListener_method (type name : string) (s : Listeners.t) :
  Listeners.well_formed s ->
  Listeners.removeEventListener type (Listeners.method name) s = s.
Proof.
  intros W. destruct s as [l n]. unfold Listeners.removeEventListener.
  cbn [Listeners.listeners Listeners.created]. f_equal.
  unfold Listeners.well_formed in W. cbn [Listeners.listeners] in W.
  induction l as [|[t c] l IH]; [reflexivity|].
  cbn [filter]. rewrite IH by (intros t' c' I; apply (W t' c'); now right).
  specialize (W t c (or_introl eq_refl)).
  destruct c; try contradiction; unfold Listeners.entry_eqb; cbn;
    rewrite ?andb_false_r; reflexivity.
Qed.

Lemma removeEventListener_undefined (type : string) (s : Listeners.t) :
  Listeners.removeEventListener type Listeners.undefined s = s.
Proof.
  destruct s as [l n]. unfold Listeners.removeEventListener.
  cbn [Listeners.listeners Listeners.created]. f_equal.
  induction l as [|[t c] l IH]; [reflexivity|].
  cbn [filter]. rewrite IH.
  unfold Listeners.entry_eqb; cbn. now rewrite andb_false_r.
Qed.

Lemma dispose_keeps (s : Listeners.t) :
  Listeners.well_formed s -> Listeners.dispose s = s.
Proof.
  intros W. unfold Listeners.dispose.
  rewrite !(removeEventListener_method _ _ s W).
  apply removeEventListener_undefined.
Qed.

Lemma not_listed (type name : string) (s : Listeners.t) :
  Listeners.well_formed s ->
  existsb
    (Listeners.entry_eqb (type, Listeners.bound name (Listeners.created s)))
    (Listeners.listeners s) = false /\
  existsb
    (Listeners.entry_eqb (type, Listeners.arrow (Listeners.created s)))
    (Listeners.listeners s) = false.
Proof.
  intros W. unfold Listeners.well_formed in W.
  induction (Listeners.listeners s) as [|[t c] l IH]; [now split|].
  destruct IH as (I1 & I2); [intros t' c' I; apply (W t' c'); now right|].
  cbn [existsb]. rewrite I1, I2.
  specialize (W t c (or_introl eq_refl)).
  unfold Listeners.entry_eqb. cbn [fst snd Listeners.callback_eqb].
  destruct c as [m|m k|k|]; try contradiction; cbn;
    rewrite ?andb_false_r; try (split; reflexivity).
  - assert (E : Nat.eqb (Listeners.created s) k = false)
      by (apply Nat.eqb_neq; lia).
    rewrite E, !andb_false_r. split; reflexivity.
  - assert (E : Nat.eqb (Listeners.created s) k = false)
      by (apply Nat.eqb_neq; lia).
    rewrite E, !andb_false_r. split; reflexivity.
Qed.

Lemma well_formed_add (type : string) (c : Listeners.callback)
    (s : Listeners.t) :
  Listeners.well_formed s ->
  match c with
  | Listeners.bound _ k | Listeners.arrow k => k = Listeners.created s
  | _ => False
  end ->
  Listeners.well_formed
    (Listeners.mk (Listeners.listeners s ++ [(type, c)])
       (S (Listeners.created s))).
Proof.
  intros W C t' c' I. cbn [Listeners.listeners Listeners.created] in *.
  apply in_app_or in I. destruct I as [I|[I|[]]].
  - specialize (W t' c' I). destruct c'; try contradiction; lia.
  - inversion I; subst. destruct c'; try contradiction; lia.
Qed.

Lemma addBound_spec (type name : string) (s : Listeners.t) :
  Listeners.well_formed s ->
  Listeners.addBound type name s =
    Listeners.mk
      (Listeners.listeners s
       ++ [(type, Listeners.bound name (Listeners.created s))])
      (S (Listeners.created s)) /\
  Listeners.well_formed (Listeners.addBound type name s).
Proof.
  intros W. unfold Listeners.addBound, Listeners.addEventListener.
  cbn [Listeners.listeners Listeners.created].
  rewrite (proj1 (not_listed type name s W)).
  split; [reflexivity|]. now apply well_formed_add.
Qed.

Lemma setupEvents_spec (s : Listeners.t) :
  Listeners.well_formed s ->
  Listeners.well_formed (Listeners.setupEvents s) /\
  List.length (Listeners.listeners (Listeners.setupEvents s)) =
    (List.length (Listeners.listeners s) + 8)%nat /\
  Listeners.created (Listeners.setupEvents s) =
    (Listeners.created s + 8)%nat /\
  firstn (List.length (Listeners.listeners s))
    (Listeners.listeners (Listeners.setupEvents s)) =
    Listeners.listeners s.
Proof.
  intros W0. unfold Listeners.setupEvents.
  destruct (addBound_spec "mousedown" "onMouseDown" s W0) as (E1 & W1).
  set (s1 := Listeners.addBound "mousedown" "onMouseDown" s) in *.
  destruct (addBound_spec "mousemove" "onMouseMove" s1 W1) as (E2 & W2).
  set (s2 := Listeners.addBound "mousemove" "onMouseMove" s1) in *.
  destruct (addBound_spec "mouseup" "onMouseUp" s2 W2) as (E3 & W3).
  set (s3 := Listeners.addBound "mouseup" "onMouseUp" s2) in *.
  destruct (addBound_spec "wheel" "onMouseWheel" s3 W3) as (E4 & W4).
  set (s4 := Listeners.addBound "wheel" "onMouseWheel" s3) in *.
  destruct (addBound_spec "touchstart" "onTouchStart" s4 W4) as (E5 & W5).
  set (s5 := Listeners.addBound "touchstart" "onTouchStart" s4) in *.
  destruct (addBound_spec "touchmove" "onTouchMove" s5 W5) as (E6 & W6).
  set (s6 := Listeners.addBound "touchmove" "onTouchMove" s5) in *.
  destruct (addBound_spec "touchend" "onTouchEnd" s6 W6) as (E7 & W7).
  set (s7 := Listeners.addBound "touchend" "onTouchEnd" s6) in *.
  unfold Listeners.addEventListener.
  cbn [Listeners.listeners Listeners.created].
  rewrite (proj2 (not_listed "contextmenu" "" s7 W7)).
  split; [now apply well_formed_add|].
  cbn [Listeners.listeners Listeners.created].
  rewrite E7, E6, E5, E4, E3, E2, E1.
  cbn [Listeners.listeners Listeners.created].
  rewrite <- !app_assoc, !length_app. cbn [List.length app].
  split; [lia|]. split; [lia|].
  rewrite firstn_app, Nat.sub_diag, firstn_all. cbn. apply app_nil_r.
Qed.

Lemma recreate_spec (n : nat) :
  let s := Listeners.recreate n (Listeners.mk [] 0) in
  Listeners.well_formed s /\
  List.length (Listeners.listeners s) = (8 * n)%nat /\
  Listeners.created s = (8 * n)%nat.
Proof.
  induction n as [|n (W & L & C)].
  - cbn. split; [intros t c []|]. split; reflexivity.
  - cbn [Listeners.recreate]. destruct n as [|n].
    + unfold Listeners.createOrbitControls.
      destruct (setupEvents_spec (Listeners.mk [] 0)) as (W1 & L1 & C1 & _);
        [intros t c []|].
      split; [exact W1|]. split; [exact L1|exact C1].
    + unfold Listeners.createOrbitControls.
      rewrite dispose_keeps by exact W.
      destruct (setupEvents_spec _ W) as (W1 & L1 & C1 & _).
      cbv zeta in L, C. split; [exact W1|]. split; lia.
Qed.

(** X12.  [dispose] removes no listener.  [setupEvents] registers functions
    made by [bind] and an arrow function, [dispose] passes the methods
    themselves (and [this.onContextMenu], which the class does not have)
    to [removeEventListener], and no registered function is one of those.
    So every [createOrbitControls] on a canvas adds eight listeners: after
    [n] of them the canvas has [8 n], the earlier ones first and all still
    registered. *)
Theorem dispose_removes_no_listener (n : nat) (s : Listeners.t) :
  (Listeners.well_formed s ->
   Listeners.dispose (Listeners.setupEvents s) = Listeners.setupEvents s /\
   List.length
     (Listeners.listeners (Listeners.createOrbitControls true s)) =
     (List.length (Listeners.listeners s) + 8)%nat /\
   firstn (List.length (Listeners.listeners s))
     (Listeners.listeners (Listeners.createOrbitControls true s)) =
     Listeners.listeners s) /\
  List.length
    (Listeners.listeners (Listeners.recreate n (Listeners.mk [] 0))) =
    (8 * n)%nat /\
  Listeners.dispose (Listeners.recreate n (Listeners.mk [] 0)) =
    Listeners.recreate n (Listeners.mk [] 0).
Proof.
  split.
  - intros W. destruct (setupEvents_spec s W) as (W1 & L1 & _ & F1).
    split; [now apply dispose_keeps|].
    unfold Listeners.createOrbitControls. rewrite dispose_keeps by exact W.
    split; [exact L1|exact F1].
  - destruct (recreate_spec n) as (W & L & _).
    split; [exact L|now apply dispose_keeps].
Qed.

(** X12, a run: a camera given controls three times. *)
Lemma dispose_removes_no_listener_witness :
  let s1 := Listeners.recreate 1 (Listeners.mk [] 0) in
  Listeners.well_formed s1 /\
  map fst (Listeners.listeners s1) =
    ["mousedown"; "mousemove"; "mouseup"; "wheel"; "touchstart";
     "touchmove"; "touchend"; "contextmenu"]%string /\
  Listeners.dispose (Listeners.setupEvents s1) = Listeners.setupEvents s1 /\
  List.length
    (Listeners.listeners (Listeners.recreate 3 (Listeners.mk [] 0))) =
    24%nat.
Proof.
  intros s1.
  assert (W : Listeners.well_formed s1) by apply (recreate_spec 1).
  destruct (dispose_removes_no_listener 3 s1) as (A & L & _).
  split; [exact W|]. split; [reflexivity|].
  split; [exact (proj1 (A W))|exact L].
Defined.

(** ** Further properties of a frame *)


Lemma quiet_no_submit (c : Renderer.Call) :
  quiet c = true -> no_submit c = true.
Proof.
  unfold quiet, no_submit. intros H. now apply andb_prop in H.
Qed.










Lemma call_returns (env : Renderer.Env) (c : Renderer.Call)
    (tr : Renderer.Trace) :
  never_throws env ->
  Renderer.call env c tr = (tr ++ [c], Renderer.returned tt).
Proof. intros H. unfold Renderer.call. now rewrite H. Qed.

Lemma bind_call (env : Renderer.Env) (B : Type) (c : Renderer.Call)
    (k : unit -> Renderer.Run B) (tr : Renderer.Trace) :
  never_throws env ->
  Renderer.bind (Renderer.call env c) k tr = k tt (tr ++ [c]).
Proof. intros H. unfold Renderer.bind. now rewrite call_returns. Qed.

Lemma bind_returns (A B : Type) (m : Renderer.Run A)
    (k : A -> Renderer.Run B) (tr tr1 : Renderer.Trace) (a : A) :
  m tr = (tr1, Renderer.returned a) -> Renderer.bind m k tr = k a tr1.
Proof. intros E. unfold Renderer.bind. now rewrite E. Qed.

Lemma quiet_no_draw (l : list Renderer.Call) :
  forallb quiet l = true -> filter Renderer.is_draw l = [].
Proof.
  induction l as [|c l IH]; [reflexivity|]. cbn. intros H.
  apply andb_prop in H. destruct H as [Q H]. rewrite (IH H).
  destruct c; try reflexivity; discriminate Q.
Qed.

Lemma quiet_all_no_submit (l : list Renderer.Call) :
  forallb quiet l = true -> forallb no_submit l = true.
Proof.
  rewrite !forallb_forall. intros H c I. now apply quiet_no_submit, H.
Qed.

Lemma draw_of_drawable (e : Renderer.Entity) :
  drawable e = true -> exists n, draw_of e = [Renderer.DrawIndexed n].
Proof.
  unfold drawable, draw_of.
  destruct (Renderer.meshRenderer e) as [m|]; [|discriminate].
  destruct (Renderer.mesh m) as [mesh|]; [|discriminate].
  intros _. now eexists.
Qed.

Lemma draws_length (es : list Renderer.Entity) :
  List.length (flat_map draw_of (filter drawable es)) =
  List.length (filter drawable es).
Proof.
  induction es as [|e es IH]; [reflexivity|]. cbn [filter].
  destruct (drawable e) eqn:D; [|exact IH].
  destruct (draw_of_drawable e D) as (n & E).
  cbn [flat_map]. rewrite E. cbn. now rewrite IH.
Qed.

(** The drawables a frame draws: those that are complete, in order. *)
Lemma drawEntity_draws (env : Renderer.Env) (r : Renderer.t)
    (e : Renderer.Entity) (tr : Renderer.Trace) :
  never_throws env ->
  exists l,
    Renderer.drawEntity env r e tr = (tr ++ l, Renderer.returned tt) /\
    forallb no_submit l = true /\
    filter Renderer.is_draw l = if drawable e then draw_of e else [].
Proof.
  intros H. unfold Renderer.drawEntity, drawable, draw_of.
  destruct (Renderer.meshRenderer e) as [m|];
    [|exists []; now rewrite app_nil_r].
  destruct (Renderer.mesh m) as [mesh|], (Renderer.material m) as [mat|];
    try (exists []; now rewrite app_nil_r).
  destruct (String.eqb (Renderer.mat_type mat) "cubemap"
            || String.eqb (Renderer.mat_type mat) "standard").
  - destruct (Renderer.mat_pipeline mat) as [p|].
    + rewrite !(bind_call env) by exact H. rewrite call_returns by exact H.
      rewrite <- !app_assoc. eexists. split; [reflexivity|].
      split; reflexivity.
    + rewrite !(bind_call env) by exact H. unfold Renderer.console.
      rewrite <- !app_assoc. eexists. split; [reflexivity|].
      split; reflexivity.
  - rewrite !(bind_call env) by exact H. rewrite call_returns by exact H.
    rewrite <- !app_assoc. eexists. split; [reflexivity|].
    split; reflexivity.
Qed.

Lemma drawEntities_draws (env : Renderer.Env) (r : Renderer.t)
    (es : list Renderer.Entity) (tr : Renderer.Trace) :
  never_throws env ->
  exists l,
    Renderer.drawEntities env r es tr = (tr ++ l, Renderer.returned tt) /\
    forallb no_submit l = true /\
    filter Renderer.is_draw l = flat_map draw_of (filter drawable es).
Proof.
  intros H. revert tr. induction es as [|e es IH]; intros tr.
  - exists []. cbn. now rewrite app_nil_r.
  - cbn [Renderer.drawEntities filter].
    destruct (drawEntity_draws env r e tr H) as (l1 & E1 & S1 & D1).
    rewrite (bind_returns _ _ _ _ _ _ _ E1).
    destruct (IH (tr ++ l1)) as (l2 & E2 & S2 & D2).
    exists (l1 ++ l2). rewrite E2, app_assoc. split; [reflexivity|].
    rewrite forallb_app, S1, S2, filter_app, D1, D2.
    split; [reflexivity|].
    destruct (drawable e); reflexivity.
Qed.

Lemma prepare_returns (env : Renderer.Env) (r : Renderer.t)
    (tr : Renderer.Trace) :
  never_throws env ->
  exists pre r1,
    Renderer.prepare env r tr = (tr ++ pre, Renderer.returned r1) /\
    forallb quiet pre = true /\
    (Renderer.depthTextureView r <> None ->
     Renderer.depthTextureView r1 <> None).
Proof.
  intros H.
  assert (R : exists pre r1,
             Renderer.prepare env r tr = (tr ++ pre, Renderer.returned r1) /\
             (Renderer.depthTextureView r <> None ->
              Renderer.depthTextureView r1 <> None)).
  { unfold Renderer.prepare, Renderer.resize.
    destruct (negb _ || negb _).
    - unfold Renderer.createDepthTexture.
      destruct (Renderer.depthTexture (Renderer.set_canvas_size _ _ r));
        unfold Renderer.bind, Renderer.call, Renderer.fresh, Renderer.ret;
        repeat (rewrite H; cbv beta iota);
        rewrite <- !app_assoc; do 2 eexists;
        (split; [reflexivity|]); intros _; discriminate.
    - unfold Renderer.bind, Renderer.call, Renderer.ret.
      repeat (rewrite H; cbv beta iota).
      rewrite <- !app_assoc. do 2 eexists. split; [reflexivity|]. auto. }
  destruct R as (pre & r1 & E & V). exists pre, r1.
  split; [exact E|]. split; [|exact V].
  destruct (prepare_quiet env r _ _ _ E) as (l & X & Q).
  apply app_inv_head in X. now subst l.
Qed.

(** X15.  When no call throws, the surface has a current image and the
    renderer its depth view, a frame returns, draws the drawables whose
    mesh and material are present (and, for a cubemap or standard
    material, its pipeline), one [drawIndexed] each and in the order of
    the scene, and ends with the one submission. *)
Theorem frame_draws_the_complete_drawables (env : Renderer.Env)
    (r : Renderer.t) (es : list Renderer.Entity) (tr : Renderer.Trace)
    (image view : Renderer.Handle) :
  never_throws env ->
  Renderer.currentTexture env = Some image ->
  Renderer.depthTextureView r = Some view ->
  exists calls r1,
    Renderer.render env r es tr =
      (tr ++ calls ++ [Renderer.Submit], Renderer.returned r1) /\
    forallb no_submit calls = true /\
    filter Renderer.is_draw calls = flat_map draw_of (filter drawable es) /\
    List.length (filter Renderer.is_draw calls) =
      List.length (filter drawable es).
Proof.
  intros H T V.
  destruct (prepare_returns env r tr H) as (pre & r1 & P & Q & V1).
  assert (V' : exists v, Renderer.depthTextureView r1 = Some v).
  { destruct (Renderer.depthTextureView r1) as [v|]; [now exists v|].
    exfalso. apply V1; [now rewrite V|reflexivity]. }
  destruct V' as (v & V').
  unfold Renderer.render. rewrite (bind_returns _ _ _ _ _ _ _ P).
  unfold Renderer.bind at 1, Renderer.try_catch, Renderer.renderPass.
  rewrite T, V'. rewrite !(bind_call env) by exact H.
  match goal with
  | |- context [Renderer.drawEntities env r1 es] =>
      match goal with
      | |- context [Renderer.bind (Renderer.drawEntities env r1 es) _ ?t] =>
          destruct (drawEntities_draws env r1 es t H) as (l & E & S & D)
      end
  end.
  rewrite (bind_returns _ _ _ _ _ _ _ E).
  rewrite !(bind_call env) by exact H.
  unfold Renderer.bind at 1, Renderer.console.
  rewrite call_returns by exact H. unfold Renderer.ret.
  exists (pre ++ [Renderer.GetCurrentTexture; Renderer.CreateView;
                  Renderer.CreateCommandEncoder; Renderer.BeginRenderPass;
                  Renderer.SetViewport; Renderer.SetScissorRect;
                  Renderer.SetPipeline (Renderer.basicPipeline r1);
                  Renderer.SetBindGroup 0 (Renderer.cameraBindGroup r1)]
          ++ l ++ [Renderer.PassEnd; Renderer.Finish;
                   Renderer.ConsoleLog "Command buffer finished"]), r1.
  split; [|split; [|split]].
  - rewrite <- !app_assoc. reflexivity.
  - rewrite !forallb_app, S, (quiet_all_no_submit _ Q). reflexivity.
  - rewrite !filter_app, (quiet_no_draw _ Q), D. cbn.
    now rewrite app_nil_r.
  - rewrite !filter_app, (quiet_no_draw _ Q), D. cbn.
    rewrite app_nil_r. apply draws_length.
Qed.

(** X15, scenario C: the first and the third drawable are drawn. *)
Lemma frame_draws_witness :
  never_throws Frames.ready /\
  Renderer.currentTexture Frames.ready = Some 1%nat /\
  Renderer.depthTextureView Frames.renderer = Some 3%nat /\
  filter drawable Frames.scene =
    [Frames.drawable 1 (Some Frames.box) (Some Frames.basic);
     Frames.drawable 3 (Some Frames.box) (Some Frames.basic)] /\
  exists calls r1,
    Renderer.render Frames.ready Frames.renderer Frames.scene [] =
      ([] ++ calls ++ [Renderer.Submit], Renderer.returned r1) /\
    forallb no_submit calls = true /\
    filter Renderer.is_draw calls =
      flat_map draw_of (filter drawable Frames.scene) /\
    List.length (filter Renderer.is_draw calls) =
      List.length (filter drawable Frames.scene).
Proof.
  assert (H : never_throws Frames.ready) by (intros tr c; reflexivity).
  split; [exact H|]. split; [reflexivity|]. split; [reflexivity|].
  split; [reflexivity|].
  exact (frame_draws_the_complete_drawables Frames.ready Frames.renderer
           Frames.scene [] 1%nat 3%nat H eq_refl eq_refl).
Defined.

Lemma resize_sized (env : Renderer.Env) (r : Renderer.t) :
  sized env r -> Renderer.resize env r = Renderer.ret (false, r).
Proof.
  intros (W & H). unfold Renderer.resize. now rewrite W, H.
Qed.

Lemma render_sized (env : Renderer.Env) (r : Renderer.t)
    (es : list Renderer.Entity) (tr : Renderer.Trace) :
  sized env r ->
  Renderer.render env r es tr =
  Renderer.bind (Renderer.call env Renderer.SceneUpdate)
    (fun _ =>
     Renderer.bind (Renderer.call env Renderer.UpdateCameraUniforms)
       (fun _ =>
        Renderer.bind
          (Renderer.try_catch (Renderer.renderPass env r es)
             (Renderer.console
                (Renderer.ConsoleError "Render pass error:")))
          (fun _ => Renderer.ret r))) tr.
Proof.
  intros S. unfold Renderer.render, Renderer.prepare.
  rewrite (resize_sized env r S).
  unfold Renderer.bind, Renderer.ret, Renderer.call.
  destruct (Renderer.throws env tr Renderer.SceneUpdate); [reflexivity|].
  destruct (Renderer.throws env _ Renderer.UpdateCameraUniforms);
    reflexivity.
Qed.

(** X16.  [dispose] destroys the depth texture and clears both references;
    a second [dispose] makes no call.  As long as the canvas keeps its
    size, so that [resize] does not make a new depth texture, a frame
    rendered after [dispose] records no command and submits nothing; when
    no call throws and the surface has an image it is the five calls
    ending in the log of "Depth texture view is invalid.". *)
Theorem render_after_dispose_draws_nothing (env : Renderer.Env)
    (r r1 : Renderer.t) (es : list Renderer.Entity)
    (tr tr1 : Renderer.Trace) :
  (Renderer.depthTexture r = None -> Renderer.depthTextureView r = None) ->
  sized env r ->
  Renderer.dispose env r tr = (tr1, Renderer.returned r1) ->
  Renderer.depthTexture r1 = None /\
  Renderer.depthTextureView r1 = None /\
  Renderer.dispose env r1 tr1 = (tr1, Renderer.returned r1) /\
  (exists frame,
     fst (Renderer.render env r1 es tr1) = tr1 ++ frame /\
     forallb quiet frame = true) /\
  (never_throws env ->
   forall image,
     Renderer.currentTexture env = Some image ->
     Renderer.render env r1 es tr1 =
       (tr1 ++ [Renderer.SceneUpdate; Renderer.UpdateCameraUniforms;
                Renderer.GetCurrentTexture; Renderer.CreateView;
                Renderer.ConsoleError "Depth texture view is invalid."],
        Renderer.returned r1)).
Proof.
  intros P S D.
  assert (R : Renderer.depthTexture r1 = None /\
              Renderer.depthTextureView r1 = None /\ sized env r1).
  { unfold Renderer.dispose in D.
    destruct (Renderer.depthTexture r) as [h|] eqn:T.
    - unfold Renderer.bind, Renderer.call, Renderer.ret in D.
      destruct (Renderer.throws env tr Renderer.DestroyDepthTexture);
        inversion D; subst. repeat split; apply S.
    - inversion D; subst. split; [exact T|]. split; [now apply P|exact S]. }
  destruct R as (T1 & V1 & S1).
  split; [exact T1|]. split; [exact V1|]. split; [|split].
  - unfold Renderer.dispose. now rewrite T1.
  - assert (Q : appends quiet
                 (Renderer.bind (Renderer.call env Renderer.SceneUpdate)
                    (fun _ =>
                     Renderer.bind
                       (Renderer.call env Renderer.UpdateCameraUniforms)
                       (fun _ =>
                        Renderer.bind
                          (Renderer.try_catch
                             (Renderer.renderPass env r1 es)
                             (Renderer.console
                                (Renderer.ConsoleError
                                   "Render pass error:")))
                          (fun _ => Renderer.ret r1))))).
    { unfold Renderer.renderPass. rewrite V1. appends_steps. }
    destruct (Renderer.render env r1 es tr1) as [tr2 out] eqn:E.
    rewrite (render_sized env r1 es tr1 S1) in E.
    destruct (Q _ _ _ E) as (l & -> & F). now exists l.
  - intros H image I. rewrite (render_sized env r1 es tr1 S1).
    rewrite !(bind_call env) by exact H.
    unfold Renderer.bind at 1, Renderer.try_catch, Renderer.renderPass.
    rewrite I, V1. rewrite !(bind_call env) by exact H.
    unfold Renderer.console, Renderer.ret. rewrite <- !app_assoc.
    reflexivity.
Qed.

(** X16, a run: the renderer of scenario C, whose canvas has the size of
    its viewport, disposed and asked for a frame. *)
Lemma render_after_dispose_witness :
  let r1 :=
    Renderer.mk Examples.canvas None None 4%nat 5%nat in
  (Renderer.depthTexture Frames.renderer = None ->
   Renderer.depthTextureView Frames.renderer = None) /\
  sized Frames.ready Frames.renderer /\
  Renderer.dispose Frames.ready Frames.renderer [] =
    ([Renderer.DestroyDepthTexture], Renderer.returned r1) /\
  Renderer.dispose Frames.ready r1 [Renderer.DestroyDepthTexture] =
    ([Renderer.DestroyDepthTexture], Renderer.returned r1) /\
  Renderer.render Frames.ready r1 Frames.scene
    [Renderer.DestroyDepthTexture] =
    ([Renderer.DestroyDepthTexture] ++
     [Renderer.SceneUpdate; Renderer.UpdateCameraUniforms;
      Renderer.GetCurrentTexture; Renderer.CreateView;
      Renderer.ConsoleError "Depth texture view is invalid."],
     Renderer.returned r1).
Proof.
  intros r1.
  assert (P : Renderer.depthTexture Frames.renderer = None ->
              Renderer.depthTextureView Frames.renderer = None)
    by discriminate.
  assert (S : sized Frames.ready Frames.renderer) by (split; reflexivity).
  assert (D : Renderer.dispose Frames.ready Frames.renderer [] =
              ([Renderer.DestroyDepthTexture], Renderer.returned r1))
    by reflexivity.
  assert (H : never_throws Frames.ready) by (intros tr c; reflexivity).
  destruct (render_after_dispose_draws_nothing Frames.ready Frames.renderer
              r1 Frames.scene [] _ P S D) as (_ & _ & D2 & _ & R).
  split; [exact P|]. split; [exact S|]. split; [exact D|].
  split; [exact D2|]. exact (R H 1%nat eq_refl).
Defined.

(** ** The matrix of the camera uniforms, and MathUtils *)

Lemma mul_nan_l (x : float) : nan * x = nan.
Proof.
  apply Prim2SF_inj. rewrite mul_spec.
  change (Prim2SF nan) with S754_nan. reflexivity.
Qed.

Lemma mul_nan_r (x : float) : x * nan = nan.
Proof.
  apply Prim2SF_inj. rewrite mul_spec.
  change (Prim2SF nan) with S754_nan. now destruct (Prim2SF x).
Qed.

Lemma add_nan_l (x : float) : nan + x = nan.
Proof.
  apply Prim2SF_inj. rewrite add_spec.
  change (Prim2SF nan) with S754_nan. reflexivity.
Qed.

Lemma axes_on_target (p : Vec3) :
  finite_vec p ->
  CameraUniforms.axes p p =
    (mkVec3 1 0 0, mkVec3 nan nan nan, mkVec3 nan nan nan).
Proof.
  intros (F0 & F1 & F2). unfold CameraUniforms.axes.
  rewrite !sub_diag_finite by assumption. vm_compute. reflexivity.
Qed.

Lemma viewMatrix_on_target (p : Vec3) :
  finite_vec p ->
  exists t,
    CameraUniforms.viewMatrix p p =
      [1; nan; nan; 0; 0; nan; nan; 0; 0; nan; nan; 0; t; nan; nan; 1].
Proof.
  intros F. unfold CameraUniforms.viewMatrix. rewrite (axes_on_target p F).
  cbn [v0 v1 v2]. rewrite !mul_nan_l, !add_nan_l.
  unfold Float32Array_from. cbn [map]. eexists.
  repeat (apply f_equal2; [reflexivity|]). reflexivity.
Qed.

Lemma product_entry_nan (p v : Mat4) (i j : nat) :
  nth (1 + j * 4) v nan = nan -> CameraUniforms.product_entry p v i j = nan.
Proof.
  intros H. unfold CameraUniforms.product_entry. cbn [fold_left].
  rewrite H, mul_nan_r, add_nan_r, !add_nan_l. reflexivity.
Qed.

Lemma multiply_nan (p v : Mat4) :
  (forall j, (j < 4)%nat -> nth (1 + j * 4) v nan = nan) ->
  CameraUniforms.multiply p v = repeat nan 16.
Proof.
  intros H. unfold CameraUniforms.multiply.
  change (repeat nan 16) with (map (fun _ : nat => nan) (seq 0 16)).
  apply map_ext_in. intros n I. apply in_seq in I.
  rewrite product_entry_nan; [reflexivity|].
  apply H. apply Nat.Div0.div_lt_upper_bound. lia.
Qed.

(** X17.  For a camera placed on its target, [updateCameraUniforms] writes
    sixteen NaN to the uniform buffer, whatever the field of view, the
    planes and the canvas: the direction of view is [0 / 0], the x axis
    falls back to [[1, 0, 0]], and every entry of the product has a NaN
    term. *)
Theorem camera_on_target_uniforms_are_nan (M : JS.MathLib)
    (canvas : Canvas) (camera : Camera.t) :
  finite_vec (Camera.target camera) ->
  Camera.position camera = Camera.target camera ->
  CameraUniforms.axes (Camera.position camera) (Camera.target camera) =
    (mkVec3 1 0 0, mkVec3 nan nan nan, mkVec3 nan nan nan) /\
  CameraUniforms.viewProjectionMatrix M canvas camera = repeat nan 16.
Proof.
  intros F E. rewrite E. split; [now apply axes_on_target|].
  unfold CameraUniforms.viewProjectionMatrix. rewrite E.
  destruct (viewMatrix_on_target _ F) as (t & ->).
  apply multiply_nan. intros j J.
  destruct j as [|[|[|[|j]]]]; reflexivity.
Qed.

(** X17, a run: the default camera with its target moved to its
    position. *)
Lemma camera_on_target_witness :
  let camera := Camera.setTarget 0 0 5 Examples.camera in
  finite_vec (Camera.target camera) /\
  Camera.position camera = Camera.target camera /\
  CameraUniforms.viewProjectionMatrix HostMath.math Examples.canvas camera =
    repeat nan 16.
Proof.
  intros camera.
  assert (F : finite_vec (Camera.target camera)) by (repeat split).
  assert (E : Camera.position camera = Camera.target camera)
    by reflexivity.
  split; [exact F|]. split; [exact E|].
  exact (proj2 (camera_on_target_uniforms_are_nan HostMath.math
                  Examples.canvas camera F E)).
Defined.

Lemma mul_comm (x y : float) : x * y = y * x.
Proof.
  apply Prim2SF_inj. rewrite !mul_spec. unfold SF64mul.
  destruct (Prim2SF x) as [sx|sx| |sx mx ex],
           (Prim2SF y) as [sy|sy| |sy my ey];
    cbn [SFmul]; rewrite ?(xorb_comm sx sy); try reflexivity.
  now rewrite (Pos.mul_comm mx my), (Z.add_comm ex ey).
Qed.

(** X18.  The dot product of [MathUtils] does not depend on the order of
    its arguments, in binary64 as in the reals: each product is
    commutative and the sums are taken in the same order. *)
Theorem vecDot_is_commutative (a b : Vec3) :
  MathUtils.vecDot a b = MathUtils.vecDot b a.
Proof.
  unfold MathUtils.vecDot.
  now rewrite (mul_comm (v0 a)), (mul_comm (v1 a)), (mul_comm (v2 a)).
Qed.

Lemma is_zero_intro (x : float) (s : bool) :
  Prim2SF x = S754_zero s -> is_zero x = true.
Proof.
  intros E. rewrite is_zero_key. unfold fkey. rewrite E. reflexivity.
Qed.

Lemma zero_mul_finite (z u : float) :
  is_zero z = true -> is_finite u = true ->
  is_zero (z * u) = true /\ is_zero (u * z) = true.
Proof.
  intros Z F. destruct (is_zero_spec z Z) as [s E].
  rewrite is_finite_spec in F.
  split.
  - destruct (Prim2SF u) as [su|su| |su mu eu] eqn:U; try discriminate F.
    + apply (is_zero_intro _ (xorb s su)). now rewrite mul_spec, E, U.
    + apply (is_zero_intro _ (xorb s su)). now rewrite mul_spec, E, U.
  - destruct (Prim2SF u) as [su|su| |su mu eu] eqn:U; try discriminate F.
    + apply (is_zero_intro _ (xorb su s)). now rewrite mul_spec, E, U.
    + apply (is_zero_intro _ (xorb su s)). now rewrite mul_spec, E, U.
Qed.

Lemma zero_sub_zero (a b : float) :
  is_zero a = true -> is_zero b = true -> is_zero (a - b) = true.
Proof.
  intros A B. destruct (is_zero_spec a A) as [sa Ea].
  destruct (is_zero_spec b B) as [sb Eb].
  apply (is_zero_intro _ (if xorb sa sb then sa else false)).
  rewrite sub_spec, Ea, Eb. destruct sa, sb; reflexivity.
Qed.

Lemma zero_add_zero (a b : float) :
  is_zero a = true -> is_zero b = true -> is_zero (a + b) = true.
Proof.
  intros A B. destruct (is_zero_spec a A) as [sa Ea].
  destruct (is_zero_spec b B) as [sb Eb].
  apply (is_zero_intro _ (if xorb sa sb then false else sa)).
  rewrite add_spec, Ea, Eb. destruct sa, sb; reflexivity.
Qed.

Lemma zero_opp (a : float) : is_zero a = true -> is_zero (- a) = true.
Proof.
  intros A. destruct (is_zero_spec a A) as [sa Ea].
  apply (is_zero_intro _ (negb sa)). now rewrite opp_spec, Ea.
Qed.

Lemma zero_square (a : float) : is_zero a = true -> a * a = 0.
Proof.
  intros A. destruct (is_zero_spec a A) as [sa Ea].
  apply Prim2SF_inj. rewrite mul_spec, Ea. now destruct sa.
Qed.

Lemma fround_zero (a : float) :
  is_zero a = true -> is_zero (fround a) = true.
Proof.
  intros A. destruct (is_zero_spec a A) as [sa Ea].
  unfold fround. rewrite Ea. now destruct sa.
Qed.

Lemma vecNormalize_zero (a b c : float) :
  is_zero a = true -> is_zero b = true -> is_zero c = true ->
  MathUtils.vecNormalize (mkVec3 a b c) = mkVec3 0 0 0.
Proof.
  intros A B C. unfold MathUtils.vecNormalize, MathUtils.vecLength.
  cbn [v0 v1 v2]. now rewrite !zero_square by assumption.
Qed.

(** X19.  [MathUtils.lookAt] with the eye on the target divides by no
    length: both normalisations return [[0, 0, 0]], and the matrix is
    twelve zeros, three translations that are zero, and 1, for any finite
    eye and up; no entry is NaN. *)
Theorem lookAt_with_eye_on_target (eye up : Vec3) :
  finite_vec eye -> finite_vec up ->
  exists a b c,
    is_zero a = true /\ is_zero b = true /\ is_zero c = true /\
    MathUtils.lookAt eye eye up =
      [0; 0; 0; 0; 0; 0; 0; 0; 0; 0; 0; 0; a; b; c; 1].
Proof.
  intros (E0 & E1 & E2) (U0 & U1 & U2). unfold MathUtils.lookAt.
  assert (Z : MathUtils.vecNormalize (MathUtils.vecSubtract eye eye) =
              mkVec3 0 0 0).
  { unfold MathUtils.vecSubtract. rewrite !sub_diag_finite by assumption.
    reflexivity. }
  rewrite Z.
  assert (X : MathUtils.vecNormalize (MathUtils.vecCross up (mkVec3 0 0 0)) =
              mkVec3 0 0 0).
  { unfold MathUtils.vecCross. cbn [v0 v1 v2].
    apply vecNormalize_zero; apply zero_sub_zero;
      now apply (zero_mul_finite 0). }
  rewrite X.
  change (MathUtils.vecCross (mkVec3 0 0 0) (mkVec3 0 0 0))
    with (mkVec3 0 0 0).
  cbn [v0 v1 v2]. unfold Float32Array_from. cbn [map].
  change (fround 0) with 0. change (fround 1) with 1.
  exists (fround (- MathUtils.vecDot (mkVec3 0 0 0) eye)).
  exists (fround (- MathUtils.vecDot (mkVec3 0 0 0) eye)).
  exists (fround (- MathUtils.vecDot (mkVec3 0 0 0) eye)).
  assert (D : is_zero (fround (- MathUtils.vecDot (mkVec3 0 0 0) eye))
              = true).
  { apply fround_zero, zero_opp. unfold MathUtils.vecDot. cbn [v0 v1 v2].
    repeat apply zero_add_zero; now apply (zero_mul_finite 0). }
  repeat split; try exact D.
Qed.

(** X19, a run: eye and target at (1, 2, 5). *)
Lemma lookAt_with_eye_on_target_witness :
  finite_vec (mkVec3 1 2 5) /\ finite_vec (mkVec3 0 1 0) /\
  MathUtils.lookAt (mkVec3 1 2 5) (mkVec3 1 2 5) (mkVec3 0 1 0) =
    [0; 0; 0; 0; 0; 0; 0; 0; 0; 0; 0; 0; -0; -0; -0; 1] /\
  exists a b c,
    is_zero a = true /\ is_zero b = true /\ is_zero c = true /\
    MathUtils.lookAt (mkVec3 1 2 5) (mkVec3 1 2 5) (mkVec3 0 1 0) =
      [0; 0; 0; 0; 0; 0; 0; 0; 0; 0; 0; 0; a; b; c; 1].
Proof.
  assert (E : finite_vec (mkVec3 1 2 5)) by (repeat split).
  assert (U : finite_vec (mkVec3 0 1 0)) by (repeat split).
  split; [exact E|]. split; [exact U|].
  split; [vm_compute; reflexivity|].
  exact (lookAt_with_eye_on_target (mkVec3 1 2 5) (mkVec3 0 1 0) E U).
Defined.
